(** * skillsmd: provider matching, well-known discovery and the lock store

    A shallow embedding of the decision logic of
    [skillsmd/providers/*.py] and [skillsmd/skill_lock.py].

    Conventions of the embedding.
    - A Python [str] is a Rocq [string]; the development covers ASCII text,
      so [str.lower] maps [A-Z] to [a-z] and leaves every other character.
    - A dynamically typed Python value (what [json.loads] or a YAML loader
      hands back) is a [pyval].
    - A [dict] with string keys is a [gmap string _].
    - Code that may raise returns a [result]; [except] clauses are written
      as handlers on the exception class.
    - The outside world (file system, HTTP, clock, front-matter parser) is an
      explicit argument: the outcome of each library call is an input. *)

From Stdlib Require Import Ascii String SpecFloat.
From stdpp Require Import gmap strings list fin_maps.

Set Warnings "-register-all".
Local Open Scope string_scope.
Local Open Scope Z_scope.

(** ** Python string primitives *)

Module PyStr.

Definition ascii_eqb (a b : ascii) : bool := Ascii.eqb a b.

Definition code (c : ascii) : nat := nat_of_ascii c.

Definition is_upper (c : ascii) : bool :=
  (Nat.leb 65 (code c)) && (Nat.leb (code c) 90).

Definition is_lower (c : ascii) : bool :=
  (Nat.leb 97 (code c)) && (Nat.leb (code c) 122).

Definition is_digit (c : ascii) : bool :=
  (Nat.leb 48 (code c)) && (Nat.leb (code c) 57).

(** [c.isascii() and c.isalpha()] *)
Definition is_ascii_alpha (c : ascii) : bool := is_upper c || is_lower c.

Definition lower_char (c : ascii) : ascii :=
  if is_upper c then ascii_of_nat (code c + 32) else c.

(** [s.lower()] *)
Fixpoint lower (s : string) : string :=
  match s with
  | EmptyString => EmptyString
  | String c s' => String (lower_char c) (lower s')
  end.

(** [len(s)] *)
Definition len (s : string) : nat := String.length s.

(** [s.startswith(p)] *)
Fixpoint startswith (s p : string) {struct p} : bool :=
  match p, s with
  | EmptyString, _ => true
  | String a p', String b s' => ascii_eqb a b && startswith s' p'
  | String _ _, EmptyString => false
  end.

Fixpoint take (n : nat) (s : string) : string :=
  match n, s with
  | S n', String c s' => String c (take n' s')
  | _, _ => EmptyString
  end.

Fixpoint drop (n : nat) (s : string) : string :=
  match n, s with
  | S n', String _ s' => drop n' s'
  | _, _ => s
  end.

(** [s.endswith(x)] *)
Definition endswith (s x : string) : bool :=
  Nat.leb (len x) (len s) && String.eqb (drop (len s - len x) s) x.

(** [sub in s] *)
Fixpoint contains (s sub : string) : bool :=
  startswith s sub ||
  match s with
  | EmptyString => false
  | String _ s' => contains s' sub
  end.

(** [c in s] for a single character *)
Fixpoint has_char (s : string) (c : ascii) : bool :=
  match s with
  | EmptyString => false
  | String x s' => ascii_eqb x c || has_char s' c
  end.

(** Offset of the first occurrence of [sub] in [s], if any. *)
Fixpoint index_of (s sub : string) : option nat :=
  if startswith s sub then Some O
  else match s with
       | EmptyString => None
       | String _ s' => S <$> index_of s' sub
       end.

(** [s.find(sub)]: the lowest index, or -1. *)
Definition find (s sub : string) : Z :=
  match index_of s sub with
  | Some i => Z.of_nat i
  | None => -1
  end.

(** A slice bound as Python clamps it: negative bounds count from the end. *)
Definition clamp (s : string) (i : Z) : nat :=
  let n := Z.of_nat (len s) in
  if i <? 0 then Z.to_nat (Z.max 0 (n + i)) else Z.to_nat (Z.min n i).

(** [s[:stop]] *)
Definition slice_to (s : string) (stop : Z) : string := take (clamp s stop) s.

(** [s[start:]] *)
Definition slice_from (s : string) (start : Z) : string := drop (clamp s start) s.

(** Longest prefix whose characters satisfy [p], and the rest. *)
Fixpoint span (p : ascii → bool) (s : string) : string * string :=
  match s with
  | EmptyString => (EmptyString, EmptyString)
  | String c s' =>
      if p c then let '(a, b) := span p s' in (String c a, b)
      else (EmptyString, s)
  end.

Fixpoint filter (p : ascii → bool) (s : string) : string :=
  match s with
  | EmptyString => EmptyString
  | String c s' => if p c then String c (filter p s') else filter p s'
  end.

Fixpoint all (p : ascii → bool) (s : string) : bool :=
  match s with
  | EmptyString => true
  | String c s' => p c && all p s'
  end.

(** [s.rstrip(c)] for a one-character set: [None] stands for a suffix made
    of [c] only, which the wrapper turns into the empty string. *)
Fixpoint rstrip_aux (c : ascii) (s : string) : option string :=
  match s with
  | EmptyString => None
  | String x s' =>
      match rstrip_aux c s' with
      | Some r => Some (String x r)
      | None => if ascii_eqb x c then None else Some (String x EmptyString)
      end
  end.

Definition rstrip (c : ascii) (s : string) : string :=
  default EmptyString (rstrip_aux c s).

(** [s.lstrip(c)] for a one-character set *)
Definition lstrip (c : ascii) (s : string) : string :=
  snd (span (ascii_eqb c) s).

(** [s.strip(c)] *)
Definition strip (c : ascii) (s : string) : string := rstrip c (lstrip c s).

(** [s.partition(c)] for a one-character separator: the text before the
    first [c], whether [c] was found, and the text after it. *)
Definition partition (c : ascii) (s : string) : string * bool * string :=
  let '(a, b) := span (λ x, negb (ascii_eqb x c)) s in
  match b with
  | EmptyString => (a, false, EmptyString)
  | String _ b' => (a, true, b')
  end.

(** [s.rpartition(c)[2]]: the text after the last [c], or all of [s]. *)
Fixpoint after_last (c : ascii) (s : string) : string :=
  match s with
  | EmptyString => EmptyString
  | String x s' =>
      if has_char s' c then after_last c s'
      else if ascii_eqb x c then s' else s
  end.

(** [s.replace(old, new)] for a non-empty [old]: occurrences are replaced
    left to right without overlap.  [skip] counts the characters of the
    occurrence just replaced that are still to be passed over. *)
Fixpoint replace_aux (old new : string) (skip : nat) (s : string) : string :=
  match s with
  | EmptyString => EmptyString
  | String c s' =>
      match skip with
      | S k => replace_aux old new k s'
      | O =>
          if startswith s old
          then new ++ replace_aux old new (len old - 1) s'
          else String c (replace_aux old new O s')
      end
  end.

Definition replace (s old new : string) : string := replace_aux old new O s.

End PyStr.

(** ** Exceptions and results *)

(** The exception classes the modelled code can meet. *)
Inductive exn : Set :=
  | OSError
  | FileNotFoundError
  | ValueError
  | JSONDecodeError
  | UnicodeDecodeError
  | AttributeError
  | TypeError
  | RequestError   (* httpx.RequestError and its subclasses *)
  | YAMLError.     (* yaml.YAMLError and its subclasses *)

Global Instance exn_eq_dec : EqDecision exn.
Proof. solve_decision. Defined.

(** The direct base class, when it is not [Exception] itself. *)
Definition base_class (e : exn) : option exn :=
  match e with
  | FileNotFoundError => Some OSError
  | JSONDecodeError => Some ValueError
  | UnicodeDecodeError => Some ValueError
  | _ => None
  end.

(** [isinstance(e, cls)] *)
Definition isinstance (e cls : exn) : bool :=
  bool_decide (e = cls) || bool_decide (base_class e = Some cls).

Inductive result (A : Type) : Type :=
  | Ok (a : A)
  | Raise (e : exn).
Arguments Ok {A} a.
Arguments Raise {A} e.

Global Instance result_ret : MRet result := λ A a, Ok a.

Global Instance result_bind : MBind result := λ A B k m,
  match m with
  | Ok a => k a
  | Raise e => Raise e
  end.

(** [try: body  except classes: handler] *)
Definition try_except {A} (body : result A) (classes : list exn)
    (handler : result A) : result A :=
  match body with
  | Ok a => Ok a
  | Raise e => if existsb (isinstance e) classes then handler else Raise e
  end.

(** [try: body  except Exception: handler] *)
Definition try_except_all {A} (body : result A) (handler : A) : A :=
  match body with
  | Ok a => a
  | Raise _ => handler
  end.

(** ** Python values *)

Inductive pyval : Type :=
  | VNone
  | VBool (b : bool)
  | VInt (z : Z)
  | VFloat (f : spec_float)
  | VStr (s : string)
  | VList (l : list pyval)
  | VDict (d : gmap string pyval).

(** Truth value of an object in a condition. *)
Definition truthy (v : pyval) : bool :=
  match v with
  | VNone => false
  | VBool b => b
  | VInt z => negb (z =? 0)
  | VFloat (S754_zero _) => false
  | VFloat _ => true
  | VStr s => negb (String.eqb s "")
  | VList l => match l with [] => false | _ => true end
  | VDict d => match map_to_list d with [] => false | _ => true end
  end.

(** [d.get(key, default)] *)
Definition dict_get (d : gmap string pyval) (key : string) (dflt : pyval) : pyval :=
  default dflt (d !! key).

(** [v.get(key, default)] on an arbitrary object: only a dict has [get]. *)
Definition py_get (v : pyval) (key : string) (dflt : pyval) : result pyval :=
  match v with
  | VDict d => Ok (dict_get d key dflt)
  | _ => Raise AttributeError
  end.

(** [isinstance(v, int)]; [bool] is a subclass of [int]. *)
Definition is_int (v : pyval) : bool :=
  match v with
  | VInt _ | VBool _ => true
  | _ => false
  end.

Definition int_value (v : pyval) : Z :=
  match v with
  | VInt z => z
  | VBool b => if b then 1 else 0
  | _ => 0
  end.

(** ** [urllib.parse.urlparse] *)

(** The standard library function, as CPython 3.11/3.12 defines it, on the
    three components and the [hostname] property the providers read.  The
    validation CPython applies to a netloc that holds both square brackets
    differs between releases and is left open as [check_bracketed_netloc]
    ([true]: accepted, [false]: [ValueError]). *)

Class NetlocValidation := check_bracketed_netloc : string → bool.

Module UrlParse.
Import PyStr.

Record ParseResult : Set := {
  scheme : string;
  netloc : string;
  path : string;
}.

Definition c0_control_or_space (c : ascii) : bool := Nat.leb (code c) 32.

(** tab, carriage return, line feed *)
Definition unsafe_byte (c : ascii) : bool :=
  Nat.eqb (code c) 9 || Nat.eqb (code c) 13 || Nat.eqb (code c) 10.

Definition scheme_char (c : ascii) : bool :=
  is_lower c || is_upper c || is_digit c || has_char "+-." c.

Definition uses_params : list string :=
  [""; "ftp"; "hdl"; "prospero"; "http"; "imap"; "https"; "shttp"; "rtsp";
   "rtspu"; "sip"; "sips"; "mms"; "sftp"; "tel"].

(** The scheme and what follows its colon, or no scheme and the input. *)
Definition split_scheme (url : string) : string * string :=
  let '(pre, found, rest) := partition ":" url in
  match pre with
  | String c0 _ =>
      if found && is_ascii_alpha c0 && all scheme_char pre
      then (lower pre, rest)
      else (EmptyString, url)
  | EmptyString => (EmptyString, url)
  end.

Definition netloc_delim (c : ascii) : bool := has_char "/?#" c.

(** [_splitnetloc(url, 2)] *)
Definition _splitnetloc (url : string) : string * string :=
  span (λ c, negb (netloc_delim c)) (drop 2 url).

(** The bracket checks of [urlsplit]. *)
Definition netloc_accepted `{NetlocValidation} (nl : string) : bool :=
  match has_char nl "[", has_char nl "]" with
  | false, false => true
  | true, true => check_bracketed_netloc nl
  | _, _ => false
  end.

(** [_splitparams(url)[0]] *)
Fixpoint _splitparams (url : string) : string :=
  match url with
  | EmptyString => EmptyString
  | String c url' =>
      if has_char url' "/" then String c (_splitparams url')
      else (partition ";" url).1.1
  end.

Definition urlparse `{NetlocValidation} (url : string) : result ParseResult :=
  let url := snd (span c0_control_or_space url) in
  let url := filter (λ c, negb (unsafe_byte c)) url in
  let '(scheme, url) := split_scheme url in
  '(netloc, url) ←
    (if startswith url "//" then
       let '(nl, rest) := _splitnetloc url in
       if netloc_accepted nl then Ok (nl, rest) else Raise ValueError
     else Ok (EmptyString, url));
  let url := (partition "#" url).1.1 in
  let url := (partition "?" url).1.1 in
  let url := if bool_decide (scheme ∈ uses_params) then _splitparams url else url in
  Ok {| scheme := scheme; netloc := netloc; path := url |}.

(** [_hostinfo[0]] *)
Definition hostinfo_host (nl : string) : string :=
  let hostinfo := after_last "@" nl in
  let '(_, have_open_br, bracketed) := partition "[" hostinfo in
  if have_open_br then (partition "]" bracketed).1.1
  else (partition ":" hostinfo).1.1.

(** The [hostname] property: [None] when the netloc names no host. *)
Definition hostname (r : ParseResult) : option string :=
  match hostinfo_host (netloc r) with
  | EmptyString => None
  | h =>
      let '(h, percent, zone) := partition "%" h in
      Some (lower h ++ (if percent then "%" else "") ++ zone)
  end.

End UrlParse.

(** ** providers/base.py *)

Record RemoteSkill : Type := {
  name : pyval;
  description : pyval;
  content : string;
  install_name : pyval;
  source_url : string;
  metadata : option (gmap string pyval);
}.

Record ProviderMatch : Set := {
  matches : bool;
  source_identifier : option string;
}.

(** [ProviderMatch(matches=False)] *)
Definition no_match : ProviderMatch :=
  {| matches := false; source_identifier := None |}.

(** An entry of the well-known index, as [fetch_index] builds it. *)
Record WellKnownSkillEntry : Type := {
  entry_name : pyval;
  entry_description : pyval;
  entry_files : pyval;
}.

Record WellKnownIndex : Type := {
  index_skills : list WellKnownSkillEntry;
}.

(** [WellKnownSkill(RemoteSkill)]: the inherited fields and the two added. *)
Record WellKnownSkill : Type := {
  remote : RemoteSkill;
  files : gmap string string;
  index_entry : option WellKnownSkillEntry;
}.

(** A value of static type [RemoteSkill]: the class or its subclass. *)
Inductive Skill : Type :=
  | Remote (r : RemoteSkill)
  | WellKnown (w : WellKnownSkill).

Record Response : Set := {
  status_code : Z;
  text : string;
}.

(** The collaborators of the providers.  [http_get] is
    [httpx.AsyncClient().get(url, timeout=30.0, follow_redirects=True)] and
    [frontmatter_loads] gives the metadata of [frontmatter.loads(content)];
    [fetch_index] and [fetch_skill_by_entry] are the two network methods of
    the well-known provider (wellknown.py, lines 113-222), taken by their
    outcome. *)
Record World : Type := {
  http_get : string → result Response;
  frontmatter_loads : string → result (gmap string pyval);
  fetch_index : string → result (option WellKnownIndex);
  fetch_skill_by_entry :
    string → WellKnownSkillEntry → result (option WellKnownSkill);
}.

(** The abstract base class [HostProvider]. *)
Record HostProvider : Type := {
  id : string;
  display_name : string;
  match_ : string → ProviderMatch;
  fetch_skill : World → string → result (option Skill);
  to_raw_url : string → string;
  get_source_identifier : string → string;
}.

(** The front-matter keys other than [name] and [description]. *)
Definition extra_metadata (md : gmap string pyval) : gmap string pyval :=
  filter (λ kv, kv.1 ∉ ["name"; "description"]) md.

(** [metadata if metadata else None] *)
Definition metadata_or_none (md : gmap string pyval) : option (gmap string pyval) :=
  if truthy (VDict md) then Some md else None.

(** [name.lower().replace(' ', '-')]: only a [str] has [lower]. *)
Definition name_based_install_name (name : pyval) : result pyval :=
  match name with
  | VStr s => Ok (VStr (PyStr.replace (PyStr.lower s) " " "-"))
  | _ => Raise AttributeError
  end.

(** The install name taken from the nested [metadata] mapping under [key]. *)
Definition metadata_install_name (md : gmap string pyval) (key : string) : pyval :=
  match md !! "metadata" with
  | Some (VDict meta) => dict_get meta key VNone
  | _ => VNone
  end.

(** *** providers/huggingface.py *)

Module HuggingFace.
Section defs.
Context `{validation : !NetlocValidation}.

(** One attempt of [/spaces/([^/]+)/([^/]+)] at the start of [s]: each
    group is a maximal run of characters other than [/]. *)
Definition match_here (s : string) : option (string * string) :=
  if PyStr.startswith s "/spaces/" then
    let '(owner, rest) :=
      PyStr.span (λ c, negb (PyStr.ascii_eqb c "/")) (PyStr.drop 8 s) in
    match owner, rest with
    | String _ _, String _ rest' =>
        match PyStr.span (λ c, negb (PyStr.ascii_eqb c "/")) rest' with
        | (String c r, _) => Some (owner, String c r)
        | _ => None
        end
    | _, _ => None
    end
  else None.

(** [re.search(r'/spaces/([^/]+)/([^/]+)', url)]: the leftmost match,
    as the pair (owner, repo). *)
Fixpoint _parse_url (url : string) : option (string * string) :=
  match match_here url with
  | Some r => Some r
  | None =>
      match url with
      | EmptyString => None
      | String _ url' => _parse_url url'
      end
  end.

Definition get_source_identifier (url : string) : string :=
  match _parse_url url with
  | Some (owner, repo) => "huggingface/" ++ owner ++ "/" ++ repo
  | None => "huggingface"
  end.

Definition match_ (url : string) : ProviderMatch :=
  if negb (PyStr.startswith url "http://") && negb (PyStr.startswith url "https://")
  then no_match
  else
    try_except_all
      (parsed ← UrlParse.urlparse url;
       let hostname := default "" (UrlParse.hostname parsed) in
       if negb (String.eqb hostname "huggingface.co") then Ok no_match
       else if negb (PyStr.contains url "/spaces/") then Ok no_match
       else if negb (PyStr.endswith (PyStr.lower url) "/skill.md") then Ok no_match
       else Ok {| matches := true;
                  source_identifier := Some (get_source_identifier url) |})
      no_match.

Definition to_raw_url (url : string) : string :=
  PyStr.replace url "/blob/" "/raw/".

Definition fetch_skill (w : World) (url : string) : result (option Skill) :=
  try_except
    (let raw_url := to_raw_url url in
     response ← http_get w raw_url;
     if negb (status_code response =? 200) then Ok None
     else
       let content := text response in
       post ← frontmatter_loads w content;
       let name := dict_get post "name" VNone in
       let description := dict_get post "description" VNone in
       if negb (truthy name) || negb (truthy description) then Ok None
       else
         let metadata := extra_metadata post in
         let install_name := metadata_install_name post "install-name" in
         install_name ←
           (if negb (truthy install_name) then
              match _parse_url url with
              | Some (_, repo) => Ok (VStr repo)
              | None => name_based_install_name name
              end
            else Ok install_name);
         Ok (Some (Remote {| name := name;
                             description := description;
                             content := content;
                             install_name := install_name;
                             source_url := url;
                             metadata := metadata_or_none metadata |})))
    [RequestError; ValueError]
    (Ok None).

End defs.
End HuggingFace.

(** *** providers/mintlify.py *)

Module Mintlify.
Section defs.
Context `{validation : !NetlocValidation}.

Definition EXCLUDED_HOSTS : list string :=
  ["github.com"; "gitlab.com"; "huggingface.co"; "raw.githubusercontent.com"].

Definition get_source_identifier (url : string) : string :=
  try_except_all
    (parsed ← UrlParse.urlparse url;
     let hostname := default "com" (UrlParse.hostname parsed) in
     Ok ("mintlify/" ++ hostname))
    "mintlify/com".

Definition match_ (url : string) : ProviderMatch :=
  if negb (PyStr.startswith url "http://") && negb (PyStr.startswith url "https://")
  then no_match
  else if negb (PyStr.endswith (PyStr.lower url) "/skill.md") then no_match
  else
    try_except_all
      (parsed ← UrlParse.urlparse url;
       let hostname := default "" (UrlParse.hostname parsed) in
       if bool_decide (hostname ∈ EXCLUDED_HOSTS) then Ok no_match
       else Ok {| matches := true;
                  source_identifier := Some (get_source_identifier url) |})
      no_match.

Definition to_raw_url (url : string) : string := url.

Definition fetch_skill (w : World) (url : string) : result (option Skill) :=
  try_except
    (response ← http_get w url;
     if negb (status_code response =? 200) then Ok None
     else
       let content := text response in
       post ← frontmatter_loads w content;
       let name := dict_get post "name" VNone in
       let description := dict_get post "description" VNone in
       if negb (truthy name) || negb (truthy description) then Ok None
       else
         let metadata := extra_metadata post in
         let install_name := metadata_install_name post "mintlify-proj" in
         install_name ←
           (if negb (truthy install_name) then name_based_install_name name
            else Ok install_name);
         Ok (Some (Remote {| name := name;
                             description := description;
                             content := content;
                             install_name := install_name;
                             source_url := url;
                             metadata := metadata_or_none metadata |})))
    [RequestError; ValueError]
    (Ok None).

End defs.
End Mintlify.

(** *** providers/wellknown.py *)

(** [asyncio.gather] applied to the tasks: the results in the order of the tasks when all
    of them return.  A task that raises makes the call raise.  With several
    raising tasks [asyncio.gather] propagates the exception raised first in
    time; this model reports the first in list order, and what is stated
    of a raising call does not depend on which of them is reported. *)
Fixpoint gather {A} (tasks : list (result A)) : result (list A) :=
  match tasks with
  | [] => Ok []
  | t :: ts => r ← t; rs ← gather ts; Ok (r :: rs)
  end.

(** [v == s] for a string [s] *)
Definition eq_str (v : pyval) (s : string) : bool :=
  match v with
  | VStr t => String.eqb t s
  | _ => false
  end.

Module WellKnownProvider.
Section defs.
Context `{validation : !NetlocValidation}.

Definition EXCLUDED_HOSTS : list string :=
  ["github.com"; "gitlab.com"; "huggingface.co"; "raw.githubusercontent.com"].

Definition get_source_identifier (url : string) : string :=
  try_except_all
    (parsed ← UrlParse.urlparse url;
     Ok (default url (UrlParse.hostname parsed)))
    url.

Definition match_ (url : string) : ProviderMatch :=
  if negb (PyStr.startswith url "http://") && negb (PyStr.startswith url "https://")
  then no_match
  else
    try_except_all
      (parsed ← UrlParse.urlparse url;
       let hostname := default "" (UrlParse.hostname parsed) in
       if bool_decide (hostname ∈ EXCLUDED_HOSTS) then Ok no_match
       else if PyStr.endswith (PyStr.lower url) "/skill.md" then Ok no_match
       else if PyStr.endswith url ".git" then Ok no_match
       else Ok {| matches := true;
                  source_identifier := Some (get_source_identifier url) |})
      no_match.

Definition to_raw_url (url : string) : string := url.

Definition _get_well_known_base (url : string) : result string :=
  parsed ← UrlParse.urlparse url;
  let path := PyStr.rstrip "/" (UrlParse.path parsed) in
  if PyStr.contains path "/.well-known/skills" then
    let idx := PyStr.find path "/.well-known/skills" in
    let base_path :=
      PyStr.slice_to path (idx + Z.of_nat (PyStr.len "/.well-known/skills")) in
    Ok (UrlParse.scheme parsed ++ "://" ++ UrlParse.netloc parsed ++ base_path)
  else
    let base_path := if String.eqb path "" then "" else path in
    Ok (UrlParse.scheme parsed ++ "://" ++ UrlParse.netloc parsed ++ base_path
          ++ "/.well-known/skills").

(** The skill named in the URL after [/.well-known/skills/], if any. *)
Definition requested_skill_name (url : string) : option string :=
  if PyStr.contains url "/.well-known/skills/" then
    let idx := PyStr.find url "/.well-known/skills/" in
    let remainder :=
      PyStr.strip "/"
        (PyStr.slice_from url (idx + Z.of_nat (PyStr.len "/.well-known/skills/"))) in
    if negb (String.eqb remainder "") && negb (PyStr.contains remainder "/")
    then Some remainder
    else None
  else None.

Definition fetch_skill (w : World) (url : string) : result (option Skill) :=
  index ← fetch_index w url;
  match index with
  | Some index =>
      match index_skills index with
      | [] => Ok None
      | first :: _ =>
          match requested_skill_name url with
          | Some skill_name =>
              match List.find (λ entry, eq_str (entry_name entry) skill_name)
                      (index_skills index) with
              | Some entry =>
                  r ← fetch_skill_by_entry w url entry; Ok (WellKnown <$> r)
              | None => Ok None
              end
          | None =>
              r ← fetch_skill_by_entry w url first; Ok (WellKnown <$> r)
          end
      end
  | None => Ok None
  end.

Definition fetch_all_skills (w : World) (url : string) : result (list WellKnownSkill) :=
  index ← fetch_index w url;
  match index with
  | None => Ok []
  | Some index =>
      match index_skills index with
      | [] => Ok []
      | _ =>
          let tasks := fetch_skill_by_entry w url <$> index_skills index in
          results ← gather tasks;
          Ok (omap (λ skill, skill) results)
      end
  end.

End defs.
End WellKnownProvider.

(** *** providers/__init__.py *)

Module ProviderRegistry.

(** [register]: a provider whose id is already present is not added. *)
Definition register (providers : list HostProvider) (provider : HostProvider)
    : list HostProvider :=
  if existsb (λ existing, String.eqb (id existing) (id provider)) providers
  then providers
  else providers ++ [provider].

Fixpoint find_provider (providers : list HostProvider) (url : string)
    : option HostProvider :=
  match providers with
  | [] => None
  | provider :: rest =>
      if matches (match_ provider url) then Some provider
      else find_provider rest url
  end.

Definition get_providers (providers : list HostProvider) : list HostProvider :=
  providers.

End ProviderRegistry.

Section registry.
Context `{validation : !NetlocValidation}.

Definition mintlify_provider : HostProvider :=
  {| id := "mintlify";
     display_name := "Mintlify";
     match_ := Mintlify.match_;
     fetch_skill := Mintlify.fetch_skill;
     to_raw_url := Mintlify.to_raw_url;
     get_source_identifier := Mintlify.get_source_identifier |}.

Definition huggingface_provider : HostProvider :=
  {| id := "huggingface";
     display_name := "HuggingFace";
     match_ := HuggingFace.match_;
     fetch_skill := HuggingFace.fetch_skill;
     to_raw_url := HuggingFace.to_raw_url;
     get_source_identifier := HuggingFace.get_source_identifier |}.

Definition wellknown_provider : HostProvider :=
  {| id := "well-known";
     display_name := "Well-Known Skills";
     match_ := WellKnownProvider.match_;
     fetch_skill := WellKnownProvider.fetch_skill;
     to_raw_url := WellKnownProvider.to_raw_url;
     get_source_identifier := WellKnownProvider.get_source_identifier |}.

(** The global registry after the module has been imported: the two
    [register_provider] calls, in their order. *)
Definition registry : list HostProvider :=
  ProviderRegistry.register
    (ProviderRegistry.register [] huggingface_provider)
    mintlify_provider.

(** [fetch_remote_skill], reading the registry it is given. *)
Definition fetch_remote_skill (providers : list HostProvider) (w : World)
    (url : string) : result (option Skill) :=
  match ProviderRegistry.find_provider providers url with
  | Some provider => fetch_skill provider w url
  | None =>
      let match_result := match_ wellknown_provider url in
      if matches match_result then fetch_skill wellknown_provider w url
      else Ok None
  end.

End registry.

(** ** skill_lock.py *)

Module SkillLock.

Definition CURRENT_VERSION : Z := 3.

Record SkillLockEntry : Type := {
  source : pyval;
  source_type : pyval;
  source_url : pyval;
  skill_folder_hash : pyval;
  installed_at : pyval;
  updated_at : pyval;
  skill_path : pyval;
}.

Record DismissedPrompts : Type := {
  find_skills_prompt : pyval;
}.

Record SkillLockFile : Type := {
  version : pyval;
  skills : gmap string SkillLockEntry;
  dismissed : DismissedPrompts;
  last_selected_agents : pyval;
}.

(** The text of a file, known by what [json.loads] makes of it: a
    [JSONDecodeError], or a value.  [json.dumps] writes a text that loads
    back to the value it was given.  A text on which [json.loads] fails at
    a limit of the interpreter (CPython raises a plain [ValueError] for an
    integer of more than 4300 digits, and [RecursionError] for nesting
    beyond the recursion limit) is outside this type: what is stated of a
    file is stated of the texts within it. *)
Inductive text : Type :=
  | NotJson
  | Json (v : pyval).

(** What is at the lock path [~/.agents/.skill-lock.json]. *)
Inductive file : Type :=
  | Absent                (* [read_text] raises [FileNotFoundError] *)
  | Unreadable            (* [read_text] raises another [OSError] *)
  | Undecodable           (* the bytes are not UTF-8: [UnicodeDecodeError] *)
  | Content (t : text).

(** The lock path and the number of [write_text] calls made on it.  The
    directory can be created and the file written: [write_skill_lock] has no
    failing outcome here. *)
Record Disk : Type := {
  lock_file : file;
  writes : nat;
}.

Definition read_text (f : file) : result text :=
  match f with
  | Absent => Raise FileNotFoundError
  | Unreadable => Raise OSError
  | Undecodable => Raise UnicodeDecodeError
  | Content t => Ok t
  end.

Definition json_loads (t : text) : result pyval :=
  match t with
  | NotJson => Raise JSONDecodeError
  | Json v => Ok v
  end.

Definition json_dumps (v : pyval) : text := Json v.

Definition _lock_entry_to_dict (entry : SkillLockEntry) : gmap string pyval :=
  let result : gmap string pyval :=
    <["source" := source entry]>
    (<["sourceType" := source_type entry]>
    (<["sourceUrl" := source_url entry]>
    (<["skillFolderHash" := skill_folder_hash entry]>
    (<["installedAt" := installed_at entry]>
    (<["updatedAt" := updated_at entry]> ∅))))) in
  if truthy (skill_path entry)
  then <["skillPath" := skill_path entry]> result
  else result.

Definition _dict_to_lock_entry (data : pyval) : result SkillLockEntry :=
  source ← py_get data "source" (VStr "");
  source_type ← py_get data "sourceType" (VStr "");
  source_url ← py_get data "sourceUrl" (VStr "");
  skill_folder_hash ← py_get data "skillFolderHash" (VStr "");
  installed_at ← py_get data "installedAt" (VStr "");
  updated_at ← py_get data "updatedAt" (VStr "");
  skill_path ← py_get data "skillPath" VNone;
  Ok {| source := source;
        source_type := source_type;
        source_url := source_url;
        skill_folder_hash := skill_folder_hash;
        installed_at := installed_at;
        updated_at := updated_at;
        skill_path := skill_path |}.

Definition _lock_file_to_dict (lock : SkillLockFile) : gmap string pyval :=
  let result : gmap string pyval :=
    <["version" := version lock]>
    (<["skills" := VDict ((λ entry, VDict (_lock_entry_to_dict entry)) <$> skills lock)]> ∅) in
  (* [if lock.dismissed:] an instance of the dataclass is always true *)
  let result :=
    <["dismissed" :=
        VDict (<["findSkillsPrompt" := find_skills_prompt (dismissed lock)]> ∅)]> result in
  if truthy (last_selected_agents lock)
  then <["lastSelectedAgents" := last_selected_agents lock]> result
  else result.

(** [v.items()]: only a dict has [items]. *)
Definition py_items (v : pyval) : result (gmap string pyval) :=
  match v with
  | VDict d => Ok d
  | _ => Raise AttributeError
  end.

Definition _dict_to_lock_file (data : gmap string pyval) : result SkillLockFile :=
  items ← py_items (dict_get data "skills" (VDict ∅));
  skills ←
    map_fold
      (λ name entry_data (acc : result (gmap string SkillLockEntry)),
         skills ← acc;
         entry ← _dict_to_lock_entry entry_data;
         Ok (<[name := entry]> skills))
      (Ok ∅) items;
  let dismissed_data := dict_get data "dismissed" (VDict ∅) in
  find_skills_prompt ← py_get dismissed_data "findSkillsPrompt" (VBool false);
  Ok {| version := dict_get data "version" (VInt CURRENT_VERSION);
        skills := skills;
        dismissed := {| find_skills_prompt := find_skills_prompt |};
        last_selected_agents := dict_get data "lastSelectedAgents" VNone |}.

Definition _create_empty_lock_file : SkillLockFile :=
  {| version := VInt CURRENT_VERSION;
     skills := ∅;
     dismissed := {| find_skills_prompt := VBool false |};
     last_selected_agents := VNone |}.

Definition read_skill_lock (d : Disk) : result SkillLockFile :=
  try_except
    (content ← read_text (lock_file d);
     data ← json_loads content;
     match data with
     | VDict data =>
         let version := dict_get data "version" VNone in
         if negb (is_int version) || negb (bool_decide (is_Some (data !! "skills")))
         then Ok _create_empty_lock_file
         else if int_value version <? CURRENT_VERSION
         then Ok _create_empty_lock_file
         else _dict_to_lock_file data
     | _ => Raise AttributeError   (* [data.get]: only a dict has [get] *)
     end)
    [FileNotFoundError; JSONDecodeError; OSError]
    (Ok _create_empty_lock_file).

Definition write_skill_lock (lock : SkillLockFile) (d : Disk) : Disk :=
  {| lock_file := Content (json_dumps (VDict (_lock_file_to_dict lock)));
     writes := S (writes d) |}.

(** [str | None] as a value *)
Definition of_optional_str (s : option string) : pyval :=
  match s with
  | Some s => VStr s
  | None => VNone
  end.

(** [now] is [datetime.now().isoformat()].  The outcome of the call and
    the disk it leaves. *)
Definition add_skill_to_lock (skill_name source source_type source_url : string)
    (skill_folder_hash : string) (skill_path : option string)
    (now : string) (d : Disk) : result unit * Disk :=
  match read_skill_lock d with
  | Raise e => (Raise e, d)
  | Ok lock =>
      let existing := skills lock !! skill_name in
      let entry :=
        {| source := VStr source;
           source_type := VStr source_type;
           source_url := VStr source_url;
           skill_folder_hash := VStr skill_folder_hash;
           installed_at :=
             match existing with
             | Some existing => installed_at existing
             | None => VStr now
             end;
           updated_at := VStr now;
           skill_path := of_optional_str skill_path |} in
      let lock :=
        {| version := version lock;
           skills := <[skill_name := entry]> (skills lock);
           dismissed := dismissed lock;
           last_selected_agents := last_selected_agents lock |} in
      (Ok (), write_skill_lock lock d)
  end.

Definition remove_skill_from_lock (skill_name : string) (d : Disk)
    : result bool * Disk :=
  match read_skill_lock d with
  | Raise e => (Raise e, d)
  | Ok lock =>
      if negb (bool_decide (is_Some (skills lock !! skill_name)))
      then (Ok false, d)
      else
        let lock :=
          {| version := version lock;
             skills := delete skill_name (skills lock);
             dismissed := dismissed lock;
             last_selected_agents := last_selected_agents lock |} in
        (Ok true, write_skill_lock lock d)
  end.

End SkillLock.

(** ** skill_lock.py: queries, flags and the folder hash *)

(** Iterating over an object: a list gives its items, a dict its keys, a
    string its characters; nothing else can be iterated. *)
Definition py_iter (v : pyval) : result (list pyval) :=
  match v with
  | VList l => Ok l
  | VDict d => Ok ((λ kv, VStr kv.1) <$> map_to_list d)
  | VStr s => Ok ((λ c, VStr (String c EmptyString)) <$> list_ascii_of_string s)
  | _ => Raise TypeError
  end.

Module SkillLockApi.

Definition get_skill_from_lock (skill_name : string) (d : SkillLock.Disk)
    : result (option SkillLock.SkillLockEntry) :=
  lock ← SkillLock.read_skill_lock d;
  Ok (SkillLock.skills lock !! skill_name).

Definition get_all_locked_skills (d : SkillLock.Disk)
    : result (gmap string SkillLock.SkillLockEntry) :=
  lock ← SkillLock.read_skill_lock d;
  Ok (SkillLock.skills lock).

Definition is_prompt_dismissed (prompt_key : string) (d : SkillLock.Disk)
    : result pyval :=
  lock ← SkillLock.read_skill_lock d;
  if String.eqb prompt_key "find_skills_prompt"
  then Ok (SkillLock.find_skills_prompt (SkillLock.dismissed lock))
  else Ok (VBool false).

Definition dismiss_prompt (prompt_key : string) (d : SkillLock.Disk)
    : result unit * SkillLock.Disk :=
  match SkillLock.read_skill_lock d with
  | Raise e => (Raise e, d)
  | Ok lock =>
      let lock :=
        if String.eqb prompt_key "find_skills_prompt"
        then {| SkillLock.version := SkillLock.version lock;
                SkillLock.skills := SkillLock.skills lock;
                SkillLock.dismissed := {| SkillLock.find_skills_prompt := VBool true |};
                SkillLock.last_selected_agents := SkillLock.last_selected_agents lock |}
        else lock in
      (Ok (), SkillLock.write_skill_lock lock d)
  end.

Definition get_last_selected_agents (d : SkillLock.Disk) : result pyval :=
  lock ← SkillLock.read_skill_lock d;
  Ok (SkillLock.last_selected_agents lock).

Definition save_selected_agents (agents : list string) (d : SkillLock.Disk)
    : result unit * SkillLock.Disk :=
  match SkillLock.read_skill_lock d with
  | Raise e => (Raise e, d)
  | Ok lock =>
      let lock :=
        {| SkillLock.version := SkillLock.version lock;
           SkillLock.skills := SkillLock.skills lock;
           SkillLock.dismissed := SkillLock.dismissed lock;
           SkillLock.last_selected_agents := VList (VStr <$> agents) |} in
      (Ok (), SkillLock.write_skill_lock lock d)
  end.

(** The one-character string that holds a backslash. *)
Definition backslash : string := String (ascii_of_nat 92) EmptyString.

(** The first lines of [fetch_skill_folder_hash]: the folder of a skill
    path, with forward slashes, without a [SKILL.md] suffix and without
    trailing slashes. *)
Definition folder_path_of (skill_path : string) : string :=
  let folder_path := PyStr.replace skill_path backslash "/" in
  let folder_path :=
    if PyStr.endswith folder_path "/SKILL.md" then PyStr.slice_to folder_path (-9)
    else if PyStr.endswith folder_path "SKILL.md" then PyStr.slice_to folder_path (-8)
    else folder_path in
  PyStr.rstrip "/" folder_path.

(** The GitHub API as the function meets it: the outcome of the GET request
    for a URL and of [response.json()] for a response body. *)
Record GitHub : Type := {
  github_get : string → result Response;
  github_json : string → result pyval;
}.

Definition tree_url (owner_repo branch : string) : string :=
  "https://api.github.com/repos/" ++ owner_repo ++ "/git/trees/" ++ branch
    ++ "?recursive=1".

(** The inner loop: the [sha] of the first entry of type [tree] at
    [folder_path]; [None] when the loop ends without a [return]. *)
Fixpoint find_tree_entry (folder_path : string) (entries : list pyval)
    : result (option pyval) :=
  match entries with
  | [] => Ok None
  | entry :: rest =>
      type ← py_get entry "type" VNone;
      if eq_str type "tree" then
        path ← py_get entry "path" VNone;
        if eq_str path folder_path then
          sha ← py_get entry "sha" VNone; Ok (Some sha)
        else find_tree_entry folder_path rest
      else find_tree_entry folder_path rest
  end.

(** One turn of the loop over the branches: [Some v] when the turn returns
    [v], [None] when it goes on to the next branch. *)
Definition lookup_on_branch (g : GitHub) (owner_repo folder_path branch : string)
    : result (option pyval) :=
  try_except
    (response ← github_get g (tree_url owner_repo branch);
     if negb (status_code response =? 200) then Ok None
     else
       data ← github_json g (text response);
       if String.eqb folder_path "" then
         sha ← py_get data "sha" VNone; Ok (Some sha)
       else
         tree ← py_get data "tree" (VList []);
         entries ← py_iter tree;
         find_tree_entry folder_path entries)
    [RequestError; JSONDecodeError]
    (Ok None).

Fixpoint lookup_on_branches (g : GitHub) (owner_repo folder_path : string)
    (branches : list string) : result pyval :=
  match branches with
  | [] => Ok VNone
  | branch :: rest =>
      found ← lookup_on_branch g owner_repo folder_path branch;
      match found with
      | Some v => Ok v
      | None => lookup_on_branches g owner_repo folder_path rest
      end
  end.

Definition fetch_skill_folder_hash (g : GitHub) (owner_repo skill_path : string)
    : result pyval :=
  lookup_on_branches g owner_repo (folder_path_of skill_path) ["main"; "master"].

End SkillLockApi.

(** ** cli.py: the update check request *)

Module Cli.
Import SkillLock.

(** The item [run_check] and [run_update] send for a tracked skill. *)
Definition check_item (skill_name : string) (entry : SkillLockEntry)
    : gmap string pyval :=
  <["name" := VStr skill_name]>
  (<["source" := source entry]>
  (<["path" := skill_path entry]>
  (<["skillFolderHash" := skill_folder_hash entry]> ∅))).

(** [check_skills]: an item for each skill of the lock whose folder hash is
    true, keyed here by the skill name (the order of the list sent is the
    order of the dict and is not kept). *)
Definition check_skills (lock : SkillLockFile) : gmap string (gmap string pyval) :=
  map_imap
    (λ skill_name entry,
       if truthy (skill_folder_hash entry)
       then Some (check_item skill_name entry)
       else None)
    (skills lock).

(** What the two commands do before any request is made. *)
Inductive check_plan : Type :=
  | NoSkillsTracked
  | NoSkillsToCheck
  | PostCheck (items : gmap string (gmap string pyval)).

(** [not xs] for a collection held as a map. *)
Definition is_empty {A} (m : gmap string A) : bool :=
  match map_to_list m with
  | [] => true
  | _ => false
  end.

Definition plan_check (d : Disk) : result check_plan :=
  lock ← read_skill_lock d;
  if is_empty (skills lock) then Ok NoSkillsTracked
  else
    let items := check_skills lock in
    if is_empty items then Ok NoSkillsToCheck
    else Ok (PostCheck items).

End Cli.

(** ** find.py: owner and repository of a package string *)

Module Find.

(** [s.rfind(c)] for one character: the highest index, or -1. *)
Fixpoint rindex_of (s : string) (c : ascii) : option nat :=
  match s with
  | EmptyString => None
  | String x s' =>
      match rindex_of s' c with
      | Some i => Some (S i)
      | None => if PyStr.ascii_eqb x c then Some O else None
      end
  end.

Definition rfind (s : string) (c : ascii) : Z :=
  match rindex_of s c with
  | Some i => Z.of_nat i
  | None => -1
  end.

(** [s.split(c)] for a one-character separator. *)
Fixpoint split (c : ascii) (s : string) : list string :=
  match s with
  | EmptyString => [EmptyString]
  | String x s' =>
      if PyStr.ascii_eqb x c then EmptyString :: split c s'
      else match split c s' with
           | part :: parts => String x part :: parts
           | [] => [String x EmptyString]
           end
  end.

Definition _get_owner_repo_from_string (pkg : string) : option (string * string) :=
  let at_index := rfind pkg "@" in
  let repo_path := if Z.ltb 0 at_index then PyStr.slice_to pkg at_index else pkg in
  match split "/" repo_path with
  | [owner; repo] => Some (owner, repo)
  | _ => None
  end.

End Find.

(** ** providers/wellknown.py: the index *)

Module WellKnownIndexFetch.
Section defs.
Context `{validation : !NetlocValidation}.

(** [has_skills_index], over the outcome of [fetch_index]. *)
Definition has_skills_index (w : World) (url : string) : result bool :=
  index ← fetch_index w url;
  match index with
  | Some index => Ok (Nat.ltb 0 (length (index_skills index)))
  | None => Ok false
  end.

(** An entry of [index.json] as [fetch_index] reads it. *)
Definition entry_of (entry : pyval) : result WellKnownSkillEntry :=
  name ← py_get entry "name" (VStr "");
  description ← py_get entry "description" (VStr "");
  files ← py_get entry "files" (VList []);
  Ok {| entry_name := name; entry_description := description; entry_files := files |}.

Fixpoint entries_of (entries : list pyval) : result (list WellKnownSkillEntry) :=
  match entries with
  | [] => Ok []
  | entry :: rest =>
      e ← entry_of entry; es ← entries_of rest; Ok (e :: es)
  end.

(** [fetch_index], with [response_json] the outcome of [response.json()]
    for a response body. *)
Definition fetch_index (w : World) (response_json : string → result pyval)
    (base_url : string) : result (option WellKnownIndex) :=
  well_known_base ← WellKnownProvider._get_well_known_base base_url;
  let index_url := well_known_base ++ "/index.json" in
  try_except
    (response ← http_get w index_url;
     if negb (status_code response =? 200) then Ok None
     else
       data ← response_json (text response);
       skills ← py_get data "skills" (VList []);
       entries ← py_iter skills;
       skills ← entries_of entries;
       Ok (Some {| index_skills := skills |}))
    [RequestError; ValueError]
    (Ok None).

End defs.
End WellKnownIndexFetch.

(** * Vocabulary of the statements *)

(** ** Vocabulary and sample data for the lock store *)

Section lock_vocabulary.
Import SkillLock.

(** The entry a well-formed JSON object stands for. *)
Definition entry_of_dict (e : gmap string pyval) : SkillLockEntry :=
  {| source := dict_get e "source" (VStr "");
     source_type := dict_get e "sourceType" (VStr "");
     source_url := dict_get e "sourceUrl" (VStr "");
     skill_folder_hash := dict_get e "skillFolderHash" (VStr "");
     installed_at := dict_get e "installedAt" (VStr "");
     updated_at := dict_get e "updatedAt" (VStr "");
     skill_path := dict_get e "skillPath" VNone |}.

(** What a value becomes when it is written under an [if value:] guard
    and read back with a [None] default. *)
Definition kept_if_truthy (v : pyval) : pyval := if truthy v then v else VNone.

(** An entry as it comes back from the file. *)
Definition reloaded_entry (e : SkillLockEntry) : SkillLockEntry :=
  {| source := source e;
     source_type := source_type e;
     source_url := source_url e;
     skill_folder_hash := skill_folder_hash e;
     installed_at := installed_at e;
     updated_at := updated_at e;
     skill_path := kept_if_truthy (skill_path e) |}.

Definition reloaded (lock : SkillLockFile) : SkillLockFile :=
  {| version := version lock;
     skills := reloaded_entry <$> skills lock;
     dismissed := dismissed lock;
     last_selected_agents := kept_if_truthy (last_selected_agents lock) |}.

Definition disk_holding (v : pyval) : Disk :=
  {| lock_file := Content (Json v); writes := 0 |}.

(** A lock file of version 5 that records a dismissed prompt and has no
    [skills] key. *)
Definition lock_data_without_skills : gmap string pyval :=
  <["version" := VInt 5]>
  (<["dismissed" := VDict (<["findSkillsPrompt" := VBool true]> ∅)]> ∅).

Definition example_entries : gmap string (gmap string pyval) :=
  <["pdf" := <["source" := VStr "acme/skills"]>
             (<["installedAt" := VStr "2025-01-01T00:00:00"]>
             (<["updatedAt" := VStr "2025-01-01T00:00:00"]> ∅))]> ∅.

Definition lock_data_example : gmap string pyval :=
  <["version" := VInt 3]> (<["skills" := VDict (VDict <$> example_entries)]> ∅).

(** A lock file of version 2 that records when [pdf] was installed. *)
Definition stale_lock_with_dates : gmap string pyval :=
  <["version" := VInt 2]>
  (<["skills" :=
       VDict (VDict <$>
         (<["pdf" := <["source" := VStr "acme/skills"]>
                     (<["installedAt" := VStr "2024-06-01T00:00:00"]>
                     (<["updatedAt" := VStr "2024-06-01T00:00:00"]> ∅))]> ∅))]> ∅).

Definition example_lock : SkillLockFile :=
  {| SkillLock.version := VInt 3;
     skills := entry_of_dict <$> example_entries;
     dismissed := {| find_skills_prompt := VBool false |};
     last_selected_agents := VNone |}.

End lock_vocabulary.

(** ** Vocabulary and sample worlds for the providers *)

Section fetch_vocabulary.

(** The value of a task that returned. *)
Definition returned {A} (r : result (option A)) : option A :=
    match r with
    | Ok a => a
    | Raise _ => None
    end.

(** A server that answers every request with status 200 and [body], and a
    front-matter parser with the given outcome on that body. *)
Definition world_serving (body : string) (post : result (gmap string pyval)) : World :=
  {| http_get := λ _, Ok {| status_code := 200; text := body |};
     frontmatter_loads := λ _, post;
     fetch_index := λ _, Ok None;
     fetch_skill_by_entry := λ _ _, Ok None |}.

(** A skill document whose [name] is the YAML integer 123. *)
Definition document_with_integer_name : string :=
  "---
name: 123
description: Deploys the site
---
Steps.".

(** Its metadata, as a YAML loader reads it. *)
Definition metadata_with_integer_name : gmap string pyval :=
  <["name" := VInt 123]> (<["description" := VStr "Deploys the site"]> ∅).

(** A document whose front matter is not well-formed YAML. *)
Definition document_with_broken_yaml : string :=
  "---
name: [unclosed
---
Steps.".

(** What the two providers do with the failures they provide for: a request
    error, a status other than 200, a [ValueError] of the front-matter
    parser, a missing or empty [name] or [description] all give [None]. *)
Definition handles_failures (fetch : World → string → result (option Skill))
    (raw : string → string) : Prop :=
  ∀ (w : World) (url : string),
    (http_get w (raw url) = Raise RequestError → fetch w url = Ok None)
    ∧ (∀ response, http_get w (raw url) = Ok response →
         (status_code response ≠ 200 → fetch w url = Ok None)
         ∧ (status_code response = 200 →
              (∀ e, frontmatter_loads w (text response) = Raise e →
                    isinstance e ValueError = true → fetch w url = Ok None)
              ∧ (∀ post, frontmatter_loads w (text response) = Ok post →
                    truthy (dict_get post "name" VNone) = false
                    ∨ truthy (dict_get post "description" VNone) = false →
                    fetch w url = Ok None))).

(** An index of three skills, and a world in which the fetch of the second
    gives [None]. *)
Definition entry_named (s : string) : WellKnownSkillEntry :=
  {| entry_name := VStr s; entry_description := VStr ""; entry_files := VList [] |}.

Definition skill_of (entry : WellKnownSkillEntry) : WellKnownSkill :=
  {| remote := {| name := entry_name entry;
                  description := entry_description entry;
                  content := "";
                  install_name := entry_name entry;
                  source_url := "";
                  metadata := None |};
     files := ∅;
     index_entry := Some entry |}.

Definition world_with_index : World :=
  {| http_get := λ _, Raise RequestError;
     frontmatter_loads := λ _, Ok ∅;
     fetch_index := λ _,
       Ok (Some {| index_skills := [entry_named "a"; entry_named "b"; entry_named "c"] |});
     fetch_skill_by_entry := λ _ entry,
       if eq_str (entry_name entry) "b" then Ok None else Ok (Some (skill_of entry)) |}.

(** The same index, in a world in which the fetch of the second entry
    raises [yaml.YAMLError]: the front matter of its [SKILL.md] is not
    well-formed YAML, [frontmatter.loads] raises (wellknown.py, line 172),
    and the [except] clause of [fetch_skill_by_entry] (line 221) lists
    [httpx.RequestError] and [ValueError] only. *)
Definition world_with_broken_entry : World :=
  {| http_get := λ _, Raise RequestError;
     frontmatter_loads := λ _, Ok ∅;
     fetch_index := λ _,
       Ok (Some {| index_skills := [entry_named "a"; entry_named "b"; entry_named "c"] |});
     fetch_skill_by_entry := λ _ entry,
       if eq_str (entry_name entry) "b" then Raise YAMLError
       else Ok (Some (skill_of entry)) |}.

End fetch_vocabulary.

(** ** Vocabulary and sample URLs *)

Section url_vocabulary.
Import PyStr UrlParse.

(** The prefix test shared by the three providers. *)
Definition is_http (url : string) : bool :=
  PyStr.startswith url "http://" || PyStr.startswith url "https://".

Definition WELL_KNOWN : string := "/.well-known/skills".

(** A character that can stand in a parsed scheme. *)
Definition settled_scheme_char (c : ascii) : bool :=
  scheme_char c && ascii_eqb (lower_char c) c.

(** A scheme as [urlparse] returns it when a URL has one: it starts with a
    letter and consists of lower-case scheme characters. *)
Definition settled_scheme (s : string) : Prop :=
  match s with
  | EmptyString => False
  | String c _ => is_ascii_alpha c = true
  end ∧ all settled_scheme_char s = true.

Definition netloc_char (c : ascii) : bool :=
  negb (unsafe_byte c) && negb (netloc_delim c).

Definition path_char (c : ascii) : bool :=
  negb (unsafe_byte c) && negb (ascii_eqb c "#") && negb (ascii_eqb c "?").

(** CPython releases that make no further check of a bracketed netloc. *)
Definition no_bracket_validation : NetlocValidation := λ _, true.

Definition url_without_host : string := "http:///skill.md".

Definition mintlify_url : string := "https://docs.example.com/api/skill.md".



End url_vocabulary.

(** ** Vocabulary for the lock store operations *)

Section lock_api_vocabulary.
Import SkillLock.

(** A lock with another [skills] map. *)
Definition with_skills (lock : SkillLockFile) (sk : gmap string SkillLockEntry)
    : SkillLockFile :=
  {| version := version lock;
     skills := sk;
     dismissed := dismissed lock;
     last_selected_agents := last_selected_agents lock |}.

(** The entry [add_skill_to_lock] stores, given the entry found under the
    name. *)
Definition new_entry (existing : option SkillLockEntry)
    (source source_type source_url skill_folder_hash : string)
    (skill_path : option string) (now : string) : SkillLockEntry :=
  {| SkillLock.source := VStr source;
     SkillLock.source_type := VStr source_type;
     SkillLock.source_url := VStr source_url;
     SkillLock.skill_folder_hash := VStr skill_folder_hash;
     installed_at :=
       match existing with
       | Some existing => installed_at existing
       | None => VStr now
       end;
     updated_at := VStr now;
     SkillLock.skill_path := of_optional_str skill_path |}.

(** A value that the file keeps as it is: [None], or a true value. *)
Definition survives (v : pyval) : Prop := v = VNone ∨ truthy v = true.

(** A lock file of version 2 that tracks two skills. *)
Definition stale_lock_data : gmap string pyval :=
  <["version" := VInt 2]>
  (<["skills" := VDict (VDict <$> (<["pdf" := ∅]> (<["docx" := ∅]> ∅)))]> ∅).

End lock_api_vocabulary.

(** ** Vocabulary for the folder hash *)

Section folder_hash_vocabulary.
Import SkillLockApi.

(** An entry of a GitHub tree that stands for the folder. *)
Definition names_folder (folder_path : string) (entry : gmap string pyval) : Prop :=
  dict_get entry "type" VNone = VStr "tree"
  ∧ dict_get entry "path" VNone = VStr folder_path.

(** The request for a branch has no answer for the folder: the request
    fails, the status is not 200, the body is not JSON, or the tree of the
    branch has no entry for the folder. *)
Definition branch_gives_nothing (g : GitHub) (owner_repo folder_path branch : string)
    : Prop :=
  github_get g (tree_url owner_repo branch) = Raise RequestError
  ∨ ∃ response, github_get g (tree_url owner_repo branch) = Ok response
      ∧ (status_code response ≠ 200
         ∨ github_json g (text response) = Raise JSONDecodeError
         ∨ (folder_path ≠ ""
            ∧ ∃ data entries,
                github_json g (text response) = Ok (VDict data)
                ∧ dict_get data "tree" (VList []) = VList (VDict <$> entries)
                ∧ Forall (λ entry, ¬ names_folder folder_path entry) entries)).

(** The request for a branch answers with [sha]: the hash of the whole tree
    for the empty folder path, and otherwise the hash of the first entry
    that stands for the folder. *)
Definition branch_gives (g : GitHub) (owner_repo folder_path branch : string)
    (sha : pyval) : Prop :=
  ∃ response data,
    github_get g (tree_url owner_repo branch) = Ok response
    ∧ status_code response = 200
    ∧ github_json g (text response) = Ok (VDict data)
    ∧ if String.eqb folder_path "" then sha = dict_get data "sha" VNone
      else ∃ before entry after,
        dict_get data "tree" (VList [])
        = VList ((VDict <$> before) ++ VDict entry :: after)%list
        ∧ Forall (λ entry, ¬ names_folder folder_path entry) before
        ∧ names_folder folder_path entry
        ∧ sha = dict_get entry "sha" VNone.

Definition tree_entry (path type sha : string) : gmap string pyval :=
  <["path" := VStr path]> (<["type" := VStr type]> (<["sha" := VStr sha]> ∅)).

(** A repository whose default branch is [master]: the request for [main]
    is answered with status 404. *)
Definition example_tree : gmap string pyval :=
  <["sha" := VStr "aaa"]>
  (<["tree" := VList [VDict (tree_entry "skills" "tree" "bbb");
                      VDict (tree_entry "skills/pdf/SKILL.md" "blob" "ccc");
                      VDict (tree_entry "skills/pdf" "tree" "ddd")]]> ∅).

Definition github_with_master : GitHub :=
  {| github_get := λ url,
       if String.eqb url (tree_url "acme/skills" "master")
       then Ok {| status_code := 200; text := "tree" |}
       else Ok {| status_code := 404; text := "" |};
     github_json := λ _, Ok (VDict example_tree) |}.

End folder_hash_vocabulary.

(** ** Vocabulary for the well-known index *)

Section index_vocabulary.

(** The entry that an object of [index.json] stands for. *)
Definition index_entry_of_dict (entry : gmap string pyval) : WellKnownSkillEntry :=
  {| entry_name := dict_get entry "name" (VStr "");
     entry_description := dict_get entry "description" (VStr "");
     entry_files := dict_get entry "files" (VList []) |}.

(** An index of two skills, the second without a description. *)
Definition example_index : gmap string pyval :=
  <["skills" :=
      VList [VDict (<["name" := VStr "pdf"]>
                    (<["description" := VStr "Reads PDF files"]>
                    (<["files" := VList [VStr "SKILL.md"]]> ∅)));
             VDict (<["name" := VStr "docx"]> ∅)]]> ∅.

(** A site that answers the request for its index, and no other. *)
Definition world_with_index_file : World :=
  {| http_get := λ url,
       if String.eqb url "https://example.com/.well-known/skills/index.json"
       then Ok {| status_code := 200; text := "index" |}
       else Ok {| status_code := 404; text := "" |};
     frontmatter_loads := λ _, Ok ∅;
     fetch_index := λ _, Ok None;
     fetch_skill_by_entry := λ _ _, Ok None |}.

(** The same site with the JSON array [[]] as its [index.json]: the
    [fetch_index] of this world is [fetch_index] as the code computes it
    from the response. *)
Definition world_with_array_index `{!NetlocValidation} : World :=
  {| http_get := http_get world_with_index_file;
     frontmatter_loads := λ _, Ok ∅;
     fetch_index :=
       WellKnownIndexFetch.fetch_index world_with_index_file (λ _, Ok (VList []));
     fetch_skill_by_entry := λ _ _, Ok None |}.

End index_vocabulary.

(** ** A document that can be fetched *)

Section document_vocabulary.

(** A skill document with a name, a description and a licence. *)
Definition document_with_licence : string :=
  "---
name: Deploy Site
description: Deploys the site
license: MIT
---
Steps.".

(** Text of ASCII characters: every code is below 128.  On such text
    [str.lower] is the map of [A-Z] to [a-z]. *)
Definition ascii_text (s : string) : bool :=
  PyStr.all (λ c, Nat.ltb (PyStr.code c) 128) s.

Definition metadata_with_licence : gmap string pyval :=
  <["name" := VStr "Deploy Site"]>
  (<["description" := VStr "Deploys the site"]>
  (<["license" := VStr "MIT"]> ∅)).

End document_vocabulary.

(** * Properties *)

(** ** The lock store *)

Section skill_lock.
Import SkillLock.

Lemma dict_to_lock_entry_dict (e : gmap string pyval) :
  _dict_to_lock_entry (VDict e) = Ok (entry_of_dict e).
Proof. reflexivity. Qed.

Lemma dict_to_lock_entry_raises (v : pyval) :
  (∀ e, v ≠ VDict e) → _dict_to_lock_entry v = Raise AttributeError.
Proof. intros Hv. destruct v; try reflexivity. by destruct (Hv d). Qed.

(** The loop of [_dict_to_lock_file] over a map of JSON objects. *)
Lemma skills_loop_dicts (es : gmap string (gmap string pyval)) :
  map_fold
    (λ name entry_data (acc : result (gmap string SkillLockEntry)),
       skills ← acc;
       entry ← _dict_to_lock_entry entry_data;
       Ok (<[name := entry]> skills))
    (Ok ∅) (VDict <$> es)
  = Ok (entry_of_dict <$> es).
Proof.
  induction es as [|name e es Hfresh IH] using map_ind.
  - by rewrite !fmap_empty, map_fold_empty.
  - rewrite !fmap_insert.
    rewrite map_fold_insert_L.
    + rewrite IH. reflexivity.
    + intros j1 j2 z1 z2 acc Hne Hz1 Hz2.
      rewrite <- fmap_insert in Hz1, Hz2.
      apply lookup_fmap_Some in Hz1 as (e1 & <- & _).
      apply lookup_fmap_Some in Hz2 as (e2 & <- & _).
      destruct acc as [m|err]; simpl; [|reflexivity].
      by rewrite insert_insert_ne.
    + by rewrite lookup_fmap, Hfresh.
Qed.

(** Whatever the loop raises is the [AttributeError] of a value that is
    not an object. *)
Lemma skills_loop_raises (items : gmap string pyval) (e : exn) :
  map_fold
    (λ name entry_data (acc : result (gmap string SkillLockEntry)),
       skills ← acc;
       entry ← _dict_to_lock_entry entry_data;
       Ok (<[name := entry]> skills))
    (Ok ∅) items
  = Raise e → e = AttributeError.
Proof.
  revert e. apply (map_fold_weak_ind (λ acc _, ∀ e, acc = Raise e → e = AttributeError)).
  - discriminate.
  - intros name v m acc _ IH e.
    destruct acc as [sk|err]; simpl.
    + destruct v; simpl; congruence.
    + intros [= <-]. by apply IH.
Qed.

Lemma dict_to_lock_file_raises (data : gmap string pyval) (e : exn) :
  _dict_to_lock_file data = Raise e → e = AttributeError.
Proof.
  unfold _dict_to_lock_file.
  destruct (py_items _) as [items|err] eqn:Hitems; simpl.
  - destruct (map_fold _ _ _) as [sk|err] eqn:Hloop; simpl.
    + destruct (py_get _ _ _) as [p|err] eqn:Hp; simpl; [discriminate|].
      intros [= <-]. unfold py_get in Hp.
      by destruct (dict_get data "dismissed" _); simplify_eq.
    + intros [= <-]. by eapply skills_loop_raises.
  - intros [= <-]. unfold py_items in Hitems.
    by destruct (dict_get data "skills" _); simplify_eq.
Qed.

(** Reading a file that holds JSON: the [except] clause has nothing to
    catch, so the body decides. *)
Lemma read_skill_lock_json (d : Disk) (v : pyval) :
  lock_file d = Content (Json v) →
  read_skill_lock d =
    match v with
    | VDict data =>
        let version := dict_get data "version" VNone in
        if negb (is_int version) || negb (bool_decide (is_Some (data !! "skills")))
        then Ok _create_empty_lock_file
        else if int_value version <? CURRENT_VERSION
        then Ok _create_empty_lock_file
        else _dict_to_lock_file data
    | _ => Raise AttributeError
    end.
Proof.
  intros Hf. unfold read_skill_lock. rewrite Hf. simpl.
  destruct v; try reflexivity.
  destruct (negb _ || negb _); [reflexivity|].
  destruct (_ <? _); [reflexivity|].
  destruct (_dict_to_lock_file d0) as [lock|e] eqn:Hlock; [reflexivity|].
  by rewrite (dict_to_lock_file_raises _ _ Hlock).
Qed.

(** The parsed contents of a well-formed object. *)
Lemma dict_to_lock_file_well_formed (data : gmap string pyval)
    (es : gmap string (gmap string pyval)) (dd : gmap string pyval) :
  data !! "skills" = Some (VDict (VDict <$> es)) →
  dict_get data "dismissed" (VDict ∅) = VDict dd →
  _dict_to_lock_file data =
    Ok {| version := dict_get data "version" (VInt CURRENT_VERSION);
          skills := entry_of_dict <$> es;
          dismissed :=
            {| find_skills_prompt := dict_get dd "findSkillsPrompt" (VBool false) |};
          last_selected_agents := dict_get data "lastSelectedAgents" VNone |}.
Proof.
  intros Hsk Hd. unfold _dict_to_lock_file, dict_get in *.
  rewrite Hsk. simpl.
  rewrite skills_loop_dicts. simpl. rewrite Hd. reflexivity.
Qed.

Lemma read_skill_lock_caught (d : Disk) :
  lock_file d = Absent ∨ lock_file d = Unreadable ∨ lock_file d = Content NotJson →
  read_skill_lock d = Ok _create_empty_lock_file.
Proof. unfold read_skill_lock. by intros [-> | [-> | ->]]. Qed.

(** The lock that [read_skill_lock] returns carries an integer version
    that is at least the current one. *)
Lemma read_skill_lock_version (d : Disk) (lock : SkillLockFile) :
  read_skill_lock d = Ok lock →
  ∃ z, version lock = VInt z ∧ CURRENT_VERSION ≤ z.
Proof.
  assert (Hempty : ∃ z, version _create_empty_lock_file = VInt z ∧ CURRENT_VERSION ≤ z)
    by (by exists CURRENT_VERSION).
  destruct (lock_file d) as [| | |[|v]] eqn:Hf.
  - rewrite read_skill_lock_caught by auto. by intros [= <-].
  - rewrite read_skill_lock_caught by auto. by intros [= <-].
  - unfold read_skill_lock. by rewrite Hf.
  - rewrite read_skill_lock_caught by auto. by intros [= <-].
  - rewrite (read_skill_lock_json _ _ Hf).
    destruct v as [| | | | | |data]; try discriminate. cbv zeta.
    destruct (negb _ || negb _) eqn:Hguard; [by intros [= <-]|].
    destruct (_ <? _) eqn:Hold; [by intros [= <-]|].
    apply orb_false_elim in Hguard as [Hint _].
    apply negb_false_iff in Hint. apply Z.ltb_ge in Hold.
    unfold _dict_to_lock_file.
    destruct (py_items _); simpl; [|discriminate].
    destruct (map_fold _ _ _); simpl; [|discriminate].
    destruct (py_get _ _ _); simpl; [|discriminate].
    intros [= <-]. simpl.
    unfold dict_get in *.
    destruct (data !! "version") as [[]|]; simpl in *; try discriminate.
    + destruct b; unfold CURRENT_VERSION in Hold; lia.
    + eauto.
Qed.

Lemma entry_round_trip (e : SkillLockEntry) :
  entry_of_dict (_lock_entry_to_dict e) = reloaded_entry e.
Proof.
  unfold entry_of_dict, _lock_entry_to_dict, reloaded_entry, kept_if_truthy, dict_get.
  destruct (truthy (skill_path e)); by simplify_map_eq.
Qed.

(** Writing a lock and reading the file again. *)
Lemma read_after_write (lock : SkillLockFile) (d : Disk) (z : Z) :
  version lock = VInt z → CURRENT_VERSION ≤ z →
  read_skill_lock (write_skill_lock lock d) = Ok (reloaded lock).
Proof.
  intros Hv Hz.
  rewrite (read_skill_lock_json _ (VDict (_lock_file_to_dict lock))) by reflexivity.
  cbv zeta.
  assert (Hversion : ∀ dflt, dict_get (_lock_file_to_dict lock) "version" dflt = VInt z).
  { intros dflt. unfold _lock_file_to_dict, dict_get.
    destruct (truthy (last_selected_agents lock)); by simplify_map_eq. }
  assert (Hskills : _lock_file_to_dict lock !! "skills"
            = Some (VDict (VDict <$> (_lock_entry_to_dict <$> skills lock)))).
  { unfold _lock_file_to_dict.
    destruct (truthy (last_selected_agents lock)); simplify_map_eq;
      by rewrite <- map_fmap_compose. }
  assert (Hdismissed : dict_get (_lock_file_to_dict lock) "dismissed" (VDict ∅)
            = VDict (<["findSkillsPrompt" := find_skills_prompt (dismissed lock)]> ∅)).
  { unfold _lock_file_to_dict, dict_get.
    destruct (truthy (last_selected_agents lock)); by simplify_map_eq. }
  assert (Hagents : dict_get (_lock_file_to_dict lock) "lastSelectedAgents" VNone
            = kept_if_truthy (last_selected_agents lock)).
  { unfold _lock_file_to_dict, dict_get, kept_if_truthy.
    destruct (truthy (last_selected_agents lock)); by simplify_map_eq. }
  rewrite Hversion, Hskills. simpl.
  destruct (z <? CURRENT_VERSION) eqn:Hold; [apply Z.ltb_lt in Hold; lia|].
  rewrite (dict_to_lock_file_well_formed _ _ _ Hskills Hdismissed).
  rewrite Hversion, Hagents. unfold reloaded. f_equal. f_equal.
  - by rewrite Hv.
  - rewrite <- map_fmap_compose. apply map_fmap_ext. intros ? e _. apply entry_round_trip.
  - destruct (dismissed lock). unfold dict_get. by simplify_map_eq.
Qed.

(** C1, as amended.  [read_skill_lock] returns a fresh empty lock when the
    file is missing, cannot be read ([OSError]), or is not JSON; when it
    holds a JSON object it returns the empty lock if the object has no
    integer [version], has no [skills] key, or has a version below
    [CURRENT_VERSION]; and for an object with a current integer version
    whose [skills] is an object of objects and whose [dismissed], when
    present, is an object, it returns the parsed contents. *)
Theorem read_skill_lock_outcomes (d : Disk) :
  (lock_file d = Absent ∨ lock_file d = Unreadable ∨ lock_file d = Content NotJson →
     read_skill_lock d = Ok _create_empty_lock_file)
  ∧ (∀ data, lock_file d = Content (Json (VDict data)) →
       let version := dict_get data "version" VNone in
       (is_int version = false ∨ data !! "skills" = None
          ∨ int_value version < CURRENT_VERSION →
        read_skill_lock d = Ok _create_empty_lock_file)
       ∧ (∀ es dd,
            is_int version = true →
            CURRENT_VERSION ≤ int_value version →
            data !! "skills" = Some (VDict (VDict <$> es)) →
            dict_get data "dismissed" (VDict ∅) = VDict dd →
            read_skill_lock d =
              Ok {| SkillLock.version := version;
                    skills := entry_of_dict <$> es;
                    dismissed :=
                      {| find_skills_prompt :=
                           dict_get dd "findSkillsPrompt" (VBool false) |};
                    last_selected_agents :=
                      dict_get data "lastSelectedAgents" VNone |})).
Proof.
  split; [apply read_skill_lock_caught|].
  intros data Hf version. rewrite (read_skill_lock_json _ _ Hf). cbv zeta.
  fold version. split.
  - intros [Hint | [Hsk | Hold]].
    + by rewrite Hint.
    + rewrite Hsk. rewrite bool_decide_eq_false_2 by (by intros [? ?]).
      by rewrite orb_true_r.
    + destruct (negb _ || negb _); [reflexivity|].
      by rewrite (proj2 (Z.ltb_lt _ _) Hold).
  - intros es dd Hint Hcur Hsk Hd.
    rewrite Hint, Hsk. rewrite bool_decide_eq_true_2 by eauto. simpl.
    rewrite (proj2 (Z.ltb_ge _ _) Hcur).
    rewrite (dict_to_lock_file_well_formed _ _ _ Hsk Hd).
    do 2 f_equal. subst version. unfold dict_get in *.
    by destruct (data !! "version").
Qed.

  (** The exceptions the [except] clause of [read_skill_lock] does not list
    leave the call: bytes that are not UTF-8, and a [skills] value that is
    not an object. *)
Lemma read_skill_lock_uncaught :
  read_skill_lock {| lock_file := Undecodable; writes := 0 |} = Raise UnicodeDecodeError
  ∧ read_skill_lock
      (disk_holding (VDict (<["version" := VInt 3]> (<["skills" := VList []]> ∅))))
    = Raise AttributeError.
Proof. split; vm_compute; reflexivity. Qed.

(** C1 fails as stated.  The file [lock_data_without_skills] parses and
    its version is not below the current one, yet the result is the empty
    lock and not the parsed contents; and a file that holds the JSON array
    [[]] makes the call raise. *)
Lemma read_skill_lock_not_as_stated :
  (json_loads (Json (VDict lock_data_without_skills)) = Ok (VDict lock_data_without_skills)
   ∧ dict_get lock_data_without_skills "version" VNone = VInt 5
   ∧ ¬ (5 < CURRENT_VERSION)
   ∧ read_skill_lock (disk_holding (VDict lock_data_without_skills))
       = Ok _create_empty_lock_file
   ∧ ∃ parsed, _dict_to_lock_file lock_data_without_skills = Ok parsed
               ∧ parsed ≠ _create_empty_lock_file)
  ∧ read_skill_lock (disk_holding (VList [])) = Raise AttributeError.
Proof.
  repeat split.
  - unfold CURRENT_VERSION. lia.
  - eexists. split; [vm_compute; reflexivity|]. discriminate.
Qed.

Lemma read_skill_lock_outcomes_witness :
  read_skill_lock {| lock_file := Absent; writes := 0 |} = Ok _create_empty_lock_file
  ∧ read_skill_lock (disk_holding (VDict lock_data_without_skills))
      = Ok _create_empty_lock_file
  ∧ read_skill_lock (disk_holding (VDict lock_data_example)) = Ok example_lock.
Proof.
  split; [|split].
  - apply (proj1 (read_skill_lock_outcomes _)). by left.
  - apply (proj1 (proj2 (read_skill_lock_outcomes
                           (disk_holding (VDict lock_data_without_skills)))
                    lock_data_without_skills eq_refl)).
    right; left. reflexivity.
  - etrans.
    + apply (proj2 (proj2 (read_skill_lock_outcomes
                             (disk_holding (VDict lock_data_example)))
                      lock_data_example eq_refl)
               example_entries ∅).
      * reflexivity.
      * vm_compute. discriminate.
      * reflexivity.
      * reflexivity.
    + reflexivity.
Defined.

(** A JSON object without an integer version, without a [skills] key or
    with a version below the current one reads as the empty lock. *)
Lemma read_skill_lock_stale (d : Disk) (data : gmap string pyval) :
  lock_file d = Content (Json (VDict data)) →
  is_int (dict_get data "version" VNone) = false
  ∨ data !! "skills" = None
  ∨ int_value (dict_get data "version" VNone) < CURRENT_VERSION →
  read_skill_lock d = Ok _create_empty_lock_file.
Proof.
  intros Hf Hstale. rewrite (read_skill_lock_json _ _ Hf). cbv zeta.
  destruct Hstale as [Hint | [Hskills | Hold]].
  - by rewrite Hint.
  - rewrite Hskills. rewrite bool_decide_eq_false_2 by (by intros [? ?]).
    by rewrite orb_true_r.
  - destruct (negb _ || negb _); [reflexivity|].
    by rewrite (proj2 (Z.ltb_lt _ _) Hold).
Qed.

(** C7, as amended.  [add_skill_to_lock] works on the lock that
    [read_skill_lock] returns, and a lock file of an earlier version, or
    one without an integer version or without a [skills] key, is read as
    the empty lock, in which every name is new.  Whenever [read_skill_lock]
    returns a lock, the call rewrites the lock file with the given name
    bound to a new entry (the other names of that lock keep their entries);
    the entry keeps the [installed_at] of an entry stored under that name in
    that lock and gets [now] as [updated_at]; for a name that is new in that
    lock both timestamps are [now]. *)
Theorem add_skill_to_lock_upsert (d : Disk)
    (skill_name source source_type source_url skill_folder_hash : string)
    (skill_path : option string) (now : string) :
  (∀ lock, read_skill_lock d = Ok lock →
     ∃ entry d',
       add_skill_to_lock skill_name source source_type source_url
         skill_folder_hash skill_path now d = (Ok (), d')
       ∧ (∀ existing, skills lock !! skill_name = Some existing →
            installed_at entry = installed_at existing
            ∧ updated_at entry = VStr now)
       ∧ (skills lock !! skill_name = None →
            installed_at entry = VStr now ∧ updated_at entry = VStr now)
       ∧ SkillLock.source entry = VStr source
       ∧ SkillLock.source_type entry = VStr source_type
       ∧ SkillLock.source_url entry = VStr source_url
       ∧ SkillLock.skill_folder_hash entry = VStr skill_folder_hash
       ∧ SkillLock.skill_path entry = of_optional_str skill_path
       ∧ writes d' = S (writes d)
       ∧ lock_file d' =
           Content (json_dumps (VDict (_lock_file_to_dict
             {| SkillLock.version := SkillLock.version lock;
                skills := <[skill_name := entry]> (skills lock);
                dismissed := dismissed lock;
                last_selected_agents := last_selected_agents lock |})))
       ∧ ∃ lock',
           read_skill_lock d' = Ok lock'
           ∧ skills lock' !! skill_name = Some (reloaded_entry entry)
           ∧ ∀ other, other ≠ skill_name →
               skills lock' !! other = reloaded_entry <$> skills lock !! other)
  ∧ (∀ data, lock_file d = Content (Json (VDict data)) →
       is_int (dict_get data "version" VNone) = false
       ∨ data !! "skills" = None
       ∨ int_value (dict_get data "version" VNone) < CURRENT_VERSION →
       read_skill_lock d = Ok _create_empty_lock_file
       ∧ skills _create_empty_lock_file !! skill_name = None).
Proof.
  split; [|intros data Hf Hstale; split; [by eapply read_skill_lock_stale|done]].
  intros lock Hread.
  destruct (read_skill_lock_version _ _ Hread) as (z & Hz & Hcur).
  unfold add_skill_to_lock. rewrite Hread.
  exists
    {| SkillLock.source := VStr source;
       SkillLock.source_type := VStr source_type;
       SkillLock.source_url := VStr source_url;
       SkillLock.skill_folder_hash := VStr skill_folder_hash;
       installed_at :=
         match skills lock !! skill_name with
         | Some existing => installed_at existing
         | None => VStr now
         end;
       updated_at := VStr now;
       SkillLock.skill_path := of_optional_str skill_path |}.
  eexists. split; [reflexivity|].
  split; [intros existing Hex; simpl; by rewrite Hex|].
  split; [intros Hnew; simpl; by rewrite Hnew|].
  do 7 (split; [reflexivity|]).
  eexists. split; [by eapply read_after_write|]. simpl. split.
  - by rewrite lookup_fmap, lookup_insert_eq.
  - intros other Hne. by rewrite !lookup_fmap, lookup_insert_ne.
Qed.

(** C7 fails as stated: this lock file, of version 2, names [pdf] with the
    time of its installation; [add_skill_to_lock] for [pdf] rewrites the
    file, and the entry stored has the time of the call as [installed_at],
    not the time the file held. *)
Lemma add_skill_to_lock_not_as_stated :
  (∃ entries entry,
     stale_lock_with_dates !! "skills" = Some (VDict entries)
     ∧ entries !! "pdf" = Some (VDict entry)
     ∧ entry !! "installedAt" = Some (VStr "2024-06-01T00:00:00"))
  ∧ ∃ d' lock' stored,
      add_skill_to_lock "pdf" "acme/skills" "github" "https://github.com/acme/skills"
        "" None "2026-03-04T05:06:07" (disk_holding (VDict stale_lock_with_dates))
      = (Ok (), d')
      ∧ writes d' = 1%nat
      ∧ read_skill_lock d' = Ok lock'
      ∧ skills lock' !! "pdf" = Some stored
      ∧ installed_at stored = VStr "2026-03-04T05:06:07"
      ∧ installed_at stored ≠ VStr "2024-06-01T00:00:00".
Proof.
  split.
  - eexists _, _. split; [vm_compute; reflexivity|].
    split; [vm_compute; reflexivity|]. vm_compute. reflexivity.
  - eexists _, _, _. split; [vm_compute; reflexivity|].
    split; [reflexivity|]. split; [vm_compute; reflexivity|].
    split; [vm_compute; reflexivity|]. split; [reflexivity|]. discriminate.
Qed.

(** C10.  With the lock that [read_skill_lock] returns:
    if the name is in its [skills], [remove_skill_from_lock] returns
    [True] and rewrites the file with that entry, and no other, deleted;
    if the name is not in it, the call returns [False] and the disk,
    its count of writes included, is as before. *)
Theorem remove_skill_from_lock_outcomes (d : Disk) (lock : SkillLockFile)
    (skill_name : string) :
  read_skill_lock d = Ok lock →
  (is_Some (skills lock !! skill_name) →
     ∃ d',
       remove_skill_from_lock skill_name d = (Ok true, d')
       ∧ writes d' = S (writes d)
       ∧ lock_file d' =
           Content (json_dumps (VDict (_lock_file_to_dict
             {| SkillLock.version := SkillLock.version lock;
                skills := delete skill_name (skills lock);
                dismissed := dismissed lock;
                last_selected_agents := last_selected_agents lock |})))
       ∧ ∃ lock',
           read_skill_lock d' = Ok lock'
           ∧ skills lock' !! skill_name = None
           ∧ ∀ other, other ≠ skill_name →
               skills lock' !! other = reloaded_entry <$> skills lock !! other)
  ∧ (skills lock !! skill_name = None →
       remove_skill_from_lock skill_name d = (Ok false, d)).
Proof.
  intros Hread.
  destruct (read_skill_lock_version _ _ Hread) as (z & Hz & Hcur).
  unfold remove_skill_from_lock. rewrite Hread. split.
  - intros Hin. rewrite bool_decide_eq_true_2 by done. simpl.
    eexists. split; [reflexivity|].
    do 2 (split; [reflexivity|]).
    eexists. split; [by eapply read_after_write|]. simpl. split.
    + by rewrite lookup_fmap, lookup_delete_eq.
    + intros other Hne. by rewrite !lookup_fmap, lookup_delete_ne.
  - intros Hout. rewrite bool_decide_eq_false_2; [reflexivity|].
    rewrite Hout. by intros [? ?].
Qed.

Lemma add_skill_to_lock_upsert_witness :
  read_skill_lock (disk_holding (VDict lock_data_example)) = Ok example_lock
  ∧ ∃ entry d',
      add_skill_to_lock "pdf" "acme/skills" "github" "https://github.com/acme/skills"
        "" None "2026-03-04T05:06:07" (disk_holding (VDict lock_data_example))
      = (Ok (), d')
      ∧ installed_at entry = VStr "2025-01-01T00:00:00"
      ∧ updated_at entry = VStr "2026-03-04T05:06:07"
      ∧ writes d' = 1%nat.
Proof.
  assert (Hread : read_skill_lock (disk_holding (VDict lock_data_example))
                  = Ok example_lock) by (vm_compute; reflexivity).
  split; [exact Hread|].
  destruct (proj1 (add_skill_to_lock_upsert (disk_holding (VDict lock_data_example))
                     "pdf" "acme/skills" "github" "https://github.com/acme/skills" ""
                     None "2026-03-04T05:06:07") example_lock Hread)
    as (entry & d' & Hadd & Hkept & _ & _ & _ & _ & _ & _ & Hwrites & _).
  exists entry, d'. split; [exact Hadd|].
  destruct (Hkept (entry_of_dict (<["source" := VStr "acme/skills"]>
             (<["installedAt" := VStr "2025-01-01T00:00:00"]>
             (<["updatedAt" := VStr "2025-01-01T00:00:00"]> ∅)))))
    as [Hinstalled Hupdated]; [vm_compute; reflexivity|].
  split; [exact Hinstalled|]. split; [exact Hupdated|exact Hwrites].
Defined.

Lemma remove_skill_from_lock_outcomes_witness :
  read_skill_lock (disk_holding (VDict lock_data_example)) = Ok example_lock
  ∧ (∃ d', remove_skill_from_lock "pdf" (disk_holding (VDict lock_data_example))
           = (Ok true, d') ∧ writes d' = 1%nat)
  ∧ remove_skill_from_lock "docx" (disk_holding (VDict lock_data_example))
    = (Ok false, disk_holding (VDict lock_data_example)).
Proof.
  assert (Hread : read_skill_lock (disk_holding (VDict lock_data_example))
                  = Ok example_lock) by (vm_compute; reflexivity).
  split; [exact Hread|]. split.
  - destruct (proj1 (remove_skill_from_lock_outcomes _ _ "pdf" Hread))
      as (d' & Hremove & Hwrites & _).
    + vm_compute. eauto.
    + exists d'. split; [exact Hremove|exact Hwrites].
  - apply (proj2 (remove_skill_from_lock_outcomes _ _ "docx" Hread)).
    vm_compute. reflexivity.
Defined.

End skill_lock.

(** ** Dispatch between providers *)

Section dispatch.
Context `{validation : !NetlocValidation}.

(** [find_provider] returns the first provider of the list that matches. *)
Lemma find_provider_first (providers : list HostProvider) (url : string)
    (provider : HostProvider) :
  ProviderRegistry.find_provider providers url = Some provider →
  ∃ before after,
    providers = (before ++ provider :: after)%list
    ∧ Forall (λ p, matches (match_ p url) = false) before
    ∧ matches (match_ provider url) = true.
Proof.
  induction providers as [|p ps IH]; simpl; [discriminate|].
  destruct (matches (match_ p url)) eqn:Hp.
  - intros [= <-]. by exists [], ps.
  - intros Hfind. destruct (IH Hfind) as (before & after & -> & Hbefore & Hmatch).
    exists (p :: before), after. split; [reflexivity|]. split; [|exact Hmatch].
    by constructor.
Qed.

Lemma find_provider_none (providers : list HostProvider) (url : string) :
  ProviderRegistry.find_provider providers url = None ↔
  Forall (λ p, matches (match_ p url) = false) providers.
Proof.
  induction providers as [|p ps IH]; simpl.
  - split; [constructor|reflexivity].
  - destruct (matches (match_ p url)) eqn:Hp.
    + split; [discriminate|]. intros Hall. inversion Hall; congruence.
    + rewrite IH. split; [by constructor|]. by inversion 1.
Qed.

(** C3.  The default registry holds the HuggingFace provider, then the
    Mintlify provider, and not the well-known provider.  With it,
    [fetch_remote_skill] gives the URL to the HuggingFace provider when
    that matches, else to the Mintlify provider when that matches, else to
    the well-known provider when that matches, and else returns [None]. *)
Theorem fetch_remote_skill_dispatch (w : World) (url : string) :
  (registry = [huggingface_provider; mintlify_provider])
  ∧ (id wellknown_provider ∉ id <$> registry)
  ∧ fetch_remote_skill registry w url =
      if matches (HuggingFace.match_ url) then HuggingFace.fetch_skill w url
      else if matches (Mintlify.match_ url) then Mintlify.fetch_skill w url
      else if matches (WellKnownProvider.match_ url)
      then WellKnownProvider.fetch_skill w url
      else Ok None.
Proof.
  split; [reflexivity|]. split.
  - simpl. rewrite !elem_of_cons, elem_of_nil. intros [?|[?|[]]]; discriminate.
  - unfold fetch_remote_skill. simpl.
    destruct (matches (HuggingFace.match_ url)); [reflexivity|].
    destruct (matches (Mintlify.match_ url)); reflexivity.
Qed.

(** Registering a provider whose id is taken changes nothing. *)
Lemma register_duplicate (providers : list HostProvider) (provider : HostProvider) :
  id provider ∈ id <$> providers →
  ProviderRegistry.register providers provider = providers.
Proof.
  intros Hin. unfold ProviderRegistry.register.
  destruct (existsb _ _) eqn:Hex; [reflexivity|].
  apply list_elem_of_fmap in Hin as (p & Hid & Hp).
  assert (existsb (λ existing, String.eqb (id existing) (id provider)) providers = true);
    [|congruence].
  apply existsb_exists. exists p. split; [by apply list_elem_of_In|].
  rewrite Hid. apply String.eqb_refl.
Qed.

(** *** The join of [fetch_all_skills] *)

Lemma gather_returned {A} (tasks : list (result (option A))) :
  Forall (λ t, ∃ r, t = Ok r) tasks →
  gather tasks = Ok (returned <$> tasks).
Proof.
  induction 1 as [|t ts [r ->] _ IH]; simpl; [reflexivity|].
  by rewrite IH.
Qed.

Lemma omap_returned {A B} (f : A → result (option B)) (l : list A) :
  omap (λ r, r) (returned <$> (f <$> l)) = omap (λ a, returned (f a)) l.
Proof.
  induction l as [|a l IH]; [reflexivity|].
  rewrite !fmap_cons. cbn [omap list_omap]. by rewrite IH.
Qed.

(** The join: when every fetch returns, the result lists what the fetches
  returned, in the order of the index, without the [None]s. *)
Lemma fetch_all_skills_returned (w : World) (url : string) (index : WellKnownIndex) :
fetch_index w url = Ok (Some index) →
Forall (λ entry, ∃ r, fetch_skill_by_entry w url entry = Ok r) (index_skills index) →
WellKnownProvider.fetch_all_skills w url =
  Ok (omap (λ entry, returned (fetch_skill_by_entry w url entry))
        (index_skills index)).
Proof.
unfold WellKnownProvider.fetch_all_skills. intros -> Hall. simpl.
assert (Hgather : gather (fetch_skill_by_entry w url <$> index_skills index)
          = Ok (returned <$> (fetch_skill_by_entry w url <$> index_skills index)))
  by (by apply gather_returned, Forall_fmap).
rewrite <- omap_returned.
destruct (index_skills index) as [|e es]; [reflexivity|].
cbv beta iota. by rewrite Hgather.
Qed.

(** What holds of the join: [fetch_all_skills] returns the empty list when
  [fetch_index] returns [None] or an index without skills.  Otherwise,
  when each [fetch_skill_by_entry] returns, it returns the skills fetched,
  in the order of the index, and leaves out the entries whose fetch gave
  [None]. *)
Lemma fetch_all_skills_join (w : World) (url : string) :
(fetch_index w url = Ok None → WellKnownProvider.fetch_all_skills w url = Ok [])
∧ (∀ index, fetch_index w url = Ok (Some index) →
     (index_skills index = [] → WellKnownProvider.fetch_all_skills w url = Ok [])
     ∧ (Forall (λ entry, ∃ r, fetch_skill_by_entry w url entry = Ok r)
          (index_skills index) →
        WellKnownProvider.fetch_all_skills w url =
          Ok (omap (λ entry, returned (fetch_skill_by_entry w url entry))
                (index_skills index)))).
Proof.
split.
- unfold WellKnownProvider.fetch_all_skills. by intros ->.
- intros index Hindex. split; [|by apply fetch_all_skills_returned].
  unfold WellKnownProvider.fetch_all_skills. rewrite Hindex. simpl. by intros ->.
Qed.

(** A skill is in the result exactly when the fetch of some entry of the
  index returned it. *)
Corollary fetch_all_skills_members (w : World) (url : string)
  (index : WellKnownIndex) (skills : list WellKnownSkill) :
fetch_index w url = Ok (Some index) →
Forall (λ entry, ∃ r, fetch_skill_by_entry w url entry = Ok r) (index_skills index) →
WellKnownProvider.fetch_all_skills w url = Ok skills →
∀ skill, skill ∈ skills ↔
  ∃ entry, entry ∈ index_skills index
           ∧ fetch_skill_by_entry w url entry = Ok (Some skill).
Proof.
intros Hindex Hall Hfetch skill.
rewrite (fetch_all_skills_returned _ _ _ Hindex Hall) in Hfetch.
injection Hfetch as <-.
rewrite list_elem_of_omap. split.
- intros (entry & Hin & Hret). exists entry. split; [exact Hin|].
  destruct (fetch_skill_by_entry w url entry); simpl in Hret; congruence.
- intros (entry & Hin & Hret). exists entry. split; [exact Hin|].
  by rewrite Hret.
Qed.

End dispatch.


(** ** Failures of a provider fetch *)

Section fetch_failures.

Ltac handled_failure :=
  match goal with
  | H : status_code _ ≠ 200 |- _ => rewrite (proj2 (Z.eqb_neq _ _) H); reflexivity
  | H : status_code _ = 200 |- _ => rewrite H; simpl
  end.

Lemma huggingface_handles_failures :
  handles_failures HuggingFace.fetch_skill HuggingFace.to_raw_url.
Proof.
  intros w url. unfold HuggingFace.fetch_skill. split; [by intros ->|].
  intros response ->. simpl. split; [intros Hne; handled_failure|].
  intros H200. handled_failure. split.
  - intros e -> He. simpl. by rewrite He, orb_true_r.
  - intros post -> Hmissing. simpl.
    destruct Hmissing as [-> | ->]; by rewrite ?orb_true_r.
Qed.

Lemma mintlify_handles_failures :
  handles_failures Mintlify.fetch_skill Mintlify.to_raw_url.
Proof.
  intros w url. unfold Mintlify.fetch_skill, Mintlify.to_raw_url.
  split; [by intros ->|].
  intros response ->. simpl. split; [intros Hne; handled_failure|].
  intros H200. handled_failure. split.
  - intros e -> He. simpl. by rewrite He, orb_true_r.
  - intros post -> Hmissing. simpl.
    destruct Hmissing as [-> | ->]; by rewrite ?orb_true_r.
Qed.

(** C2 does not hold of the code.  A document whose [name] is not a string
    makes the Mintlify fetch raise [AttributeError] (from [name.lower()]);
    so does the HuggingFace fetch when the URL names no repository; and a
    [yaml.YAMLError] of the front-matter parser, which is no [ValueError],
    leaves both providers as raised. *)
Theorem fetch_skill_propagates (url : string) :
  Mintlify.fetch_skill
    (world_serving document_with_integer_name (Ok metadata_with_integer_name))
    "https://docs.example.com/deploy/skill.md"
  = Raise AttributeError
  ∧ HuggingFace.fetch_skill
      (world_serving document_with_integer_name (Ok metadata_with_integer_name))
      "https://huggingface.co/spaces/skill.md"
    = Raise AttributeError
  ∧ Mintlify.fetch_skill
      (world_serving document_with_broken_yaml (Raise YAMLError)) url
    = Raise YAMLError
  ∧ HuggingFace.fetch_skill
      (world_serving document_with_broken_yaml (Raise YAMLError)) url
    = Raise YAMLError.
Proof.
  split; [vm_compute; reflexivity|].
  split; [vm_compute; reflexivity|].
  split; reflexivity.
Qed.

End fetch_failures.

(** ** URL matching *)

Section matching.
Context `{validation : !NetlocValidation}.

Lemma not_http_guard (url : string) :
  negb (PyStr.startswith url "http://") && negb (PyStr.startswith url "https://")
  = negb (is_http url).
Proof. unfold is_http. by rewrite negb_orb. Qed.

(** C9.  No URL is matched by both the Mintlify provider and the
    well-known provider: a Mintlify match ends, in lower case, in
    [/skill.md], and the well-known provider matches no such URL. *)
Theorem mintlify_wellknown_disjoint (url : string) :
  matches (Mintlify.match_ url) && matches (WellKnownProvider.match_ url) = false
  ∧ implb (matches (Mintlify.match_ url))
          (PyStr.endswith (PyStr.lower url) "/skill.md") = true
  ∧ implb (PyStr.endswith (PyStr.lower url) "/skill.md")
          (negb (matches (WellKnownProvider.match_ url))) = true.
Proof.
  unfold Mintlify.match_, WellKnownProvider.match_.
  rewrite not_http_guard.
  destruct (is_http url); simpl; [|by destruct (PyStr.endswith _ _)].
  destruct (PyStr.endswith (PyStr.lower url) "/skill.md") eqn:Hend; simpl;
    [|done].
  destruct (UrlParse.urlparse url) as [parsed|e]; simpl; [|done].
  destruct (bool_decide _); simpl; [done|].
  by rewrite ?Hend.
Qed.

(** C4, as amended.  The Mintlify provider matches exactly the URLs that
    start with [http://] or [https://], end in [/skill.md] when lower-cased,
    are accepted by [urlparse], and whose hostname (empty when the URL names
    none) is not an excluded host.  On a match the source identifier is
    [mintlify/] followed by the hostname, or by [com] when the URL names no
    host.  [to_raw_url] returns its argument. *)
Theorem mintlify_match_spec (url : string) :
  (matches (Mintlify.match_ url) = true ↔
     is_http url = true
     ∧ PyStr.endswith (PyStr.lower url) "/skill.md" = true
     ∧ ∃ parsed, UrlParse.urlparse url = Ok parsed
                 ∧ default "" (UrlParse.hostname parsed) ∉ Mintlify.EXCLUDED_HOSTS)
  ∧ (matches (Mintlify.match_ url) = true →
       ∃ parsed, UrlParse.urlparse url = Ok parsed
         ∧ source_identifier (Mintlify.match_ url) =
             Some ("mintlify/" ++ match UrlParse.hostname parsed with
                                  | Some host => host
                                  | None => "com"
                                  end))
  ∧ Mintlify.to_raw_url url = url.
Proof.
  unfold Mintlify.match_, Mintlify.get_source_identifier. rewrite not_http_guard.
  split; [|split; [|reflexivity]].
  - destruct (is_http url); simpl; [|by split; [|intros []]].
    destruct (PyStr.endswith _ _); simpl; [|by split; [|intros (_ & ? & _)]].
    destruct (UrlParse.urlparse url) as [parsed|e]; simpl.
    + destruct (bool_decide _) eqn:Hex; simpl.
      * apply bool_decide_eq_true in Hex. split; [done|].
        intros (_ & _ & p & [= <-] & Hnot). contradiction.
      * apply bool_decide_eq_false in Hex. split; [|done].
        intros _. do 2 (split; [done|]). by exists parsed.
    + split; [done|]. by intros (_ & _ & p & ? & _).
  - destruct (is_http url); simpl; [|done].
    destruct (PyStr.endswith _ _); simpl; [|done].
    destruct (UrlParse.urlparse url) as [parsed|e]; simpl; [|done].
    destruct (bool_decide _); simpl; [done|].
    intros _. exists parsed. split; [reflexivity|].
    by destruct (UrlParse.hostname parsed).
Qed.


End matching.

(** ** Facts about the string primitives *)

Section string_facts.
Import PyStr.
#[local] Arguments String.append !_ _ : simpl nomatch.

Lemma app_nil_r_s (s : string) : s ++ "" = s.
Proof. induction s as [|c s IH]; simpl; [reflexivity|]. by rewrite IH. Qed.

Lemma app_assoc_s (a b c : string) : (a ++ b) ++ c = a ++ (b ++ c).
Proof. induction a as [|x a IH]; simpl; [reflexivity|]. by rewrite IH. Qed.

Lemma len_app (a b : string) : len (a ++ b) = (len a + len b)%nat.
Proof. unfold len. induction a as [|x a IH]; simpl; [reflexivity|]. by rewrite IH. Qed.

Lemma ascii_eqb_true (a b : ascii) : ascii_eqb a b = true ↔ a = b.
Proof. apply Ascii.eqb_eq. Qed.

Lemma ascii_eqb_refl (a : ascii) : ascii_eqb a a = true.
Proof. by apply ascii_eqb_true. Qed.

Lemma startswith_app (p t : string) : startswith (p ++ t) p = true.
Proof.
  induction p as [|c p IH]; simpl; [reflexivity|].
  by rewrite ascii_eqb_refl, IH.
Qed.

Lemma startswith_spec (s p : string) :
  startswith s p = true ↔ ∃ t, s = p ++ t.
Proof.
  split.
  - revert s. induction p as [|c p IH]; intros s Hs; [by exists s|].
    destruct s as [|x s]; simpl in Hs; [discriminate|].
    apply andb_prop in Hs as [Hc Hs]. apply ascii_eqb_true in Hc as ->.
    destruct (IH _ Hs) as [t ->]. by exists t.
  - intros [t ->]. apply startswith_app.
Qed.

(** A prefix of a string that starts with [p] and is at least as long as
    [p] starts with [p]. *)
Lemma startswith_app_l (a b p : string) :
  startswith a p = true → startswith (a ++ b) p = true.
Proof.
  intros Ha. apply startswith_spec in Ha as [t ->].
  rewrite app_assoc_s. apply startswith_app.
Qed.


Lemma take_app_len (a b : string) : take (len a) (a ++ b) = a.
Proof. unfold len. induction a as [|x a IH]; simpl; [by destruct b|]. by rewrite IH. Qed.

Lemma drop_app_len (a b : string) : drop (len a) (a ++ b) = b.
Proof. unfold len. induction a as [|x a IH]; simpl; [by destruct b|]. by rewrite IH. Qed.

Lemma take_all (s : string) (n : nat) : (len s ≤ n)%nat → take n s = s.
Proof.
  unfold len. revert n. induction s as [|c s IH]; intros n Hn; [by destruct n|].
  destruct n as [|n]; simpl in *; [lia|]. rewrite IH by lia. reflexivity.
Qed.

Lemma take_drop (n : nat) (s : string) : take n s ++ drop n s = s.
Proof.
  revert s. induction n as [|n IH]; intros s; [by destruct s|].
  destruct s as [|c s]; simpl; [reflexivity|]. by rewrite IH.
Qed.

(** *** Character predicates *)

Lemma all_app (p : ascii → bool) (a b : string) :
  all p (a ++ b) = all p a && all p b.
Proof.
  induction a as [|x a IH]; simpl; [reflexivity|].
  by rewrite IH, andb_assoc.
Qed.

Lemma all_impl (p q : ascii → bool) (s : string) :
  (∀ c, p c = true → q c = true) → all p s = true → all q s = true.
Proof.
  intros Hpq. induction s as [|c s IH]; simpl; [reflexivity|].
  intros [Hc Hs]%andb_prop. by rewrite (Hpq _ Hc), IH.
Qed.

Lemma all_filter (p : ascii → bool) (s : string) : all p (filter p s) = true.
Proof.
  induction s as [|c s IH]; simpl; [reflexivity|].
  destruct (p c) eqn:Hc; simpl; [by rewrite Hc|exact IH].
Qed.

Lemma filter_all (p : ascii → bool) (s : string) : all p s = true → filter p s = s.
Proof.
  induction s as [|c s IH]; simpl; [reflexivity|].
  intros [Hc Hs]%andb_prop. by rewrite Hc, IH.
Qed.

Lemma has_char_false_all (s : string) (c : ascii) :
  has_char s c = false ↔ all (λ x, negb (ascii_eqb x c)) s = true.
Proof.
  induction s as [|x s IH]; simpl; [done|].
  destruct (ascii_eqb x c); simpl; [done|exact IH].
Qed.

Lemma has_char_app (a b : string) (c : ascii) :
  has_char (a ++ b) c = has_char a c || has_char b c.
Proof.
  induction a as [|x a IH]; simpl; [reflexivity|].
  by rewrite IH, orb_assoc.
Qed.

(** *** [span] and [partition] *)

Lemma span_app (p : ascii → bool) (s : string) :
  (span p s).1 ++ (span p s).2 = s.
Proof.
  induction s as [|c s IH]; simpl; [reflexivity|].
  destruct (p c); [|reflexivity].
  destruct (span p s) as [a b]; simpl in *. by rewrite IH.
Qed.

Lemma span_all (p : ascii → bool) (s : string) : all p (span p s).1 = true.
Proof.
  induction s as [|c s IH]; simpl; [reflexivity|].
  destruct (p c) eqn:Hc; [|reflexivity].
  destruct (span p s) as [a b]; simpl in *. by rewrite Hc, IH.
Qed.

(** The rest of a span is empty or starts with a character that fails. *)
Lemma span_rest (p : ascii → bool) (s : string) :
  (span p s).2 = "" ∨ ∃ c t, (span p s).2 = String c t ∧ p c = false.
Proof.
  induction s as [|c s IH]; simpl; [by left|].
  destruct (p c) eqn:Hc; [|right; by exists c, s].
  destruct (span p s) as [a b]; simpl in *. exact IH.
Qed.

(** A run of passing characters followed by a failing one, or by nothing,
    is split where it ends. *)
Lemma span_exact (p : ascii → bool) (a b : string) :
  all p a = true →
  (b = "" ∨ ∃ c t, b = String c t ∧ p c = false) →
  span p (a ++ b) = (a, b).
Proof.
  intros Ha Hb. induction a as [|x a IH]; simpl in *.
  - destruct Hb as [-> | (c & t & -> & Hc)]; [reflexivity|]. simpl. by rewrite Hc.
  - apply andb_prop in Ha as [Hx Ha]. by rewrite Hx, (IH Ha).
Qed.

Lemma span_none (p : ascii → bool) (s : string) :
  all p s = true → span p s = (s, "").
Proof.
  intros Hs. rewrite <- (app_nil_r_s s) at 1. apply span_exact; [exact Hs|by left].
Qed.

Lemma partition_before (c : ascii) (s : string) :
  all (λ x, negb (ascii_eqb x c)) (partition c s).1.1 = true
  ∧ ∃ t, s = (partition c s).1.1 ++ t.
Proof.
  unfold partition.
  pose proof (span_all (λ x, negb (ascii_eqb x c)) s) as Hall.
  pose proof (span_app (λ x, negb (ascii_eqb x c)) s) as Happ.
  destruct (span _ s) as [a b]; simpl in *.
  destruct b as [|x b]; simpl; (split; [exact Hall|eauto]).
Qed.

Lemma partition_absent (c : ascii) (s : string) :
  has_char s c = false → partition c s = (s, false, "").
Proof.
  intros Hc. apply has_char_false_all in Hc.
  unfold partition. by rewrite span_none.
Qed.

Lemma partition_found (c : ascii) (a b : string) :
  has_char a c = false → partition c (a ++ String c b) = (a, true, b).
Proof.
  intros Hc. apply has_char_false_all in Hc.
  unfold partition. rewrite span_exact; [reflexivity|exact Hc|].
  right. exists c, b. split; [reflexivity|]. by rewrite ascii_eqb_refl.
Qed.

(** *** Occurrences of a substring *)

Lemma contains_index_of (s sub : string) :
  contains s sub = true ↔ ∃ i, index_of s sub = Some i.
Proof.
  induction s as [|c s IH]; simpl.
  - destruct (startswith "" sub); simpl.
    + split; [by eauto|done].
    + split; [done|by intros [? ?]].
  - destruct (startswith (String c s) sub); simpl.
    + split; [by eauto|done].
    + rewrite IH. split.
      * intros [i ->]. by eauto.
      * intros [i Hi]. destruct (index_of s sub); [by eauto|discriminate].
Qed.

Lemma contains_false_index_of (s sub : string) :
  contains s sub = false → index_of s sub = None.
Proof.
  intros Hc. destruct (index_of s sub) as [i|] eqn:Hi; [|reflexivity].
  assert (contains s sub = true) by (apply contains_index_of; eauto). congruence.
Qed.

(** The first occurrence splits the string. *)
Lemma index_of_split (s sub : string) (i : nat) :
  index_of s sub = Some i →
  ∃ rest, s = take i s ++ sub ++ rest ∧ len (take i s) = i.
Proof.
  revert i. induction s as [|c s IH]; intros i; simpl.
  - destruct (startswith "" sub) eqn:Hs; [|discriminate].
    intros [= <-]. apply startswith_spec in Hs as [t Ht]. by exists t.
  - destruct (startswith (String c s) sub) eqn:Hs.
    + intros [= <-]. apply startswith_spec in Hs as [t Ht]. by exists t.
    + destruct (index_of s sub) as [j|] eqn:Hj; [|discriminate].
      intros [= <-]. destruct (IH _ eq_refl) as (rest & Hrest & Hlen).
      exists rest. simpl. unfold len in *. simpl. by rewrite <- Hrest, Hlen.
Qed.

Lemma startswith_refl (s : string) : startswith s s = true.
Proof. rewrite <- (app_nil_r_s s) at 1. apply startswith_app. Qed.

Lemma index_of_here (s sub : string) :
  startswith s sub = true → index_of s sub = Some O.
Proof. intros Hs. destruct s; simpl; by rewrite Hs. Qed.

(** The first occurrence stays first in the prefix that ends with it. *)
Lemma index_of_prefix (s sub : string) (i : nat) :
  index_of s sub = Some i →
  index_of (take i s ++ sub) sub = Some i.
Proof.
  revert i. induction s as [|c s IH]; intros i; simpl.
  - destruct (startswith "" sub) eqn:Hs; [|discriminate].
    intros [= <-]. simpl. apply index_of_here, startswith_refl.
  - destruct (startswith (String c s) sub) eqn:Hs.
    + intros [= <-]. simpl. apply index_of_here, startswith_refl.
    + destruct (index_of s sub) as [j|] eqn:Hj; [|discriminate].
      intros [= <-]. simpl.
      destruct (startswith (String c (take j s ++ sub)) sub) eqn:Hs'.
      * destruct (index_of_split _ _ _ Hj) as (rest & Hrest & _).
        rewrite Hrest in Hs. rewrite <- app_assoc_s in Hs.
        change (String c ((take j s ++ sub) ++ rest))
          with (String c (take j s ++ sub) ++ rest) in Hs.
        rewrite (startswith_app_l _ _ _ Hs') in Hs. discriminate.
      * by rewrite (IH _ eq_refl).
Qed.

Lemma find_index_of (s sub : string) (i : nat) :
  index_of s sub = Some i → find s sub = Z.of_nat i.
Proof. unfold find. by intros ->. Qed.

Lemma slice_to_nat (s : string) (n : nat) :
  slice_to s (Z.of_nat n) = take n s.
Proof.
  unfold slice_to, clamp.
  destruct (Z.of_nat n <? 0) eqn:Hneg; [apply Z.ltb_lt in Hneg; lia|].
  destruct (decide (n ≤ len s)%nat).
  - by rewrite Z.min_r, Nat2Z.id by lia.
  - rewrite Z.min_l, Nat2Z.id by lia. rewrite !take_all; [reflexivity|lia|lia].
Qed.

(** *** [rstrip] *)

Lemma rstrip_aux_ends (c a : ascii) (x : string) :
  a ≠ c → rstrip_aux c (x ++ String a "") = Some (x ++ String a "").
Proof.
  intros Hne. induction x as [|y x IH]; simpl.
  - destruct (ascii_eqb a c) eqn:Hac; [|reflexivity].
    by apply ascii_eqb_true in Hac.
  - by rewrite IH.
Qed.

Lemma rstrip_ends (c a : ascii) (x : string) :
  a ≠ c → rstrip c (x ++ String a "") = x ++ String a "".
Proof. intros Hne. unfold rstrip. by rewrite rstrip_aux_ends. Qed.

(** [rstrip] keeps a prefix. *)
Lemma rstrip_prefix (c : ascii) (s : string) : ∃ t, s = rstrip c s ++ t.
Proof.
  unfold rstrip.
  assert (H : match rstrip_aux c s with
              | Some r => ∃ t, s = r ++ t
              | None => True
              end).
  { induction s as [|x s IH]; simpl; [done|].
    destruct (rstrip_aux c s) as [r|].
    - destruct IH as [t ->]. by exists t.
    - destruct (ascii_eqb x c); [done|]. by exists s. }
  destruct (rstrip_aux c s); simpl; [exact H|by exists s].
Qed.

End string_facts.

(** ** The well-known base *)

Section well_known_base.
Context `{validation : !NetlocValidation}.
Import PyStr.
#[local] Arguments String.append !_ _ : simpl nomatch.
#[local] Arguments ascii_eqb : simpl never.

(** No proper suffix of [/.well-known/skills] is a prefix of it, so an
    occurrence cannot start inside [x] and run into a following copy. *)
Lemma well_known_no_overlap (x : string) :
  startswith (x ++ WELL_KNOWN) WELL_KNOWN = true →
  x = "" ∨ startswith x WELL_KNOWN = true.
Proof.
  unfold WELL_KNOWN. intros H.
  do 19 (destruct x as [|? x];
         [first [by left | vm_compute in H; discriminate]
         |simpl in H; apply andb_prop in H as [? H]]).
  right. simpl.
  repeat match goal with
         | Hc : ascii_eqb _ _ = true |- _ => rewrite Hc; clear Hc
         end.
  reflexivity.
Qed.

(** Appending [/.well-known/skills] to a string without it puts the first
    occurrence at the end. *)
Lemma index_of_appended (p : string) :
  contains p WELL_KNOWN = false →
  index_of (p ++ WELL_KNOWN) WELL_KNOWN = Some (len p).
Proof.
  induction p as [|c p IH]; [reflexivity|].
  intros Hc. change (contains (String c p) WELL_KNOWN)
    with (startswith (String c p) WELL_KNOWN || contains p WELL_KNOWN) in Hc.
  apply orb_false_elim in Hc as [Hhere Hrest].
  change (index_of (String c p ++ WELL_KNOWN) WELL_KNOWN)
    with (if startswith (String c p ++ WELL_KNOWN) WELL_KNOWN then Some O
          else S <$> index_of (p ++ WELL_KNOWN) WELL_KNOWN).
  destruct (startswith (String c p ++ WELL_KNOWN) WELL_KNOWN) eqn:Hs.
  - destruct (well_known_no_overlap _ Hs) as [? | Hp]; [discriminate|congruence].
  - by rewrite (IH Hrest).
Qed.

(** [_splitparams] leaves a path whose last segment is [skills]. *)
Lemma splitparams_well_known (x : string) :
  UrlParse._splitparams (x ++ WELL_KNOWN) = x ++ WELL_KNOWN.
Proof.
  induction x as [|c x IH]; [reflexivity|].
  simpl. rewrite has_char_app.
  replace (has_char WELL_KNOWN "/") with true by reflexivity.
  by rewrite orb_true_r, IH.
Qed.

Lemma rstrip_well_known (x : string) :
  rstrip "/" (x ++ WELL_KNOWN) = x ++ WELL_KNOWN.
Proof.
  change WELL_KNOWN with ("/.well-known/skill" ++ String "s" "").
  rewrite <- app_assoc_s. by apply rstrip_ends.
Qed.

(** *** What [urlparse] returns *)

Import UrlParse.

Ltac ascii_cases c :=
  destruct c as [[] [] [] [] [] [] [] []]; vm_compute; intros;
  try discriminate; repeat split.

Lemma scheme_char_lower (c : ascii) :
  scheme_char c = true → settled_scheme_char (lower_char c) = true.
Proof. ascii_cases c. Qed.

Lemma alpha_lower (c : ascii) :
  is_ascii_alpha c = true → is_ascii_alpha (lower_char c) = true.
Proof. ascii_cases c. Qed.

Lemma settled_scheme_char_facts (c : ascii) :
  settled_scheme_char c = true →
  scheme_char c = true ∧ lower_char c = c ∧ unsafe_byte c = false
  ∧ ascii_eqb c ":" = false.
Proof. ascii_cases c. Qed.

Lemma alpha_not_space (c : ascii) :
  is_ascii_alpha c = true → c0_control_or_space c = false.
Proof. ascii_cases c. Qed.

Lemma lower_settled (pre : string) :
  all scheme_char pre = true → all settled_scheme_char (lower pre) = true.
Proof.
  induction pre as [|c pre IH]; simpl; [reflexivity|].
  intros [Hc Hpre]%andb_prop. by rewrite (scheme_char_lower _ Hc), IH.
Qed.

Lemma settled_scheme_facts (s : string) :
  all settled_scheme_char s = true →
  all scheme_char s = true ∧ lower s = s
  ∧ all (λ c, negb (unsafe_byte c)) s = true ∧ has_char s ":" = false.
Proof.
  induction s as [|c s IH]; simpl; [done|].
  intros [Hc Hs]%andb_prop.
  destruct (settled_scheme_char_facts _ Hc) as (H1 & H2 & H3 & H4).
  destruct (IH Hs) as (I1 & I2 & I3 & I4).
  by rewrite H1, H2, H3, H4, I1, I2, I3, I4.
Qed.

Lemma all_prefix (p : ascii → bool) (a t : string) :
  all p (a ++ t) = true → all p a = true.
Proof. rewrite all_app. by intros [? ?]%andb_prop. Qed.

(** [_splitparams] keeps a prefix of its argument. *)
Lemma splitparams_prefix (x : string) : ∃ t, x = _splitparams x ++ t.
Proof.
  induction x as [|c x IH]; [by exists ""|].
  simpl. destruct (has_char x "/").
  - destruct IH as [t Ht]. exists t. simpl. by rewrite <- Ht.
  - destruct (partition_before ";" (String c x)) as [_ Ht]. exact Ht.
Qed.

(** What [split_scheme] makes of a URL without tab, CR or LF. *)
Lemma split_scheme_spec (u : string) :
  all (λ c, negb (unsafe_byte c)) u = true →
  ((split_scheme u).1 = "" ∧ (split_scheme u).2 = u)
  ∨ (settled_scheme (split_scheme u).1
     ∧ all (λ c, negb (unsafe_byte c)) (split_scheme u).2 = true).
Proof.
  intros Hu. unfold split_scheme.
  destruct (partition_before ":" u) as [_ [t Ht]].
  destruct (partition ":" u) as [[pre found] rest] eqn:Hpart. simpl in Ht.
  destruct pre as [|c0 pre]; [by left|].
  destruct (found && is_ascii_alpha c0 && all scheme_char (String c0 pre)) eqn:Hok;
    [|by left].
  right. apply andb_prop in Hok as [[_ Halpha]%andb_prop Hchars]. simpl. split.
  - split; [by apply alpha_lower|].
    by apply (lower_settled (String c0 pre)).
  - unfold partition in Hpart.
    pose proof (span_app (λ x, negb (ascii_eqb x ":")) u) as Happ.
    destruct (span _ u) as [a b]; simpl in Happ.
    destruct b as [|x b]; simplify_eq; [reflexivity|].
    rewrite all_app in Hu. apply andb_prop in Hu as [_ Hb].
    simpl in Hb. by apply andb_prop in Hb as [_ Hb].
Qed.

Lemma all_and (p q : ascii → bool) (s : string) :
  all p s = true → all q s = true → all (λ c, p c && q c) s = true.
Proof.
  induction s as [|c s IH]; simpl; [reflexivity|].
  intros [Hp Hps]%andb_prop [Hq Hqs]%andb_prop. by rewrite Hp, Hq, IH.
Qed.

Lemma all_drop (p : ascii → bool) (n : nat) (s : string) :
  all p s = true → all p (drop n s) = true.
Proof.
  intros Hs. rewrite <- (take_drop n s), all_app in Hs.
  by apply andb_prop in Hs as [_ ?].
Qed.

(** The path [urlparse] cuts out of what follows the netloc. *)
Lemma path_of_rest (scheme rest : string) :
  all (λ c, negb (unsafe_byte c)) rest = true →
  let cut := (partition "?" (partition "#" rest).1.1).1.1 in
  let path := if bool_decide (scheme ∈ uses_params) then _splitparams cut else cut in
  all path_char path = true ∧ ∃ t, rest = path ++ t.
Proof.
  intros Hrest cut path.
  destruct (partition_before "#" rest) as [Hhash [t1 Ht1]].
  destruct (partition_before "?" (partition "#" rest).1.1) as [Hquery [t2 Ht2]].
  fold cut in Hquery, Ht2.
  assert (Hcut : ∃ t, rest = cut ++ t).
  { exists (t2 ++ t1). by rewrite <- app_assoc_s, <- Ht2. }
  assert (Hpath : ∃ t, cut = path ++ t).
  { subst path. destruct (bool_decide _); [apply splitparams_prefix|].
    exists "". by rewrite app_nil_r_s. }
  destruct Hcut as [t Ht]. destruct Hpath as [t' Ht'].
  assert (Hall : all path_char cut = true).
  { unfold path_char. apply all_and; [apply all_and|].
    - rewrite Ht in Hrest. by apply all_prefix in Hrest.
    - rewrite Ht2 in Hhash. by apply all_prefix in Hhash.
    - exact Hquery. }
  split.
  - rewrite Ht' in Hall. by apply all_prefix in Hall.
  - exists (t' ++ t). by rewrite <- app_assoc_s, <- Ht'.
Qed.

Lemma urlparse_components (url : string) (parsed : ParseResult) :
  urlparse url = Ok parsed →
  (scheme parsed = "" ∨ settled_scheme (scheme parsed))
  ∧ all netloc_char (netloc parsed) = true
  ∧ netloc_accepted (netloc parsed) = true
  ∧ all path_char (path parsed) = true.
Proof.
  unfold urlparse.
  set (u := filter (λ c, negb (unsafe_byte c)) (span c0_control_or_space url).2).
  assert (Hu : all (λ c, negb (unsafe_byte c)) u = true) by apply all_filter.
  destruct (split_scheme_spec u Hu) as [[Hs Hrest] | [Hs Hrest]];
    destruct (split_scheme u) as [s rest]; simpl in Hs, Hrest.
  - subst s rest. destruct (startswith u "//").
    + pose proof (span_all (λ c, negb (netloc_delim c)) (drop 2 u)) as Hdelim.
      pose proof (span_app (λ c, negb (netloc_delim c)) (drop 2 u)) as Happ.
      unfold _splitnetloc.
      destruct (span _ (drop 2 u)) as [n rest'] eqn:Hspan. cbn [fst snd] in Hdelim, Happ.
      pose proof (all_drop _ 2 _ Hu) as Hdrop. rewrite <- Happ, all_app in Hdrop.
      apply andb_prop in Hdrop as [Hn Hrest'].
      destruct (netloc_accepted n) eqn:Hacc; simpl; [|discriminate].
      intros [= <-]. simpl.
      destruct (path_of_rest "" rest' Hrest') as [Hpath _].
      split; [by left|]. split; [by apply all_and|]. by split.
    + simpl. intros [= <-]. simpl.
      destruct (path_of_rest "" u Hu) as [Hpath _].
      split; [by left|]. by repeat split.
  - destruct (startswith rest "//").
    + pose proof (span_all (λ c, negb (netloc_delim c)) (drop 2 rest)) as Hdelim.
      pose proof (span_app (λ c, negb (netloc_delim c)) (drop 2 rest)) as Happ.
      unfold _splitnetloc.
      destruct (span _ (drop 2 rest)) as [n rest'] eqn:Hspan. cbn [fst snd] in Hdelim, Happ.
      pose proof (all_drop _ 2 _ Hrest) as Hdrop. rewrite <- Happ, all_app in Hdrop.
      apply andb_prop in Hdrop as [Hn Hrest'].
      destruct (netloc_accepted n) eqn:Hacc; simpl; [|discriminate].
      intros [= <-]. simpl.
      destruct (path_of_rest s rest' Hrest') as [Hpath _].
      split; [by right|]. split; [by apply all_and|]. by split.
    + simpl. intros [= <-]. simpl.
      destruct (path_of_rest s rest Hrest) as [Hpath _].
      split; [by right|]. by repeat split.
Qed.

Lemma path_char_facts (q : string) :
  all path_char q = true →
  all (λ c, negb (unsafe_byte c)) q = true
  ∧ has_char q "#" = false ∧ has_char q "?" = false.
Proof.
  induction q as [|c q IH]; simpl; [done|].
  intros [Hc Hq]%andb_prop. destruct (IH Hq) as (I1 & I2 & I3).
  unfold path_char in Hc.
  apply andb_prop in Hc as [[H1 H2]%andb_prop H3].
  apply negb_true_iff in H2, H3. by rewrite H1, H2, H3, I1, I2, I3.
Qed.

Lemma netloc_char_facts (n : string) :
  all netloc_char n = true →
  all (λ c, negb (unsafe_byte c)) n = true
  ∧ all (λ c, negb (netloc_delim c)) n = true.
Proof.
  induction n as [|c n IH]; simpl; [done|].
  intros [Hc Hn]%andb_prop. destruct (IH Hn) as (I1 & I2).
  unfold netloc_char in Hc. apply andb_prop in Hc as [H1 H2].
  by rewrite H1, H2, I1, I2.
Qed.

(** Parsing a URL put together from a settled scheme, a netloc and an
    absolute path that ends in [/.well-known/skills] gives these three
    components back. *)
Lemma urlparse_rebuilt (s n x : string) :
  settled_scheme s →
  all netloc_char n = true →
  netloc_accepted n = true →
  all path_char (x ++ WELL_KNOWN) = true →
  startswith (x ++ WELL_KNOWN) "/" = true →
  urlparse (s ++ "://" ++ n ++ x ++ WELL_KNOWN)
  = Ok {| scheme := s; netloc := n; path := x ++ WELL_KNOWN |}.
Proof.
  intros [Hhead Hs] Hn Hacc Hq Hslash.
  destruct (settled_scheme_facts _ Hs) as (Hchars & Hlower & Hsafe & Hcolon).
  destruct (netloc_char_facts _ Hn) as (Hnsafe & Hndelim).
  destruct (path_char_facts _ Hq) as (Hqsafe & Hhash & Hquery).
  set (q := x ++ WELL_KNOWN) in *.
  destruct s as [|c s']; [done|].
  unfold urlparse.
  (* nothing to strip, nothing to remove *)
  replace (span c0_control_or_space (String c s' ++ "://" ++ n ++ q)).2
    with (String c s' ++ "://" ++ n ++ q)
    by (simpl; by rewrite (alpha_not_space _ Hhead)).
  rewrite filter_all
    by (rewrite !all_app; by rewrite Hsafe, Hnsafe, Hqsafe).
  (* the scheme *)
  assert (Hsplit : split_scheme (String c s' ++ "://" ++ n ++ q)
                   = (String c s', "//" ++ n ++ q)).
  { unfold split_scheme.
    change (String c s' ++ "://" ++ n ++ q)
      with (String c s' ++ String ":" ("//" ++ n ++ q)).
    rewrite (partition_found _ _ _ Hcolon).
    by rewrite Hhead, Hchars, Hlower. }
  rewrite Hsplit.
  (* the netloc *)
  assert (Hnetloc : _splitnetloc ("//" ++ n ++ q) = (n, q)).
  { unfold _splitnetloc. change (drop 2 ("//" ++ n ++ q)) with (n ++ q).
    apply span_exact; [exact Hndelim|]. right.
    apply startswith_spec in Hslash as [t Ht]. exists "/"%char, t.
    split; [exact Ht|reflexivity]. }
  change (startswith ("//" ++ n ++ q) "//") with true. cbv iota.
  rewrite Hnetloc, Hacc. simpl.
  (* the path *)
  rewrite (partition_absent _ _ Hhash). simpl.
  rewrite (partition_absent _ _ Hquery). simpl.
  subst q. rewrite splitparams_well_known. by destruct (bool_decide _).
Qed.

Lemma take_two_parts (a b rest : string) :
  take (len a + len b) (a ++ b ++ rest) = a ++ b.
Proof. rewrite <- app_assoc_s, <- len_app. apply take_app_len. Qed.

Lemma prefix_head (s a t : string) :
  s = a ++ t → s = "" ∨ startswith s "/" = true →
  a = "" ∨ startswith a "/" = true.
Proof.
  intros -> Hs. destruct a as [|c a]; [by left|]. right.
  destruct Hs as [? | Hs]; [discriminate|].
  simpl in *. apply andb_prop in Hs as [Hc _]. by rewrite Hc.
Qed.

Lemma delim_path_char (c : ascii) :
  netloc_delim c = true → path_char c = true → c = "/"%char.
Proof. ascii_cases c. Qed.

(** The base of a URL whose path ends with its only occurrence of
    [/.well-known/skills] is that URL. *)
Lemma base_of_rebuilt (s n x : string) :
  urlparse (s ++ "://" ++ n ++ x ++ WELL_KNOWN)
    = Ok {| scheme := s; netloc := n; path := x ++ WELL_KNOWN |} →
  index_of (x ++ WELL_KNOWN) WELL_KNOWN = Some (len x) →
  WellKnownProvider._get_well_known_base (s ++ "://" ++ n ++ x ++ WELL_KNOWN)
  = Ok (s ++ "://" ++ n ++ x ++ WELL_KNOWN).
Proof.
  intros Hparse Hidx. unfold WellKnownProvider._get_well_known_base.
  rewrite Hparse. simpl. rewrite rstrip_well_known.
  fold WELL_KNOWN.
  assert (Hc : contains (x ++ WELL_KNOWN) WELL_KNOWN = true)
    by (apply contains_index_of; eauto).
  rewrite Hc, (find_index_of _ _ _ Hidx).
  rewrite <- Nat2Z.inj_add, slice_to_nat.
  rewrite take_all
    by (rewrite len_app; change (len WELL_KNOWN) with 19%nat; lia).
  reflexivity.
Qed.

(** A URL that starts with [http://] or [https://] has a scheme, and its
    path is empty or starts with a slash. *)
Lemma http_components (url : string) (parsed : ParseResult) :
  is_http url = true →
  urlparse url = Ok parsed →
  scheme parsed ≠ ""
  ∧ (path parsed = "" ∨ startswith (path parsed) "/" = true).
Proof.
  intros Hhttp. unfold urlparse.
  assert (Hshape : ∃ s t, (s = "http" ∨ s = "https")
            ∧ filter (λ c, negb (unsafe_byte c)) (span c0_control_or_space url).2
              = s ++ "://" ++ t
            ∧ all (λ c, negb (unsafe_byte c)) t = true).
  { unfold is_http in Hhttp. apply orb_prop in Hhttp as [Hp | Hp];
      apply startswith_spec in Hp as [t ->].
    - exists "http", (filter (λ c, negb (unsafe_byte c)) t).
      split; [by left|]. split; [reflexivity|apply all_filter].
    - exists "https", (filter (λ c, negb (unsafe_byte c)) t).
      split; [by right|]. split; [reflexivity|apply all_filter]. }
  destruct Hshape as (s & t & Hs & -> & Ht).
  assert (Hsplit : split_scheme (s ++ "://" ++ t) = (s, "//" ++ t))
    by (by destruct Hs as [-> | ->]).
  rewrite Hsplit.
  change (startswith ("//" ++ t) "//") with true. cbv iota.
  unfold _splitnetloc. change (drop 2 ("//" ++ t)) with t.
  pose proof (span_rest (λ c, negb (netloc_delim c)) t) as Hrest.
  pose proof (span_app (λ c, negb (netloc_delim c)) t) as Happ.
  destruct (span _ t) as [n rest]. cbn [fst snd] in Hrest, Happ.
  rewrite <- Happ, all_app in Ht. apply andb_prop in Ht as [_ Hsafe].
  destruct (netloc_accepted n); simpl; [|discriminate].
  intros [= <-]. simpl. split; [by destruct Hs as [-> | ->]|].
  destruct (path_of_rest s rest Hsafe) as [Hchars [t' Ht']]. cbv zeta in Hchars, Ht'.
  set (path := if bool_decide (s ∈ uses_params) then _ else _) in *.
  destruct path as [|c path']; [by left|]. right.
  destruct Hrest as [-> | (d & r & -> & Hd)]; [discriminate|].
  injection Ht' as -> _. simpl in Hchars. apply andb_prop in Hchars as [Hc _].
  apply negb_false_iff in Hd. by rewrite (delim_path_char _ Hd Hc).
Qed.

(** C6, as amended.  For a URL that [urlparse] accepts, the base is
    [<scheme>://<netloc><p>/.well-known/skills], where [<p>] is the path
    without its trailing slashes when that does not contain
    [/.well-known/skills], and otherwise the part of it before the first
    occurrence.  When the URL has a scheme and its path is empty or starts
    with a slash, the computation applied to the base returns the base; a
    URL that starts with [http://] or [https://] is of that kind. *)
Theorem get_well_known_base_spec (url : string) (parsed : ParseResult) :
  urlparse url = Ok parsed →
  ∃ p,
    WellKnownProvider._get_well_known_base url
      = Ok (scheme parsed ++ "://" ++ netloc parsed ++ p ++ WELL_KNOWN)
    ∧ (contains (rstrip "/" (path parsed)) WELL_KNOWN = false →
         p = rstrip "/" (path parsed))
    ∧ (contains (rstrip "/" (path parsed)) WELL_KNOWN = true →
         index_of (rstrip "/" (path parsed)) WELL_KNOWN = Some (len p)
         ∧ ∃ rest, rstrip "/" (path parsed) = p ++ WELL_KNOWN ++ rest)
    ∧ (scheme parsed ≠ "" →
       path parsed = "" ∨ startswith (path parsed) "/" = true →
       WellKnownProvider._get_well_known_base
         (scheme parsed ++ "://" ++ netloc parsed ++ p ++ WELL_KNOWN)
       = Ok (scheme parsed ++ "://" ++ netloc parsed ++ p ++ WELL_KNOWN))
    ∧ (is_http url = true →
       scheme parsed ≠ ""
       ∧ (path parsed = "" ∨ startswith (path parsed) "/" = true)).
Proof.
  intros Hparse.
  destruct (urlparse_components _ _ Hparse) as (Hscheme & Hnetloc & Hacc & Hpath).
  destruct (rstrip_prefix "/" (path parsed)) as [cut Hcut].
  set (path := rstrip "/" (path parsed)) in *.
  assert (Hfacts : ∃ p t,
            path = p ++ t
            ∧ index_of (p ++ WELL_KNOWN) WELL_KNOWN = Some (len p)
            ∧ WellKnownProvider._get_well_known_base url
              = Ok (scheme parsed ++ "://" ++ netloc parsed ++ p ++ WELL_KNOWN)
            ∧ (contains path WELL_KNOWN = false → p = path)
            ∧ (contains path WELL_KNOWN = true →
                 index_of path WELL_KNOWN = Some (len p)
                 ∧ ∃ rest, path = p ++ WELL_KNOWN ++ rest)).
  { unfold WellKnownProvider._get_well_known_base. rewrite Hparse. simpl.
    fold path. fold WELL_KNOWN.
    destruct (contains path WELL_KNOWN) eqn:Hc.
    - apply contains_index_of in Hc as [i Hi].
      destruct (index_of_split _ _ _ Hi) as (rest & Hrest & Hlen).
      exists (take i path), (WELL_KNOWN ++ rest).
      split; [exact Hrest|]. split; [rewrite Hlen; by apply index_of_prefix|].
      split.
      + rewrite (find_index_of _ _ _ Hi), <- Nat2Z.inj_add, slice_to_nat.
        rewrite Hrest at 1. rewrite <- Hlen at 1.
        change 19%nat with (len WELL_KNOWN). by rewrite take_two_parts.
      + split; [done|]. intros _. rewrite Hlen. split; [exact Hi|by exists rest].
    - exists path, "". split; [by rewrite app_nil_r_s|].
      split; [by apply index_of_appended|]. split.
      + by destruct (String.eqb path "") eqn:He; [apply String.eqb_eq in He as ->|].
      + split; [done|discriminate]. }
  destruct Hfacts as (p & t & Hp & Hidx & Hbase & Hplain & Hcontained).
  exists p. split; [exact Hbase|]. split; [exact Hplain|]. split; [exact Hcontained|].
  split; [|intros Hhttp; by apply (http_components url)].
  intros Hne Habs. apply base_of_rebuilt; [|exact Hidx].
  assert (Hprefix : UrlParse.path parsed = p ++ (t ++ cut))
    by (by rewrite <- app_assoc_s, <- Hp).
  apply urlparse_rebuilt.
  - by destruct Hscheme.
  - exact Hnetloc.
  - exact Hacc.
  - rewrite all_app. rewrite Hprefix in Hpath. by rewrite (all_prefix _ _ _ Hpath).
  - destruct (prefix_head _ _ _ Hprefix Habs) as [-> | Hslash]; [reflexivity|].
    by apply startswith_app_l.
Qed.

End well_known_base.

(** ** The HuggingFace URL pattern and [to_raw_url] *)

Section huggingface_urls.
Context `{validation : !NetlocValidation}.
Import PyStr.
#[local] Arguments String.append !_ _ : simpl nomatch.
#[local] Arguments ascii_eqb : simpl never.



(** *** [str.replace] *)





End huggingface_urls.

(** ** Concrete URLs *)

Section examples.
#[local] Existing Instance no_bracket_validation.

(** C4 fails as stated: a URL without a host is matched, and its source
    identifier is [mintlify/com], not [mintlify/] followed by its (empty)
    hostname. *)
Lemma mintlify_identifier_without_host :
  matches (Mintlify.match_ url_without_host) = true
  ∧ source_identifier (Mintlify.match_ url_without_host) = Some "mintlify/com"
  ∧ ∃ parsed,
      UrlParse.urlparse url_without_host = Ok parsed
      ∧ UrlParse.hostname parsed = None
      ∧ source_identifier (Mintlify.match_ url_without_host)
        ≠ Some ("mintlify/" ++ default "" (UrlParse.hostname parsed)).
Proof.
  split; [vm_compute; reflexivity|]. split; [vm_compute; reflexivity|].
  eexists. split; [vm_compute; reflexivity|]. split; [reflexivity|].
  vm_compute. discriminate.
Qed.

Lemma mintlify_match_spec_witness :
  matches (Mintlify.match_ mintlify_url) = true
  ∧ ∃ parsed,
      UrlParse.urlparse mintlify_url = Ok parsed
      ∧ source_identifier (Mintlify.match_ mintlify_url)
        = Some ("mintlify/" ++ match UrlParse.hostname parsed with
                               | Some host => host
                               | None => "com"
                               end).
Proof.
  assert (Hmatch : matches (Mintlify.match_ mintlify_url) = true).
  { apply (proj1 (mintlify_match_spec mintlify_url)).
    split; [reflexivity|]. split; [reflexivity|].
    eexists. split; [vm_compute; reflexivity|].
    intros Hin. apply (bool_decide_eq_true_2 _) in Hin. vm_compute in Hin.
    discriminate. }
  split; [exact Hmatch|].
  exact (proj1 (proj2 (mintlify_match_spec mintlify_url)) Hmatch).
Defined.



(** C6 fails as stated.  A URL whose path goes on after
    [/.well-known/skills] does not get that path followed by
    [/.well-known/skills]; and a URL without a scheme gets a base to which the
    computation gives another base. *)
Lemma well_known_base_not_as_stated :
  (∃ parsed,
     UrlParse.urlparse "https://example.com/.well-known/skills/my-skill" = Ok parsed
     ∧ WellKnownProvider._get_well_known_base
         "https://example.com/.well-known/skills/my-skill"
       = Ok "https://example.com/.well-known/skills"
     ∧ UrlParse.scheme parsed ++ "://" ++ UrlParse.netloc parsed
         ++ UrlParse.path parsed ++ "/.well-known/skills"
       = "https://example.com/.well-known/skills/my-skill/.well-known/skills")
  ∧ WellKnownProvider._get_well_known_base "example.com/docs"
    = Ok "://example.com/docs/.well-known/skills"
  ∧ WellKnownProvider._get_well_known_base "://example.com/docs/.well-known/skills"
    = Ok "://://example.com/docs/.well-known/skills".
Proof.
  split; [|split; vm_compute; reflexivity].
  eexists. split; [vm_compute; reflexivity|]. split; vm_compute; reflexivity.
Qed.

Lemma get_well_known_base_spec_witness :
  WellKnownProvider._get_well_known_base "https://example.com/docs"
  = Ok "https://example.com/docs/.well-known/skills"
  ∧ WellKnownProvider._get_well_known_base "https://example.com/docs/.well-known/skills"
    = Ok "https://example.com/docs/.well-known/skills".
Proof.
  destruct (get_well_known_base_spec "https://example.com/docs"
              {| UrlParse.scheme := "https";
                 UrlParse.netloc := "example.com";
                 UrlParse.path := "/docs" |})
    as (p & Hbase & Hplain & _ & Hidem & Hhttp); [vm_compute; reflexivity|].
  rewrite (Hplain eq_refl) in Hbase, Hidem.
  split; [exact Hbase|].
  destruct (Hhttp eq_refl) as [Hscheme Hpath].
  exact (Hidem Hscheme Hpath).
Defined.

Lemma fetch_all_skills_join_witness :
  WellKnownProvider.fetch_all_skills world_with_index "https://example.com"
  = Ok [skill_of (entry_named "a"); skill_of (entry_named "c")].
Proof.
  destruct (fetch_all_skills_join world_with_index "https://example.com") as [_ Hjoin].
  destruct (Hjoin {| index_skills := [entry_named "a"; entry_named "b"; entry_named "c"] |}
              eq_refl) as [_ Hall].
  rewrite Hall; [reflexivity|].
  repeat constructor; eexists; reflexivity.
Defined.

End examples.


(** * Further properties *)

(** ** The lock store through the file *)

Section lock_api.
Import SkillLock SkillLockApi.

Lemma kept_if_truthy_idemp (v : pyval) :
  kept_if_truthy (kept_if_truthy v) = kept_if_truthy v.
Proof. unfold kept_if_truthy. by destruct (truthy v) eqn:Hv; [rewrite Hv|]. Qed.

Lemma kept_if_truthy_survives (v : pyval) :
  survives v → kept_if_truthy v = v.
Proof. unfold kept_if_truthy. by intros [-> | ->]. Qed.

Lemma reloaded_entry_idemp (e : SkillLockEntry) :
  reloaded_entry (reloaded_entry e) = reloaded_entry e.
Proof. unfold reloaded_entry. simpl. by rewrite kept_if_truthy_idemp. Qed.

Lemma reloaded_idemp (lock : SkillLockFile) : reloaded (reloaded lock) = reloaded lock.
Proof.
  unfold reloaded. simpl. rewrite kept_if_truthy_idemp. f_equal.
  rewrite <- map_fmap_compose. apply map_fmap_ext. intros ? e _. apply reloaded_entry_idemp.
Qed.

(** X1.  Writing a lock whose version is an integer not below the current
    one and reading the file again gives the lock back, except that a false
    [skill_path] (such as the empty string) and a false
    [last_selected_agents] (such as the empty list) come back as [None]; a
    further write and read changes nothing more, and a lock without such
    values comes back as it was. *)
Theorem write_read_cycle (lock : SkillLockFile) (d : Disk) (z : Z) :
  version lock = VInt z → CURRENT_VERSION ≤ z →
  read_skill_lock (write_skill_lock lock d) = Ok (reloaded lock)
  ∧ (∀ d', read_skill_lock (write_skill_lock (reloaded lock) d') = Ok (reloaded lock))
  ∧ ((∀ name e, skills lock !! name = Some e → survives (skill_path e)) →
     survives (last_selected_agents lock) →
     reloaded lock = lock).
Proof.
  intros Hv Hz. split; [by eapply read_after_write|]. split.
  - intros d'. rewrite <- (reloaded_idemp lock) at 2.
    by apply (read_after_write _ _ z).
  - intros Hpaths Hagents. destruct lock as [v sk dis agents]. unfold reloaded. simpl in *.
    rewrite (kept_if_truthy_survives _ Hagents). f_equal.
    apply map_eq. intros name. rewrite lookup_fmap.
    destruct (sk !! name) as [e|] eqn:He; [|reflexivity]. simpl. f_equal.
    pose proof (Hpaths _ _ He) as Hpath.
    destruct e. unfold reloaded_entry. simpl in *.
    by rewrite (kept_if_truthy_survives _ Hpath).
Qed.

Lemma write_read_cycle_witness :
  read_skill_lock (write_skill_lock example_lock (disk_holding VNone)) = Ok example_lock.
Proof.
  assert (Hcurrent : CURRENT_VERSION ≤ 3) by (unfold CURRENT_VERSION; lia).
  destruct (write_read_cycle example_lock (disk_holding VNone) 3 eq_refl Hcurrent)
    as (Hread & _ & Hsame).
  rewrite Hread, Hsame; [reflexivity| |].
  - intros name e. unfold example_lock, example_entries. simpl.
    rewrite lookup_fmap. intros He.
    destruct (decide (name = "pdf")) as [->|Hne].
    + rewrite lookup_insert_eq in He. injection He as <-. by left.
    + by rewrite lookup_insert_ne in He.
  - by left.
Defined.

(** X2.  A file whose bytes are not UTF-8 makes [read_skill_lock] raise
    [UnicodeDecodeError].  When [json.loads] returns a value for the text
    of the file, the only exception that can leave [read_skill_lock] is
    [AttributeError], and it is raised whenever that value is not a JSON
    object.  (A text on which [json.loads] itself fails otherwise than by
    [JSONDecodeError], at a limit of the interpreter, is no case of
    this.) *)
Theorem read_skill_lock_raises (d : Disk) :
  (lock_file d = Undecodable → read_skill_lock d = Raise UnicodeDecodeError)
  ∧ ∀ v, lock_file d = Content (Json v) →
      (∀ e, read_skill_lock d = Raise e → e = AttributeError)
      ∧ ((∀ data, v ≠ VDict data) → read_skill_lock d = Raise AttributeError).
Proof.
  split.
  - intros Hf. unfold read_skill_lock. by rewrite Hf.
  - intros v Hf. rewrite (read_skill_lock_json _ _ Hf). split.
    + intros e Hraise.
      destruct v as [| | | | | |data]; try by injection Hraise as <-.
      cbv zeta in Hraise.
      destruct (negb _ || negb _); [discriminate|].
      destruct (_ <? _); [discriminate|].
      by eapply dict_to_lock_file_raises.
    + intros Hshape. destruct v; try reflexivity. by destruct (Hshape d0).
Qed.

Lemma read_skill_lock_raises_witness :
  read_skill_lock (disk_holding (VList [])) = Raise AttributeError.
Proof.
  apply (proj2 (read_skill_lock_raises (disk_holding (VList []))) (VList []) eq_refl).
  discriminate.
Defined.

(** *** The operations as one read and one write *)

Lemma add_skill_to_lock_eq (d : Disk) (lock : SkillLockFile)
    (skill_name source source_type source_url skill_folder_hash : string)
    (skill_path : option string) (now : string) :
  read_skill_lock d = Ok lock →
  add_skill_to_lock skill_name source source_type source_url skill_folder_hash
    skill_path now d
  = (Ok (),
     write_skill_lock
       (with_skills lock
          (<[skill_name := new_entry (skills lock !! skill_name) source source_type
                             source_url skill_folder_hash skill_path now]>
             (skills lock))) d).
Proof. intros Hread. unfold add_skill_to_lock. by rewrite Hread. Qed.

Lemma remove_skill_from_lock_eq (d : Disk) (lock : SkillLockFile) (skill_name : string) :
  read_skill_lock d = Ok lock →
  remove_skill_from_lock skill_name d
  = match skills lock !! skill_name with
    | Some _ => (Ok true, write_skill_lock (with_skills lock (delete skill_name (skills lock))) d)
    | None => (Ok false, d)
    end.
Proof.
  intros Hread. unfold remove_skill_from_lock. rewrite Hread.
  destruct (skills lock !! skill_name) eqn:Hin.
  - by rewrite bool_decide_eq_true_2 by eauto.
  - by rewrite bool_decide_eq_false_2 by (by intros [? ?]).
Qed.

(** Reading after a write of the lock that was read, with other skills. *)
Lemma read_after_update (d d' : Disk) (lock : SkillLockFile)
    (sk : gmap string SkillLockEntry) :
  read_skill_lock d = Ok lock →
  read_skill_lock (write_skill_lock (with_skills lock sk) d')
  = Ok (reloaded (with_skills lock sk)).
Proof.
  intros Hread. destruct (read_skill_lock_version _ _ Hread) as (z & Hz & Hcur).
  by apply (read_after_write _ _ z).
Qed.

(** X3.  After a successful [add_skill_to_lock] or [remove_skill_from_lock]
    the file still reads, with the version it had (a newer version is not
    brought down to the current one), the same dismissed flags and the same
    last selected agents (a false value counting as [None]). *)
Theorem lock_updates_keep_the_rest (d : Disk) (lock : SkillLockFile)
    (skill_name source source_type source_url skill_folder_hash : string)
    (skill_path : option string) (now : string) :
  read_skill_lock d = Ok lock →
  Forall (λ d',
    ∃ lock', read_skill_lock d' = Ok lock'
      ∧ version lock' = version lock
      ∧ dismissed lock' = dismissed lock
      ∧ kept_if_truthy (last_selected_agents lock')
        = kept_if_truthy (last_selected_agents lock))
    [(add_skill_to_lock skill_name source source_type source_url skill_folder_hash
        skill_path now d).2;
     (remove_skill_from_lock skill_name d).2].
Proof.
  intros Hread. repeat constructor.
  - rewrite (add_skill_to_lock_eq _ _ _ _ _ _ _ _ _ Hread). simpl.
    eexists. split; [by apply (read_after_update d)|]. simpl.
    by rewrite kept_if_truthy_idemp.
  - rewrite (remove_skill_from_lock_eq _ _ _ Hread).
    destruct (skills lock !! skill_name); simpl.
    + eexists. split; [by apply (read_after_update d)|]. simpl.
      by rewrite kept_if_truthy_idemp.
    + by exists lock.
Qed.

Lemma lock_updates_keep_the_rest_witness :
  ∃ lock',
    read_skill_lock
      (add_skill_to_lock "docx" "acme/skills" "github" "" "abc" None
         "2025-02-02T00:00:00" (disk_holding (VDict lock_data_example))).2
    = Ok lock'
    ∧ version lock' = VInt 3.
Proof.
  assert (Hread : read_skill_lock (disk_holding (VDict lock_data_example))
                  = Ok example_lock) by (by vm_compute).
  pose proof (lock_updates_keep_the_rest _ example_lock "docx" "acme/skills" "github"
                "" "abc" None "2025-02-02T00:00:00" Hread) as Hboth.
  apply Forall_cons in Hboth as [(lock' & Hlock & Hversion & _) _].
  exists lock'. split; [exact Hlock|exact Hversion].
Defined.

(** The queries after a write of the lock that was read. *)
Lemma get_skill_after_update (d d' : Disk) (lock : SkillLockFile)
    (sk : gmap string SkillLockEntry) (name : string) :
  read_skill_lock d = Ok lock →
  get_skill_from_lock name (write_skill_lock (with_skills lock sk) d')
  = Ok (reloaded_entry <$> sk !! name).
Proof.
  intros Hread. unfold get_skill_from_lock.
  rewrite (read_after_update d d' lock sk Hread). simpl. by rewrite lookup_fmap.
Qed.

Lemma get_all_after_update (d d' : Disk) (lock : SkillLockFile)
    (sk : gmap string SkillLockEntry) :
  read_skill_lock d = Ok lock →
  get_all_locked_skills (write_skill_lock (with_skills lock sk) d')
  = Ok (reloaded_entry <$> sk).
Proof.
  intros Hread. unfold get_all_locked_skills.
  by rewrite (read_after_update d d' lock sk Hread).
Qed.

(** X4.  Adding a skill twice under one name leaves the entry of the second
    call, with the installation time of the entry that was there before the
    first call, or else the time of the first call; the file is written
    twice and the other skills stay as the file held them. *)
Theorem add_skill_to_lock_twice (d : Disk) (lock : SkillLockFile) (skill_name : string)
    (source1 source_type1 source_url1 hash1 : string) (path1 : option string)
    (now1 : string)
    (source2 source_type2 source_url2 hash2 : string) (path2 : option string)
    (now2 : string) :
  read_skill_lock d = Ok lock →
  let d1 := (add_skill_to_lock skill_name source1 source_type1 source_url1 hash1
               path1 now1 d).2 in
  let d2 := (add_skill_to_lock skill_name source2 source_type2 source_url2 hash2
               path2 now2 d1).2 in
  (∃ entry, get_skill_from_lock skill_name d2 = Ok (Some entry)
     ∧ installed_at entry
       = match skills lock !! skill_name with
         | Some old => installed_at old
         | None => VStr now1
         end
     ∧ updated_at entry = VStr now2
     ∧ source entry = VStr source2
     ∧ source_type entry = VStr source_type2
     ∧ source_url entry = VStr source_url2
     ∧ skill_folder_hash entry = VStr hash2
     ∧ skill_path entry = kept_if_truthy (of_optional_str path2))
  ∧ writes d2 = S (S (writes d))
  ∧ (∀ other, other ≠ skill_name →
       get_skill_from_lock other d2 = Ok (reloaded_entry <$> skills lock !! other)).
Proof.
  intros Hread d1 d2. subst d1 d2.
  rewrite (add_skill_to_lock_eq _ _ _ _ _ _ _ _ _ Hread). simpl.
  pose proof (λ sk, read_after_update d d lock sk Hread) as Hread1.
  rewrite (add_skill_to_lock_eq _ _ _ _ _ _ _ _ _ (Hread1 _)). simpl.
  split; [|split; [reflexivity|]].
  - eexists. split.
    + rewrite (get_skill_after_update _ _ _ _ _ (Hread1 _)).
      by rewrite lookup_insert_eq.
    + simpl. rewrite lookup_fmap, lookup_insert_eq. simpl.
      by destruct (skills lock !! skill_name).
  - intros other Hother.
    rewrite (get_skill_after_update _ _ _ _ _ (Hread1 _)).
    rewrite lookup_insert_ne by done. simpl.
    rewrite lookup_fmap, lookup_insert_ne by done.
    destruct (skills lock !! other); simpl; [|done].
    by rewrite reloaded_entry_idemp.
Qed.

Lemma add_skill_to_lock_twice_witness :
  let d := disk_holding (VDict lock_data_example) in
  let d1 := (add_skill_to_lock "pdf" "acme/skills" "github" "" "abc" None
               "2025-02-02T00:00:00" d).2 in
  let d2 := (add_skill_to_lock "pdf" "acme/skills" "github" "" "def" None
               "2025-03-03T00:00:00" d1).2 in
  ∃ entry, get_skill_from_lock "pdf" d2 = Ok (Some entry)
    ∧ installed_at entry = VStr "2025-01-01T00:00:00"
    ∧ updated_at entry = VStr "2025-03-03T00:00:00".
Proof.
  intros d d1 d2.
  assert (Hread : read_skill_lock d = Ok example_lock) by (by vm_compute).
  destruct (add_skill_to_lock_twice d example_lock "pdf"
              "acme/skills" "github" "" "abc" None "2025-02-02T00:00:00"
              "acme/skills" "github" "" "def" None "2025-03-03T00:00:00" Hread)
    as [(entry & Hget & Hinstalled & Hupdated & _) _].
  exists entry. split; [exact Hget|]. split; [|exact Hupdated].
  rewrite Hinstalled. reflexivity.
Defined.

(** X5.  Removing a skill that has just been added returns [True] and leaves
    the skills the file held before without that name: for a name that was
    not tracked, the skills that were there (as the file gives them back). *)
Theorem add_then_remove (d : Disk) (lock : SkillLockFile)
    (skill_name source source_type source_url skill_folder_hash : string)
    (skill_path : option string) (now : string) :
  read_skill_lock d = Ok lock →
  let d1 := (add_skill_to_lock skill_name source source_type source_url
               skill_folder_hash skill_path now d).2 in
  ∃ d2, remove_skill_from_lock skill_name d1 = (Ok true, d2)
    ∧ get_all_locked_skills d2 = Ok (reloaded_entry <$> delete skill_name (skills lock))
    ∧ (skills lock !! skill_name = None →
       get_all_locked_skills d2 = Ok (reloaded_entry <$> skills lock)).
Proof.
  intros Hread d1. subst d1.
  rewrite (add_skill_to_lock_eq _ _ _ _ _ _ _ _ _ Hread). simpl.
  pose proof (λ sk, read_after_update d d lock sk Hread) as Hread1.
  rewrite (remove_skill_from_lock_eq _ _ _ (Hread1 _)). simpl.
  rewrite lookup_fmap, lookup_insert_eq. simpl. eexists. split; [reflexivity|].
  assert (Hall : get_all_locked_skills
            (write_skill_lock
               (with_skills
                  (reloaded (with_skills lock
                     (<[skill_name := new_entry (skills lock !! skill_name) source
                          source_type source_url skill_folder_hash skill_path now]>
                        (skills lock))))
                  (delete skill_name
                     (reloaded_entry <$>
                        <[skill_name := new_entry (skills lock !! skill_name) source
                            source_type source_url skill_folder_hash skill_path now]>
                          (skills lock))))
               (write_skill_lock
                  (with_skills lock
                     (<[skill_name := new_entry (skills lock !! skill_name) source
                          source_type source_url skill_folder_hash skill_path now]>
                        (skills lock))) d))
          = Ok (reloaded_entry <$> delete skill_name (skills lock))).
  { rewrite (get_all_after_update _ _ _ _ (Hread1 _)). f_equal.
    rewrite fmap_insert, delete_insert_eq, <- fmap_delete, <- map_fmap_compose.
    apply map_fmap_ext. intros ? e _. apply reloaded_entry_idemp. }
  split; [exact Hall|].
  intros Hnew. rewrite Hall. by rewrite delete_id.
Qed.

Lemma add_then_remove_witness :
  let d := disk_holding (VDict lock_data_example) in
  let d1 := (add_skill_to_lock "docx" "acme/skills" "github" "" "abc" None
               "2025-02-02T00:00:00" d).2 in
  ∃ d2, remove_skill_from_lock "docx" d1 = (Ok true, d2)
    ∧ get_all_locked_skills d2 = get_all_locked_skills d.
Proof.
  intros d d1.
  assert (Hread : read_skill_lock d = Ok example_lock) by (by vm_compute).
  destruct (add_then_remove d example_lock "docx" "acme/skills" "github" "" "abc"
              None "2025-02-02T00:00:00" Hread) as (d2 & Hremove & _ & Hall).
  exists d2. split; [exact Hremove|].
  rewrite Hall by (by vm_compute).
  unfold get_all_locked_skills. rewrite Hread. by vm_compute.
Defined.

(** X6.  Once [remove_skill_from_lock] has run, whatever it returned, the
    name is not in the lock, and a second call returns [False] and does not
    write the file. *)
Theorem remove_skill_from_lock_twice (d : Disk) (lock : SkillLockFile)
    (skill_name : string) :
  read_skill_lock d = Ok lock →
  let d1 := (remove_skill_from_lock skill_name d).2 in
  get_skill_from_lock skill_name d1 = Ok None
  ∧ remove_skill_from_lock skill_name d1 = (Ok false, d1).
Proof.
  intros Hread d1. subst d1.
  rewrite (remove_skill_from_lock_eq _ _ _ Hread).
  destruct (skills lock !! skill_name) eqn:Hin; simpl.
  - pose proof (read_after_update d d lock (delete skill_name (skills lock)) Hread)
      as Hread1.
    split.
    + rewrite (get_skill_after_update _ _ _ _ _ Hread).
      by rewrite lookup_delete_eq.
    + rewrite (remove_skill_from_lock_eq _ _ _ Hread1). simpl.
      by rewrite lookup_fmap, lookup_delete_eq.
  - split.
    + unfold get_skill_from_lock. rewrite Hread. simpl. by rewrite Hin.
    + rewrite (remove_skill_from_lock_eq _ _ _ Hread). by rewrite Hin.
Qed.

Lemma remove_skill_from_lock_twice_witness :
  let d1 := (remove_skill_from_lock "pdf" (disk_holding (VDict lock_data_example))).2 in
  remove_skill_from_lock "pdf" d1 = (Ok false, d1).
Proof.
  intros d1.
  assert (Hread : read_skill_lock (disk_holding (VDict lock_data_example))
                  = Ok example_lock) by (by vm_compute).
  exact (proj2 (remove_skill_from_lock_twice _ example_lock "pdf" Hread)).
Defined.

(** *** Dismissed prompts and selected agents *)

(** X7.  [dismiss_prompt] writes the file whatever the key; afterwards
    [is_prompt_dismissed] returns [True] for the key [find_skills_prompt]
    when that was the key dismissed and the earlier flag otherwise, [False]
    for another key, and the skills are what the file held. *)
Theorem dismiss_prompt_spec (d : Disk) (lock : SkillLockFile) (prompt_key : string) :
  read_skill_lock d = Ok lock →
  let d1 := (dismiss_prompt prompt_key d).2 in
  (dismiss_prompt prompt_key d).1 = Ok ()
  ∧ writes d1 = S (writes d)
  ∧ is_prompt_dismissed "find_skills_prompt" d1
    = Ok (if String.eqb prompt_key "find_skills_prompt" then VBool true
          else find_skills_prompt (dismissed lock))
  ∧ (prompt_key ≠ "find_skills_prompt" →
     is_prompt_dismissed prompt_key d1 = Ok (VBool false))
  ∧ get_all_locked_skills d1 = Ok (reloaded_entry <$> skills lock).
Proof.
  intros Hread d1. subst d1. unfold dismiss_prompt. rewrite Hread. simpl.
  destruct (read_skill_lock_version _ _ Hread) as (z & Hz & Hcur).
  split; [reflexivity|]. split; [reflexivity|].
  unfold is_prompt_dismissed, get_all_locked_skills.
  destruct (String.eqb prompt_key "find_skills_prompt") eqn:Hkey.
  - rewrite (read_after_write _ d z) by done. simpl.
    split; [reflexivity|]. split; [|reflexivity].
    intros Hne. by apply String.eqb_eq in Hkey.
  - rewrite (read_after_write _ d z) by done. simpl.
    split; [reflexivity|]. split; [|reflexivity].
    by intros _.
Qed.

Lemma dismiss_prompt_spec_witness :
  is_prompt_dismissed "find_skills_prompt"
    (dismiss_prompt "find_skills_prompt" (disk_holding (VDict lock_data_example))).2
  = Ok (VBool true).
Proof.
  assert (Hread : read_skill_lock (disk_holding (VDict lock_data_example))
                  = Ok example_lock) by (by vm_compute).
  destruct (dismiss_prompt_spec _ example_lock "find_skills_prompt" Hread)
    as (_ & _ & Hflag & _).
  exact Hflag.
Defined.

(** X8.  After [save_selected_agents], [get_last_selected_agents] returns
    the saved list, except that an empty list comes back as [None]; the
    skills and the dismissed flag are what the file held. *)
Theorem save_selected_agents_spec (d : Disk) (lock : SkillLockFile)
    (agents : list string) :
  read_skill_lock d = Ok lock →
  let d1 := (save_selected_agents agents d).2 in
  (save_selected_agents agents d).1 = Ok ()
  ∧ get_last_selected_agents d1
    = Ok (match agents with
          | [] => VNone
          | _ => VList (VStr <$> agents)
          end)
  ∧ get_all_locked_skills d1 = Ok (reloaded_entry <$> skills lock)
  ∧ is_prompt_dismissed "find_skills_prompt" d1
    = Ok (find_skills_prompt (dismissed lock)).
Proof.
  intros Hread d1. subst d1. unfold save_selected_agents. rewrite Hread. simpl.
  destruct (read_skill_lock_version _ _ Hread) as (z & Hz & Hcur).
  split; [reflexivity|].
  unfold get_last_selected_agents, get_all_locked_skills, is_prompt_dismissed.
  rewrite (read_after_write _ d z) by done. simpl.
  split; [|done]. by destruct agents.
Qed.

Lemma save_selected_agents_spec_witness :
  get_last_selected_agents
    (save_selected_agents [] (disk_holding (VDict lock_data_example))).2
  = Ok VNone.
Proof.
  assert (Hread : read_skill_lock (disk_holding (VDict lock_data_example))
                  = Ok example_lock) by (by vm_compute).
  destruct (save_selected_agents_spec _ example_lock [] Hread) as (_ & Hagents & _).
  exact Hagents.
Defined.

(** *** A file of an earlier version *)

(** X9.  When the file holds a JSON object of an earlier version (or one
    without an integer version or without a [skills] key), adding a skill
    replaces it: afterwards the lock tracks the new skill alone, no prompt is
    dismissed and no agents are remembered. *)
Theorem add_skill_to_lock_replaces_stale (d : Disk) (data : gmap string pyval)
    (skill_name source source_type source_url skill_folder_hash : string)
    (skill_path : option string) (now : string) :
  lock_file d = Content (Json (VDict data)) →
  is_int (dict_get data "version" VNone) = false
  ∨ data !! "skills" = None
  ∨ int_value (dict_get data "version" VNone) < CURRENT_VERSION →
  let d1 := (add_skill_to_lock skill_name source source_type source_url
               skill_folder_hash skill_path now d).2 in
  get_all_locked_skills d1
  = Ok {[ skill_name :=
            reloaded_entry (new_entry None source source_type source_url
                              skill_folder_hash skill_path now) ]}
  ∧ is_prompt_dismissed "find_skills_prompt" d1 = Ok (VBool false)
  ∧ get_last_selected_agents d1 = Ok VNone
  ∧ read_skill_lock d1
    = Ok (with_skills _create_empty_lock_file
            {[ skill_name :=
                 reloaded_entry (new_entry None source source_type source_url
                                   skill_folder_hash skill_path now) ]}).
Proof.
  intros Hf Hstale d1. subst d1.
  pose proof (read_skill_lock_stale _ _ Hf Hstale) as Hread.
  rewrite (add_skill_to_lock_eq _ _ _ _ _ _ _ _ _ Hread). simpl.
  unfold get_all_locked_skills, is_prompt_dismissed, get_last_selected_agents.
  rewrite (read_after_update d d _ _ Hread). simpl.
  rewrite lookup_empty, insert_empty. unfold reloaded. simpl.
  by rewrite map_fmap_singleton.
Qed.

Lemma add_skill_to_lock_replaces_stale_witness :
  get_all_locked_skills
    (add_skill_to_lock "xlsx" "acme/skills" "github" "" "abc" None
       "2025-02-02T00:00:00" (disk_holding (VDict stale_lock_data))).2
  = Ok {[ "xlsx" := new_entry None "acme/skills" "github" "" "abc" None
                      "2025-02-02T00:00:00" ]}.
Proof.
  assert (Hold : int_value (dict_get stale_lock_data "version" VNone) < CURRENT_VERSION)
    by (by vm_compute).
  destruct (add_skill_to_lock_replaces_stale (disk_holding (VDict stale_lock_data))
              stale_lock_data "xlsx" "acme/skills" "github" "" "abc" None
              "2025-02-02T00:00:00" eq_refl (or_intror (or_intror Hold)))
    as (Hall & _).
  exact Hall.
Defined.

End lock_api.

(** ** The update check *)

Section update_check.
Import SkillLock SkillLockApi Cli.

Lemma is_empty_spec {A} (m : gmap string A) : is_empty m = true ↔ m = ∅.
Proof.
  unfold is_empty. rewrite <- map_to_list_empty_iff.
  by destruct (map_to_list m).
Qed.

Lemma is_empty_false {A} (m : gmap string A) : is_empty m = false ↔ m ≠ ∅.
Proof. rewrite <- is_empty_spec. by destruct (is_empty m). Qed.

Lemma check_skills_lookup (lock : SkillLockFile) (skill_name : string) :
  check_skills lock !! skill_name
  = skills lock !! skill_name ≫= λ entry,
      if truthy (skill_folder_hash entry) then Some (check_item skill_name entry)
      else None.
Proof. unfold check_skills. by rewrite map_lookup_imap. Qed.

(** The items are empty exactly when no tracked skill has a true folder
    hash. *)
Lemma check_skills_empty (lock : SkillLockFile) :
  check_skills lock = ∅
  ↔ ∀ skill_name entry, skills lock !! skill_name = Some entry →
      truthy (skill_folder_hash entry) = false.
Proof.
  split.
  - intros Hempty skill_name entry Hin.
    pose proof (check_skills_lookup lock skill_name) as Hlookup.
    rewrite Hempty, lookup_empty, Hin in Hlookup. simpl in Hlookup.
    by destruct (truthy (skill_folder_hash entry)).
  - intros Hnone. apply map_eq. intros skill_name.
    rewrite check_skills_lookup, lookup_empty.
    destruct (skills lock !! skill_name) as [entry|] eqn:Hin; [|done]. simpl.
    by rewrite (Hnone _ _ Hin).
Qed.

(** X10.  The update check of [run_check] and [run_update] has three
    outcomes once the lock is read: nothing is tracked; skills are tracked
    but none has a folder hash, and no request is made; or a request is made
    with one item for each tracked skill whose folder hash is true and for no
    other, the item carrying the name, source, path and hash of that skill. *)
Theorem plan_check_spec (d : Disk) (lock : SkillLockFile) :
  read_skill_lock d = Ok lock →
  ∃ plan, plan_check d = Ok plan
    ∧ match plan with
      | NoSkillsTracked => skills lock = ∅
      | NoSkillsToCheck =>
          skills lock ≠ ∅
          ∧ ∀ skill_name entry, skills lock !! skill_name = Some entry →
              truthy (skill_folder_hash entry) = false
      | PostCheck items =>
          (∃ skill_name entry, skills lock !! skill_name = Some entry
             ∧ truthy (skill_folder_hash entry) = true)
          ∧ ∀ skill_name item,
              items !! skill_name = Some item
              ↔ ∃ entry, skills lock !! skill_name = Some entry
                  ∧ truthy (skill_folder_hash entry) = true
                  ∧ item !! "name" = Some (VStr skill_name)
                  ∧ item !! "source" = Some (source entry)
                  ∧ item !! "path" = Some (skill_path entry)
                  ∧ item !! "skillFolderHash" = Some (skill_folder_hash entry)
                  ∧ dom item = {["name"; "source"; "path"; "skillFolderHash"]}
      end.
Proof.
  intros Hread. unfold plan_check. rewrite Hread. simpl.
  destruct (is_empty (skills lock)) eqn:Hskills.
  { eexists. split; [reflexivity|]. by apply is_empty_spec. }
  apply is_empty_false in Hskills.
  destruct (is_empty (check_skills lock)) eqn:Hitems.
  { eexists. split; [reflexivity|]. split; [done|].
    by apply check_skills_empty, is_empty_spec. }
  eexists. split; [reflexivity|]. split.
  - apply is_empty_false in Hitems.
    destruct (map_choose _ Hitems) as (skill_name & item & Hitem).
    rewrite check_skills_lookup in Hitem.
    destruct (skills lock !! skill_name) as [entry|] eqn:Hin; [|done].
    simpl in Hitem. exists skill_name, entry. split; [done|].
    by destruct (truthy (skill_folder_hash entry)).
  - intros skill_name item. rewrite check_skills_lookup. split.
    + destruct (skills lock !! skill_name) as [entry|]; [|done]. simpl.
      destruct (truthy (skill_folder_hash entry)) eqn:Hhash; [|done].
      intros [= <-]. exists entry. unfold check_item.
      repeat split; done.
    + intros (entry & Hin & Htrue & Hname & Hsource & Hpath & Hhash & Hdom).
      rewrite Hin. simpl. rewrite Htrue. f_equal. apply map_eq. intros key. unfold check_item.
      destruct (decide (key = "name")) as [->|?]; [by simplify_map_eq|].
      destruct (decide (key = "source")) as [->|?]; [by simplify_map_eq|].
      destruct (decide (key = "path")) as [->|?]; [by simplify_map_eq|].
      destruct (decide (key = "skillFolderHash")) as [->|?]; [by simplify_map_eq|].
      rewrite !lookup_insert_ne, lookup_empty by done.
      symmetry. apply not_elem_of_dom. rewrite Hdom, !elem_of_union, !elem_of_singleton. tauto.
Qed.

Lemma plan_check_spec_witness :
  ∃ plan, plan_check (disk_holding (VDict lock_data_example)) = Ok plan
    ∧ plan = NoSkillsToCheck.
Proof.
  assert (Hread : read_skill_lock (disk_holding (VDict lock_data_example))
                  = Ok example_lock) by (by vm_compute).
  destruct (plan_check_spec _ example_lock Hread) as (plan & Hplan & Hcase).
  exists plan. split; [exact Hplan|].
  assert (Hpdf : skills example_lock !! "pdf"
                 = Some (entry_of_dict (<["source" := VStr "acme/skills"]>
                      (<["installedAt" := VStr "2025-01-01T00:00:00"]>
                      (<["updatedAt" := VStr "2025-01-01T00:00:00"]> ∅)))))
    by (by vm_compute).
  destruct plan as [| |items]; [|reflexivity|].
  - rewrite Hcase in Hpdf. by rewrite lookup_empty in Hpdf.
  - destruct Hcase as [(skill_name & entry & Hin & Hhash) _].
    unfold example_lock, example_entries in Hin. simpl in Hin.
    rewrite fmap_insert, fmap_empty in Hin.
    apply lookup_insert_Some in Hin as [[_ <-]|[_ Hin]]; [|by rewrite lookup_empty in Hin].
    by vm_compute in Hhash.
Defined.

(** X11.  A skill added without a folder hash (the default of
    [add_skill_to_lock]) is tracked but is never among the items of the
    update check; when it is the only skill, no request is made. *)
Theorem added_without_hash_is_not_checked (d : Disk) (lock : SkillLockFile)
    (skill_name source source_type source_url : string) (skill_path : option string)
    (now : string) :
  read_skill_lock d = Ok lock →
  let d1 := (add_skill_to_lock skill_name source source_type source_url ""
               skill_path now d).2 in
  plan_check d1 ≠ Ok NoSkillsTracked
  ∧ (∀ items, plan_check d1 = Ok (PostCheck items) → items !! skill_name = None)
  ∧ (skills lock = ∅ → plan_check d1 = Ok NoSkillsToCheck).
Proof.
  intros Hread d1. subst d1.
  rewrite (add_skill_to_lock_eq _ _ _ _ _ _ _ _ _ Hread). simpl.
  unfold plan_check. rewrite (read_after_update d d _ _ Hread). simpl.
  set (sk := reloaded_entry <$> _).
  set (lock1 := reloaded _).
  assert (Hin : sk !! skill_name
                = Some (reloaded_entry (new_entry (skills lock !! skill_name) source
                          source_type source_url "" skill_path now))).
  { unfold sk. by rewrite lookup_fmap, lookup_insert_eq. }
  assert (Hsk : is_empty sk = false).
  { apply is_empty_false. intros Hempty. by rewrite Hempty, lookup_empty in Hin. }
  rewrite Hsk.
  assert (Hitem : check_skills lock1 !! skill_name = None).
  { rewrite check_skills_lookup. unfold lock1. simpl. fold sk. by rewrite Hin. }
  split; [by destruct (is_empty (check_skills lock1))|]. split.
  - intros items. destruct (is_empty (check_skills lock1)); [done|].
    by intros [= <-].
  - intros Hempty.
    assert (Hnone : check_skills lock1 = ∅).
    { apply check_skills_empty. intros name entry. unfold lock1. simpl.
      rewrite Hempty, insert_empty, map_fmap_singleton.
      intros [_ <-]%lookup_singleton_Some. reflexivity. }
    by rewrite (proj2 (is_empty_spec _) Hnone).
Qed.

Lemma added_without_hash_is_not_checked_witness :
  plan_check (add_skill_to_lock "docx" "acme/skills" "github" "" "" None
                "2025-02-02T00:00:00" (disk_holding (VDict stale_lock_data))).2
  = Ok NoSkillsToCheck.
Proof.
  assert (Hread : read_skill_lock (disk_holding (VDict stale_lock_data))
                  = Ok _create_empty_lock_file) by (by vm_compute).
  exact (proj2 (proj2 (added_without_hash_is_not_checked _ _create_empty_lock_file
                         "docx" "acme/skills" "github" "" None "2025-02-02T00:00:00"
                         Hread)) eq_refl).
Defined.

End update_check.

(** ** The folder of a skill path and its hash *)

Section folder_hash.
Import PyStr SkillLockApi.
#[local] Arguments String.append !_ _ : simpl nomatch.
#[local] Arguments ascii_eqb : simpl never.

Lemma drop_all (s : string) : drop (len s) s = "".
Proof. unfold len. induction s as [|c s IH]; simpl; [reflexivity|exact IH]. Qed.

Lemma endswith_app (a x : string) : endswith (a ++ x) x = true.
Proof.
  unfold endswith. rewrite len_app.
  rewrite (proj2 (Nat.leb_le _ _)) by lia.
  replace (len a + len x - len x)%nat with (len a) by lia.
  rewrite drop_app_len. simpl. apply String.eqb_refl.
Qed.

Lemma endswith_spec (s x : string) : endswith s x = true ↔ ∃ a, s = a ++ x.
Proof.
  split.
  - unfold endswith. intros [_ Heq]%andb_prop. apply String.eqb_eq in Heq.
    exists (take (len s - len x) s). set (n := (len s - len x)%nat) in *.
    rewrite <- Heq. by rewrite take_drop.
  - intros [a ->]. apply endswith_app.
Qed.

Lemma app_inv_tail_s (a b x : string) : a ++ x = b ++ x → a = b.
Proof.
  intros Heq.
  assert (Hlen : len a = len b).
  { apply (f_equal len) in Heq. rewrite !len_app in Heq. lia. }
  rewrite <- (take_app_len a x), Heq, Hlen. apply take_app_len.
Qed.

Lemma slice_to_suffix (a x : string) :
  x ≠ "" → slice_to (a ++ x) (- Z.of_nat (len x)) = a.
Proof.
  intros Hx. unfold slice_to, clamp. rewrite len_app.
  assert (Hlen : (0 < len x)%nat) by (destruct x; [done|unfold len; simpl; lia]).
  rewrite (proj2 (Z.ltb_lt _ _)) by lia.
  replace (Z.to_nat _) with (len a) by lia.
  apply take_app_len.
Qed.

(** *** [rstrip] and [replace] for one character *)

Lemma rstrip_aux_char (c : ascii) (a : string) :
  rstrip_aux c (a ++ String c "") = rstrip_aux c a.
Proof.
  induction a as [|x a IH]; simpl; [by rewrite ascii_eqb_refl|]. by rewrite IH.
Qed.

Lemma rstrip_char (c : ascii) (a : string) : rstrip c (a ++ String c "") = rstrip c a.
Proof. unfold rstrip. by rewrite rstrip_aux_char. Qed.

Lemma rstrip_aux_last (c : ascii) (s r : string) :
  rstrip_aux c s = Some r → r ≠ "" ∧ ∀ a, r ≠ a ++ String c "".
Proof.
  revert r. induction s as [|x s IH]; intros r; simpl; [discriminate|].
  destruct (rstrip_aux c s) as [r'|].
  - intros [= <-]. split; [done|]. intros a Ha.
    destruct (IH r' eq_refl) as [Hne Hlast].
    destruct a as [|y a]; simpl in Ha.
    + injection Ha as _ Hr. by apply Hne.
    + injection Ha as _ Hr. by apply (Hlast a).
  - destruct (ascii_eqb x c) eqn:Hxc; [discriminate|].
    intros [= <-]. split; [done|]. intros a Ha.
    destruct a as [|y a]; simpl in Ha.
    + injection Ha as ->. by rewrite ascii_eqb_refl in Hxc.
    + injection Ha as _ Hr. by destruct a.
Qed.

(** A stripped string does not end with the character. *)
Lemma rstrip_no_tail (c : ascii) (s : string) :
  endswith (rstrip c s) (String c "") = false.
Proof.
  destruct (endswith _ _) eqn:Hends; [|reflexivity].
  apply endswith_spec in Hends as [a Ha]. unfold rstrip in Ha.
  destruct (rstrip_aux c s) as [r|] eqn:Hr; simpl in Ha.
  - by destruct (proj2 (rstrip_aux_last _ _ _ Hr) a).
  - by destruct a.
Qed.

Lemma has_char_prefix (a b : string) (c : ascii) :
  has_char (a ++ b) c = false → has_char a c = false.
Proof. rewrite has_char_app. by intros [? ?]%orb_false_elim. Qed.

Lemma replace_char_app (a x new : string) (b : ascii) :
  replace (a ++ x) (String b "") new
  = replace a (String b "") new ++ replace x (String b "") new.
Proof.
  unfold replace. induction a as [|c a IH]; [reflexivity|].
  change (String c a ++ x) with (String c (a ++ x)).
  simpl. destruct (ascii_eqb b c); simpl.
  - rewrite IH. by rewrite app_assoc_s.
  - by rewrite IH.
Qed.

Lemma replace_char_gone (s new : string) (b : ascii) :
  has_char new b = false → has_char (replace s (String b "") new) b = false.
Proof.
  intros Hnew. unfold replace. induction s as [|c s IH]; [reflexivity|].
  simpl. destruct (ascii_eqb b c) eqn:Hbc; simpl.
  - rewrite has_char_app. by rewrite Hnew, IH.
  - rewrite IH. rewrite orb_false_r.
    destruct (ascii_eqb c b) eqn:Hcb; [|reflexivity].
    apply ascii_eqb_true in Hcb as ->. by rewrite ascii_eqb_refl in Hbc.
Qed.

(** X12.  The folder path that [fetch_skill_folder_hash] looks up has no
    backslash and no trailing slash, and for a skill path that ends in
    [SKILL.md] it is the path before that name, with forward slashes and
    without trailing slashes. *)
Theorem folder_path_of_spec (skill_path : string) :
  has_char (folder_path_of skill_path) (ascii_of_nat 92) = false
  ∧ endswith (folder_path_of skill_path) "/" = false
  ∧ folder_path_of (skill_path ++ "SKILL.md")
    = rstrip "/" (replace skill_path backslash "/")
  ∧ folder_path_of (skill_path ++ "/SKILL.md")
    = rstrip "/" (replace skill_path backslash "/").
Proof.
  assert (Hfile : ∀ p, folder_path_of (p ++ "SKILL.md")
                       = rstrip "/" (replace p backslash "/")).
  { intros p. unfold folder_path_of, backslash. rewrite replace_char_app.
    change (replace "SKILL.md" _ "/") with "SKILL.md".
    set (q := replace p _ "/").
    destruct (endswith (q ++ "SKILL.md") "/SKILL.md") eqn:Hslash.
    - apply endswith_spec in Hslash as [a Ha].
      change "/SKILL.md" with ("/" ++ "SKILL.md") in Ha.
      rewrite <- app_assoc_s in Ha. apply app_inv_tail_s in Ha. rewrite Ha.
      rewrite app_assoc_s. change ("/" ++ "SKILL.md") with "/SKILL.md".
      pose proof (slice_to_suffix a "/SKILL.md") as Hcut.
      change (- Z.of_nat (len "/SKILL.md")) with (-9) in Hcut.
      rewrite Hcut by done. by rewrite rstrip_char.
    - rewrite endswith_app.
      pose proof (slice_to_suffix q "SKILL.md") as Hcut.
      change (- Z.of_nat (len "SKILL.md")) with (-8) in Hcut.
      by rewrite Hcut. }
  split; [|split; [|split]].
  - unfold folder_path_of.
    destruct (rstrip_prefix "/" (if endswith (replace skill_path backslash "/") "/SKILL.md"
       then slice_to (replace skill_path backslash "/") (-9)
       else if endswith (replace skill_path backslash "/") "SKILL.md"
            then slice_to (replace skill_path backslash "/") (-8)
            else replace skill_path backslash "/")) as [t Ht].
    apply (has_char_prefix _ t). rewrite <- Ht.
    assert (Hgone : has_char (replace skill_path backslash "/") (ascii_of_nat 92) = false)
      by (by apply replace_char_gone).
    assert (Htake : ∀ n, has_char (slice_to (replace skill_path backslash "/") n)
                           (ascii_of_nat 92) = false).
    { intros n. unfold slice_to.
      apply (has_char_prefix _ (drop (clamp (replace skill_path backslash "/") n)
                                  (replace skill_path backslash "/"))).
      by rewrite take_drop. }
    by repeat destruct (endswith _ _).
  - apply rstrip_no_tail.
  - apply Hfile.
  - change "/SKILL.md" with ("/" ++ "SKILL.md"). rewrite <- app_assoc_s, Hfile.
    unfold backslash. rewrite replace_char_app.
    change (replace "/" _ "/") with "/". apply rstrip_char.
Qed.

(** *** The lookup on one branch *)

Lemma eq_str_true (v : pyval) (t : string) : eq_str v t = true ↔ v = VStr t.
Proof.
  destruct v; simpl; try (split; [discriminate|by intros [=]]).
  rewrite String.eqb_eq. split; [by intros ->|by intros [=]].
Qed.


Lemma find_tree_entry_skips (folder_path : string) (entry : gmap string pyval)
    (rest : list pyval) :
  ¬ names_folder folder_path entry →
  find_tree_entry folder_path (VDict entry :: rest) = find_tree_entry folder_path rest.
Proof.
  intros Hno. simpl.
  destruct (eq_str (dict_get entry "type" VNone) "tree") eqn:Htype; [|reflexivity].
  destruct (eq_str (dict_get entry "path" VNone) folder_path) eqn:Hpath; [|reflexivity].
  destruct Hno. split; by apply eq_str_true.
Qed.

Lemma find_tree_entry_none (folder_path : string) (entries : list (gmap string pyval)) :
  Forall (λ entry, ¬ names_folder folder_path entry) entries →
  find_tree_entry folder_path (VDict <$> entries) = Ok None.
Proof.
  induction 1 as [|entry entries Hno _ IH]; [reflexivity|].
  rewrite fmap_cons, find_tree_entry_skips by done. exact IH.
Qed.

Lemma find_tree_entry_first (folder_path : string)
    (before : list (gmap string pyval)) (entry : gmap string pyval)
    (after : list pyval) :
  Forall (λ entry, ¬ names_folder folder_path entry) before →
  names_folder folder_path entry →
  find_tree_entry folder_path ((VDict <$> before) ++ VDict entry :: after)
  = Ok (Some (dict_get entry "sha" VNone)).
Proof.
  intros Hbefore [Htype Hpath].
  induction Hbefore as [|e before Hno _ IH].
  - simpl. rewrite Htype, Hpath. simpl. by rewrite String.eqb_refl.
  - rewrite fmap_cons. change ((VDict e :: ?l) ++ ?r)%list with (VDict e :: (l ++ r))%list.
    rewrite find_tree_entry_skips by done. exact IH.
Qed.

Lemma lookup_on_branch_nothing (g : GitHub) (owner_repo folder_path branch : string) :
  branch_gives_nothing g owner_repo folder_path branch →
  lookup_on_branch g owner_repo folder_path branch = Ok None.
Proof.
  unfold lookup_on_branch.
  intros [Hget | (response & Hget & Hcase)]; rewrite Hget; [reflexivity|]. simpl.
  destruct (status_code response =? 200) eqn:Hstatus; simpl; [|reflexivity].
  destruct Hcase as [Hne | [Hjson | (Hpath & data & entries & Hjson & Htree & Hno)]].
  - by apply Z.eqb_eq in Hstatus.
  - by rewrite Hjson.
  - rewrite Hjson. simpl.
    rewrite (proj2 (String.eqb_neq _ _) Hpath). rewrite Htree. simpl.
    by rewrite find_tree_entry_none.
Qed.

Lemma lookup_on_branch_gives (g : GitHub) (owner_repo folder_path branch : string)
    (sha : pyval) :
  branch_gives g owner_repo folder_path branch sha →
  lookup_on_branch g owner_repo folder_path branch = Ok (Some sha).
Proof.
  unfold lookup_on_branch.
  intros (response & data & Hget & Hstatus & Hjson & Hcase).
  rewrite Hget. simpl. rewrite Hstatus. simpl. rewrite Hjson. simpl.
  destruct (String.eqb folder_path ""); [by rewrite Hcase|].
  destruct Hcase as (before & entry & after & Htree & Hbefore & Hentry & ->).
  rewrite Htree. simpl. by rewrite find_tree_entry_first.
Qed.

(** What leaves the [try] of a branch is neither of the two classes of its
    [except] clause. *)
Lemma lookup_on_branch_raises (g : GitHub) (owner_repo folder_path branch : string)
    (e : exn) :
  lookup_on_branch g owner_repo folder_path branch = Raise e →
  e ≠ RequestError ∧ e ≠ JSONDecodeError.
Proof.
  unfold lookup_on_branch, try_except.
  destruct (_ ≫= _) as [found|e']; [discriminate|].
  destruct (existsb _ _) eqn:Hcaught; [discriminate|].
  intros [= <-]. by destruct e'.
Qed.

(** X13.  [fetch_skill_folder_hash] asks for the tree of [main] and returns
    its answer for the folder; when [main] has none (failed request, status
    other than 200, a body that is not JSON, or no tree entry for the folder)
    it returns the answer of [master], and [None] when that has none either.
    The answer is the hash of the whole tree for a skill at the root and the
    hash of the first entry of type [tree] at the folder path otherwise.  No
    request error or JSON decoding error leaves the function. *)
Theorem fetch_skill_folder_hash_spec (g : GitHub) (owner_repo skill_path : string) :
  let folder_path := folder_path_of skill_path in
  let outcome := fetch_skill_folder_hash g owner_repo skill_path in
  (∀ sha, branch_gives g owner_repo folder_path "main" sha → outcome = Ok sha)
  ∧ (∀ sha, branch_gives_nothing g owner_repo folder_path "main" →
       branch_gives g owner_repo folder_path "master" sha → outcome = Ok sha)
  ∧ (branch_gives_nothing g owner_repo folder_path "main" →
     branch_gives_nothing g owner_repo folder_path "master" → outcome = Ok VNone)
  ∧ (∀ e, outcome = Raise e → e ≠ RequestError ∧ e ≠ JSONDecodeError).
Proof.
  intros folder_path outcome. subst outcome.
  unfold fetch_skill_folder_hash. fold folder_path. simpl.
  split; [|split; [|split]].
  - intros sha Hmain. by rewrite (lookup_on_branch_gives _ _ _ _ _ Hmain).
  - intros sha Hmain Hmaster.
    rewrite (lookup_on_branch_nothing _ _ _ _ Hmain). simpl.
    by rewrite (lookup_on_branch_gives _ _ _ _ _ Hmaster).
  - intros Hmain Hmaster.
    rewrite (lookup_on_branch_nothing _ _ _ _ Hmain). simpl.
    by rewrite (lookup_on_branch_nothing _ _ _ _ Hmaster).
  - intros e.
    destruct (lookup_on_branch g owner_repo folder_path "main") as [[v|]|e1] eqn:Hmain;
      simpl; [discriminate| |].
    + destruct (lookup_on_branch g owner_repo folder_path "master")
        as [[v|]|e2] eqn:Hmaster; simpl; [discriminate|discriminate|].
      intros [= <-]. by eapply lookup_on_branch_raises.
    + intros [= <-]. by eapply lookup_on_branch_raises.
Qed.

Lemma fetch_skill_folder_hash_spec_witness :
  fetch_skill_folder_hash github_with_master "acme/skills" "skills/pdf/SKILL.md"
  = Ok (VStr "ddd").
Proof.
  apply (proj1 (proj2 (fetch_skill_folder_hash_spec github_with_master "acme/skills"
                         "skills/pdf/SKILL.md"))).
  - right. exists {| status_code := 404; text := "" |}. split; [reflexivity|].
    by left.
  - exists {| status_code := 200; text := "tree" |}, example_tree.
    split; [reflexivity|]. split; [reflexivity|]. split; [reflexivity|].
    change (String.eqb (folder_path_of "skills/pdf/SKILL.md") "") with false.
    cbv iota.
    exists [tree_entry "skills" "tree" "bbb";
            tree_entry "skills/pdf/SKILL.md" "blob" "ccc"],
      (tree_entry "skills/pdf" "tree" "ddd"), [].
    split; [reflexivity|]. split; [|split; [|reflexivity]].
    + repeat constructor; intros [Htype Hpath]; vm_compute in Htype, Hpath; congruence.
    + split; reflexivity.
Defined.

End folder_hash.

(** ** The choice of a provider *)

Section provider_choice.
Context `{validation : !NetlocValidation}.

(** No two of the three providers match the same URL. *)
Lemma match_exclusive (url : string) :
  matches (HuggingFace.match_ url) && matches (Mintlify.match_ url) = false
  ∧ matches (HuggingFace.match_ url) && matches (WellKnownProvider.match_ url) = false
  ∧ matches (Mintlify.match_ url) && matches (WellKnownProvider.match_ url) = false.
Proof.
  unfold HuggingFace.match_, Mintlify.match_, WellKnownProvider.match_.
  rewrite not_http_guard.
  destruct (is_http url); simpl; [|done].
  destruct (UrlParse.urlparse url) as [parsed|e]; simpl;
    [|by destruct (PyStr.endswith _ _)].
  destruct (String.eqb _ "huggingface.co") eqn:Hhost; simpl.
  - apply String.eqb_eq in Hhost. rewrite Hhost.
    destruct (PyStr.contains _ _), (PyStr.endswith (PyStr.lower url) _); simpl; done.
  - destruct (PyStr.endswith (PyStr.lower url) _); simpl; [|done].
    by destruct (bool_decide _).
Qed.

(** X14.  At most one of the HuggingFace, Mintlify and well-known providers
    matches a URL, so that [fetch_remote_skill] makes the same call when the
    two built-in providers are registered in the other order. *)
Theorem at_most_one_provider (w : World) (url : string) :
  (length (List.filter (λ provider, matches (match_ provider url))
             [huggingface_provider; mintlify_provider; wellknown_provider]) ≤ 1)%nat
  ∧ fetch_remote_skill [mintlify_provider; huggingface_provider] w url
    = fetch_remote_skill registry w url.
Proof.
  destruct (match_exclusive url) as (Hhm & Hhk & Hmk).
  unfold fetch_remote_skill. simpl.
  destruct (matches (HuggingFace.match_ url)),
    (matches (Mintlify.match_ url)),
    (matches (WellKnownProvider.match_ url)); simpl in *; try discriminate;
    split; (lia || reflexivity).
Qed.

Lemma find_provider_app (providers more : list HostProvider) (url : string)
    (found : HostProvider) :
  ProviderRegistry.find_provider providers url = Some found →
  ProviderRegistry.find_provider (providers ++ more) url = Some found.
Proof.
  induction providers as [|p ps IH]; simpl; [discriminate|].
  by destruct (matches (match_ p url)).
Qed.

(** X15.  [register] keeps the ids of a registry distinct: the providers
    already there stay in their places and keep precedence in
    [find_provider], the id of the provider given is in the registry
    afterwards, and registering it again changes nothing. *)
Theorem register_keeps_ids_apart (providers : list HostProvider)
    (provider : HostProvider) :
  let after := ProviderRegistry.register providers provider in
  (NoDup (id <$> providers) → NoDup (id <$> after))
  ∧ id provider ∈ id <$> after
  ∧ providers `prefix_of` after
  ∧ ProviderRegistry.register after provider = after
  ∧ (∀ url found, ProviderRegistry.find_provider providers url = Some found →
       ProviderRegistry.find_provider after url = Some found).
Proof.
  intros after. subst after.
  assert (Hregister : ProviderRegistry.register providers provider
            = if existsb (λ existing, String.eqb (id existing) (id provider)) providers
              then providers else (providers ++ [provider])%list) by reflexivity.
  destruct (existsb _ providers) eqn:Hex; rewrite Hregister.
  - assert (Hin : id provider ∈ id <$> providers).
    { apply existsb_exists in Hex as (existing & Hin & Hid).
      apply String.eqb_eq in Hid. rewrite <- Hid.
      apply list_elem_of_fmap. exists existing. split; [done|].
      by apply list_elem_of_In. }
    split; [done|]. split; [done|]. split; [done|].
    split; [by apply register_duplicate|done].
  - assert (Hnew : id provider ∉ id <$> providers).
    { intros (existing & Hid & Hin)%list_elem_of_fmap.
      assert (existsb (λ existing, String.eqb (id existing) (id provider)) providers
              = true); [|congruence].
      apply existsb_exists. exists existing. split; [by apply list_elem_of_In|].
      rewrite Hid. apply String.eqb_refl. }
    split; [|split; [|split; [|split]]].
    + intros Hnodup. rewrite fmap_app. apply NoDup_app. split; [done|].
      split; [|apply NoDup_singleton].
      intros x Hx [->|[]%elem_of_nil]%elem_of_cons. by apply Hnew.
    + rewrite fmap_app. apply elem_of_app. right. by apply list_elem_of_singleton.
    + by apply prefix_app_r.
    + apply register_duplicate. rewrite fmap_app. apply elem_of_app. right.
      by apply list_elem_of_singleton.
    + intros url found. apply find_provider_app.
Qed.

(** X16.  [fetch_remote_skill] makes no request and returns [None] for a
    URL that does not start with [http://] or [https://], for one that
    [urlparse] rejects, and for one whose host is [github.com],
    [gitlab.com] or [raw.githubusercontent.com]. *)
Theorem fetch_remote_skill_declines (w : World) (url : string) :
  (is_http url = false → fetch_remote_skill registry w url = Ok None)
  ∧ (∀ e, UrlParse.urlparse url = Raise e → fetch_remote_skill registry w url = Ok None)
  ∧ (∀ parsed host,
       UrlParse.urlparse url = Ok parsed →
       UrlParse.hostname parsed = Some host →
       host ∈ ["github.com"; "gitlab.com"; "raw.githubusercontent.com"] →
       fetch_remote_skill registry w url = Ok None).
Proof.
  unfold fetch_remote_skill. simpl.
  unfold HuggingFace.match_, Mintlify.match_, WellKnownProvider.match_.
  rewrite not_http_guard.
  split; [by intros ->|]. split.
  - intros e ->. by destruct (is_http url), (PyStr.endswith _ _).
  - intros parsed host Hparse Hname Hhost. rewrite Hparse. simpl.
    rewrite Hname. simpl.
    assert (Hnot : String.eqb host "huggingface.co" = false).
    { apply String.eqb_neq. intros ->.
      apply (bool_decide_eq_true_2 _) in Hhost. by vm_compute in Hhost. }
    assert (Hexcluded : host ∈ Mintlify.EXCLUDED_HOSTS).
    { unfold Mintlify.EXCLUDED_HOSTS. revert Hhost.
      rewrite !elem_of_cons, !elem_of_nil. tauto. }
    rewrite Hnot. simpl.
    rewrite (bool_decide_eq_true_2 _ Hexcluded).
    change WellKnownProvider.EXCLUDED_HOSTS with Mintlify.EXCLUDED_HOSTS.
    rewrite (bool_decide_eq_true_2 _ Hexcluded).
    by destruct (is_http url), (PyStr.endswith _ _).
Qed.

(** X17.  The well-known provider matches exactly the URLs that start with
    [http://] or [https://], are accepted by [urlparse], have a host that
    is not excluded, do not end in [/skill.md] when lower-cased and do not
    end in [.git].  On a match the source identifier is the hostname, or
    the URL itself when it names no host.  [to_raw_url] returns its
    argument. *)
Theorem wellknown_match_spec (url : string) :
  (matches (WellKnownProvider.match_ url) = true ↔
     is_http url = true
     ∧ PyStr.endswith (PyStr.lower url) "/skill.md" = false
     ∧ PyStr.endswith url ".git" = false
     ∧ ∃ parsed, UrlParse.urlparse url = Ok parsed
         ∧ default "" (UrlParse.hostname parsed) ∉ WellKnownProvider.EXCLUDED_HOSTS)
  ∧ (matches (WellKnownProvider.match_ url) = true →
       ∃ parsed, UrlParse.urlparse url = Ok parsed
         ∧ source_identifier (WellKnownProvider.match_ url)
           = Some (match UrlParse.hostname parsed with
                   | Some host => host
                   | None => url
                   end))
  ∧ WellKnownProvider.to_raw_url url = url.
Proof.
  unfold WellKnownProvider.match_, WellKnownProvider.get_source_identifier.
  rewrite not_http_guard.
  split; [|split; [|reflexivity]].
  - destruct (is_http url); simpl; [|by split; [|intros []]].
    destruct (UrlParse.urlparse url) as [parsed|e]; simpl;
      [|by split; [|intros (_ & _ & _ & p & ? & _)]].
    destruct (bool_decide _) eqn:Hex; simpl.
    + apply bool_decide_eq_true in Hex. split; [done|].
      intros (_ & _ & _ & p & [= <-] & Hnot). contradiction.
    + apply bool_decide_eq_false in Hex.
      destruct (PyStr.endswith (PyStr.lower url) _); simpl;
        [by split; [|intros (_ & ? & _)]|].
      destruct (PyStr.endswith url _); simpl;
        [by split; [|intros (_ & _ & ? & _)]|].
      split; [|done]. intros _. do 3 (split; [done|]). by exists parsed.
  - destruct (is_http url); simpl; [|done].
    destruct (UrlParse.urlparse url) as [parsed|e]; simpl; [|done].
    destruct (bool_decide _); simpl; [done|].
    destruct (PyStr.endswith (PyStr.lower url) _); simpl; [done|].
    destruct (PyStr.endswith url _); simpl; [done|].
    intros _. exists parsed. split; [reflexivity|].
    by destruct (UrlParse.hostname parsed).
Qed.

End provider_choice.

(** ** A fetch that succeeds *)

Section fetch_success.
Context `{validation : !NetlocValidation}.
Import PyStr.
#[local] Arguments String.append !_ _ : simpl nomatch.
#[local] Arguments ascii_eqb : simpl never.

Lemma extra_metadata_lookup (post : gmap string pyval) (key : string) :
  extra_metadata post !! key
  = if bool_decide (key ∈ ["name"; "description"]) then None else post !! key.
Proof.
  unfold extra_metadata. apply option_eq. intros v.
  rewrite map_lookup_filter_Some. simpl.
  destruct (bool_decide _) eqn:Hkey.
  - apply bool_decide_eq_true in Hkey. split; [by intros [_ ?]|discriminate].
  - apply bool_decide_eq_false in Hkey. split; [by intros [? _]|done].
Qed.

Lemma metadata_or_none_None (md : gmap string pyval) :
  metadata_or_none md = None ↔ md = ∅.
Proof.
  unfold metadata_or_none. simpl. rewrite <- map_to_list_empty_iff.
  by destruct (map_to_list md).
Qed.

Lemma metadata_or_none_Some (md md' : gmap string pyval) :
  metadata_or_none md = Some md' → md' = md.
Proof. unfold metadata_or_none. destruct (truthy _); [by intros [= <-]|discriminate]. Qed.

(** The [metadata] field of a fetched skill: the front-matter keys other
    than [name] and [description], and [None] when there are none. *)
Lemma fetched_metadata (post : gmap string pyval) :
  (metadata_or_none (extra_metadata post) = None
   ↔ ∀ key, key ∉ ["name"; "description"] → post !! key = None)
  ∧ (∀ md key, metadata_or_none (extra_metadata post) = Some md →
       md !! key
       = if bool_decide (key ∈ ["name"; "description"]) then None else post !! key).
Proof.
  split.
  - rewrite metadata_or_none_None. split.
    + intros Hempty key Hkey.
      pose proof (extra_metadata_lookup post key) as Hlookup.
      rewrite Hempty, lookup_empty in Hlookup.
      by rewrite bool_decide_eq_false_2 in Hlookup.
    + intros Hnone. apply map_eq. intros key.
      rewrite extra_metadata_lookup, lookup_empty.
      destruct (bool_decide _) eqn:Hkey; [done|].
      apply bool_decide_eq_false in Hkey. by apply Hnone.
  - intros md key ->%metadata_or_none_Some. apply extra_metadata_lookup.
Qed.

(** X18.  When the request of the Mintlify provider is answered with status
    200 and the document has a true [name] and [description], the outcome
    depends on the install name.  When [metadata.mintlify-proj] is true or
    the name is a string, a skill is returned: it carries the name and the
    description, the document as content and the URL as source URL; its
    metadata are the other front-matter keys, or [None] when there are
    none; its install name is [metadata.mintlify-proj] when that is true,
    and else the name in lower case with hyphens for spaces.  When
    [metadata.mintlify-proj] is not true and the name is not a string, no
    skill is returned: the call raises [AttributeError]. *)
Theorem mintlify_fetch_skill_success (w : World) (url : string) (response : Response)
    (post : gmap string pyval) :
  http_get w url = Ok response →
  status_code response = 200 →
  frontmatter_loads w (text response) = Ok post →
  truthy (dict_get post "name" VNone) = true →
  truthy (dict_get post "description" VNone) = true →
  let chosen := metadata_install_name post "mintlify-proj" in
  (truthy chosen = true ∨ (∃ s, dict_get post "name" VNone = VStr s) →
   ∃ skill,
     Mintlify.fetch_skill w url = Ok (Some (Remote skill))
     ∧ name skill = dict_get post "name" VNone
     ∧ description skill = dict_get post "description" VNone
     ∧ content skill = text response
     ∧ source_url skill = url
     ∧ (truthy chosen = true → install_name skill = chosen)
     ∧ (truthy chosen = false → ∀ s, dict_get post "name" VNone = VStr s →
          install_name skill = VStr (replace (lower s) " " "-"))
     ∧ (metadata skill = None
        ↔ ∀ key, key ∉ ["name"; "description"] → post !! key = None)
     ∧ (∀ md key, metadata skill = Some md →
          md !! key
          = if bool_decide (key ∈ ["name"; "description"]) then None
            else post !! key))
  ∧ (truthy chosen = false →
     (∀ s, dict_get post "name" VNone ≠ VStr s) →
     Mintlify.fetch_skill w url = Raise AttributeError).
Proof.
  intros Hget Hstatus Hpost Hname Hdescription chosen.
  unfold Mintlify.fetch_skill. rewrite Hget. simpl. rewrite Hstatus. simpl.
  rewrite Hpost. simpl. rewrite Hname, Hdescription. simpl. fold chosen.
  destruct (fetched_metadata post) as [Hnone Hsome].
  split.
  - intros Hinstall. destruct (truthy chosen) eqn:Hchosen; simpl.
    + eexists. split; [reflexivity|]. simpl.
      split_and!; [done..|exact Hnone|exact Hsome].
    + destruct Hinstall as [?|[s Hs]]; [done|]. rewrite Hs. simpl.
      eexists. split; [reflexivity|]. simpl.
      split_and!; [done..| |exact Hnone|exact Hsome].
      by intros _ s' [= <-].
  - intros -> Hother. simpl.
    destruct (dict_get post "name" VNone) as [| | | |s| |]; try reflexivity.
    by destruct (Hother s).
Qed.


(** *** The install name made from a name *)

Lemma replace_char_len (s : string) (b n : ascii) :
  len (replace s (String b "") (String n "")) = len s.
Proof.
  unfold replace, len. induction s as [|c s IH]; [reflexivity|].
  simpl. destruct (ascii_eqb b c); simpl; by rewrite IH.
Qed.

Lemma replace_char_all (p : ascii → bool) (s : string) (b n : ascii) :
  p n = true → all p s = true → all p (replace s (String b "") (String n "")) = true.
Proof.
  intros Hn. unfold replace. induction s as [|c s IH]; [reflexivity|].
  simpl. intros [Hc Hs]%andb_prop.
  destruct (ascii_eqb b c); simpl; rewrite IH by done; [by rewrite Hn|by rewrite Hc].
Qed.

Lemma lower_char_not_upper (c : ascii) : is_upper (lower_char c) = false.
Proof.
  destruct c as [[] [] [] [] [] [] [] []]; vm_compute; reflexivity.
Qed.

Lemma lower_not_upper (s : string) : all (λ c, negb (is_upper c)) (lower s) = true.
Proof.
  induction s as [|c s IH]; [reflexivity|]. simpl.
  by rewrite lower_char_not_upper, IH.
Qed.

Lemma lower_len (s : string) : len (lower s) = len s.
Proof. unfold len. induction s as [|c s IH]; simpl; [reflexivity|]. by rewrite IH. Qed.

Lemma lower_char_ascii (c : ascii) :
  Nat.ltb (code c) 128 = true → Nat.ltb (code (lower_char c)) 128 = true.
Proof.
  destruct c as [[] [] [] [] [] [] [] []]; vm_compute; done.
Qed.

Lemma lower_ascii (s : string) : ascii_text s = true → ascii_text (lower s) = true.
Proof.
  unfold ascii_text. induction s as [|c s IH]; [done|]. simpl.
  intros [Hc Hs]%andb_prop. by rewrite (lower_char_ascii _ Hc), (IH Hs).
Qed.

(** X20.  For a name that is a string of ASCII characters, the install name
    made from it is a string of ASCII characters of the same length that
    contains no space and no upper-case letter; a name that is not a string
    raises [AttributeError]. *)
Theorem name_based_install_name_shape :
  (∀ s, ascii_text s = true →
     ∃ t, name_based_install_name (VStr s) = Ok (VStr t)
       ∧ ascii_text t = true
       ∧ len t = len s
       ∧ has_char t " " = false
       ∧ all (λ c, negb (is_upper c)) t = true)
  ∧ (∀ name, (∀ s, name ≠ VStr s) →
       name_based_install_name name = Raise AttributeError).
Proof.
  split.
  - intros s Hascii. eexists. split; [reflexivity|]. split_and!.
    + apply replace_char_all; [reflexivity|by apply lower_ascii].
    + by rewrite replace_char_len, lower_len.
    + by apply replace_char_gone.
    + apply replace_char_all; [reflexivity|apply lower_not_upper].
  - intros name Hother. destruct name as [| | | |s| |]; try reflexivity.
    by destruct (Hother s).
Qed.

Lemma name_based_install_name_shape_witness :
  ∃ t, name_based_install_name (VStr "Deploy Site") = Ok (VStr t)
    ∧ len t = 11%nat
    ∧ has_char t " " = false.
Proof.
  destruct (proj1 name_based_install_name_shape "Deploy Site" eq_refl)
    as (t & Hname & _ & Hlen & Hspace & _).
  exists t. split; [exact Hname|]. split; [exact Hlen|exact Hspace].
Defined.

End fetch_success.

(** ** The well-known provider: which skill is fetched *)

Section wellknown_fetch.
Context `{validation : !NetlocValidation}.
Import PyStr.
#[local] Arguments String.append !_ _ : simpl nomatch.
#[local] Arguments ascii_eqb : simpl never.









(** *** One skill and all skills *)

Lemma gather_Ok {A} (tasks : list (result A)) (results : list A) :
  gather tasks = Ok results → tasks = Ok <$> results.
Proof.
  revert results. induction tasks as [|t ts IH]; intros results; simpl.
  - by intros [= <-].
  - destruct t as [r|e]; simpl; [|discriminate].
    destruct (gather ts) as [rs|e]; simpl; [|discriminate].
    intros [= <-]. by rewrite (IH rs eq_refl).
Qed.

(** What [fetch_skill] returns is the outcome of the fetch of an entry of
    the index. *)
Lemma wellknown_fetch_skill_entry (w : World) (url : string) (skill : Skill) :
  WellKnownProvider.fetch_skill w url = Ok (Some skill) →
  ∃ index entry fetched,
    fetch_index w url = Ok (Some index)
    ∧ entry ∈ index_skills index
    ∧ fetch_skill_by_entry w url entry = Ok (Some fetched)
    ∧ skill = WellKnown fetched.
Proof.
  unfold WellKnownProvider.fetch_skill.
  destruct (fetch_index w url) as [[index|]|e]; simpl; [|discriminate..].
  destruct (index_skills index) as [|first rest] eqn:Hskills; [discriminate|].
  assert (Hone : ∀ entry, entry ∈ first :: rest →
            (fetch_skill_by_entry w url entry ≫= λ r : option WellKnownSkill, Ok (WellKnown <$> r))
            = Ok (Some skill) →
            ∃ index' entry' fetched,
              Ok (Some index) = Ok (Some index')
              ∧ entry' ∈ index_skills index'
              ∧ fetch_skill_by_entry w url entry' = Ok (Some fetched)
              ∧ skill = WellKnown fetched).
  { intros entry Hin.
    destruct (fetch_skill_by_entry w url entry) as [[fetched|]|e] eqn:Hfetch;
      simpl; [|discriminate..].
    intros [= <-]. exists index, entry, fetched. by rewrite Hskills. }
  destruct (WellKnownProvider.requested_skill_name url) as [skill_name|].
  - destruct (List.find _ (first :: rest)) as [entry|] eqn:Hfind; [|discriminate].
    apply Hone. apply find_some in Hfind as [Hin _]. by apply list_elem_of_In.
  - apply Hone. by left.
Qed.

(** X22.  A skill that [WellKnownProvider.fetch_skill] returns is a
    [WellKnownSkill], and it is among the skills that [fetch_all_skills]
    returns for the same URL. *)
Theorem wellknown_fetch_skill_among_all (w : World) (url : string) (skill : Skill)
    (all_skills : list WellKnownSkill) :
  WellKnownProvider.fetch_skill w url = Ok (Some skill) →
  WellKnownProvider.fetch_all_skills w url = Ok all_skills →
  ∃ fetched, skill = WellKnown fetched ∧ fetched ∈ all_skills.
Proof.
  intros (index & entry & fetched & Hindex & Hin & Hfetch & ->)%wellknown_fetch_skill_entry.
  unfold WellKnownProvider.fetch_all_skills. rewrite Hindex. simpl.
  destruct (index_skills index) as [|first rest] eqn:Hskills;
    [by apply elem_of_nil in Hin|].
  destruct (gather _) as [results|e] eqn:Hgather; simpl; [|discriminate].
  intros [= <-]. exists fetched. split; [reflexivity|].
  apply gather_Ok in Hgather.
  apply list_elem_of_omap. exists (Some fetched). split; [|reflexivity].
  assert (Htask : Ok (Some fetched) ∈ Ok <$> results).
  { rewrite <- Hgather, <- Hfetch. by apply list_elem_of_fmap_2. }
  apply list_elem_of_fmap in Htask as (r & [= ->] & Hr). exact Hr.
Qed.

(** X23.  [has_skills_index] is true exactly when [fetch_index] returns an
    index with at least one skill; when it is false, [fetch_skill] returns
    [None] and [fetch_all_skills] the empty list; and all three raise what
    [fetch_index] raises. *)
Theorem has_skills_index_spec (w : World) (url : string) :
  (WellKnownIndexFetch.has_skills_index w url = Ok true
   ↔ ∃ index, fetch_index w url = Ok (Some index) ∧ index_skills index ≠ [])
  ∧ (WellKnownIndexFetch.has_skills_index w url = Ok false →
     WellKnownProvider.fetch_skill w url = Ok None
     ∧ WellKnownProvider.fetch_all_skills w url = Ok [])
  ∧ (∀ e, fetch_index w url = Raise e →
       WellKnownIndexFetch.has_skills_index w url = Raise e
       ∧ WellKnownProvider.fetch_skill w url = Raise e
       ∧ WellKnownProvider.fetch_all_skills w url = Raise e).
Proof.
  unfold WellKnownIndexFetch.has_skills_index, WellKnownProvider.fetch_skill,
    WellKnownProvider.fetch_all_skills.
  destruct (fetch_index w url) as [[index|]|e]; simpl.
  - destruct (index_skills index) as [|first rest] eqn:Hskills; simpl.
    + split; [|done]. split; [discriminate|]. by intros (index' & [= <-] & Hne).
    + split; [|split; [discriminate|done]].
      split; [|done]. intros _. exists index. by rewrite Hskills.
  - split; [|done]. split; [discriminate|]. by intros (index' & ? & _).
  - split; [|split; [discriminate|by intros e' [= <-]]].
    split; [discriminate|]. by intros (index' & ? & _).
Qed.

End wellknown_fetch.

(** ** The request for the index *)

Section index_fetch.
Context `{validation : !NetlocValidation}.

Lemma entries_of_dicts (entries : list (gmap string pyval)) :
  WellKnownIndexFetch.entries_of (VDict <$> entries)
  = Ok (index_entry_of_dict <$> entries).
Proof.
  induction entries as [|entry entries IH]; [reflexivity|].
  rewrite fmap_cons. simpl. by rewrite IH.
Qed.

(** X24.  [fetch_index] computes the well-known base before its [try]: an
    error of [urlparse] leaves the function.  It then requests
    [<base>/index.json]: a request error, a status other than 200 and a body
    that is not JSON give [None]; a JSON object gives the index of the
    entries under [skills] in their order, each read with the defaults, an
    object without [skills] giving the empty index; JSON that is not an
    object raises [AttributeError]. *)
Theorem fetch_index_spec (w : World) (response_json : string → result pyval)
    (url : string) :
  (∀ e, WellKnownProvider._get_well_known_base url = Raise e →
     WellKnownIndexFetch.fetch_index w response_json url = Raise e)
  ∧ ∀ base, WellKnownProvider._get_well_known_base url = Ok base →
      (http_get w (base ++ "/index.json") = Raise RequestError →
       WellKnownIndexFetch.fetch_index w response_json url = Ok None)
      ∧ ∀ response, http_get w (base ++ "/index.json") = Ok response →
          (status_code response ≠ 200 →
           WellKnownIndexFetch.fetch_index w response_json url = Ok None)
          ∧ (status_code response = 200 →
             (∀ e, response_json (text response) = Raise e →
                isinstance e ValueError = true →
                WellKnownIndexFetch.fetch_index w response_json url = Ok None)
             ∧ (∀ data entries,
                  response_json (text response) = Ok (VDict data) →
                  dict_get data "skills" (VList []) = VList (VDict <$> entries) →
                  WellKnownIndexFetch.fetch_index w response_json url
                  = Ok (Some {| index_skills := index_entry_of_dict <$> entries |}))
             ∧ (∀ v, response_json (text response) = Ok v →
                  (∀ data, v ≠ VDict data) →
                  WellKnownIndexFetch.fetch_index w response_json url
                  = Raise AttributeError)).
Proof.
  unfold WellKnownIndexFetch.fetch_index. split; [by intros e ->|].
  intros base ->. simpl. split; [by intros ->|].
  intros response ->. simpl. split.
  - intros Hne. by rewrite (proj2 (Z.eqb_neq _ _) Hne).
  - intros ->. simpl. split; [|split].
    + intros e -> He. simpl. by rewrite He, orb_true_r.
    + intros data entries -> Hskills. simpl. rewrite Hskills. simpl.
      by rewrite entries_of_dicts.
    + intros v -> Hshape. destruct v; try reflexivity. by destruct (Hshape d).
Qed.

End index_fetch.

(** ** A fetch that raises at the join *)

Section join_failures.
Context `{validation : !NetlocValidation}.

Lemma gather_raises {A} (tasks : list (result A)) (e : exn) :
  Raise e ∈ tasks → ∃ e', gather tasks = Raise e'.
Proof.
  induction tasks as [|t ts IH]; [by intros ?%elem_of_nil|].
  intros [<-|Hin]%elem_of_cons; simpl; [by exists e|].
  destruct t as [r|e1]; simpl; [|by exists e1].
  destruct (IH Hin) as [e' ->]. by exists e'.
Qed.

(** C8 does not hold of the code.  [asyncio.gather] is called without
    [return_exceptions], so an entry whose fetch raises makes
    [fetch_all_skills] raise, and the skills fetched for the other entries
    are lost: here the fetch of the second of three entries raises
    [yaml.YAMLError] and the call raises it, although the first and the
    third were fetched.  An index that cannot be fetched because
    [fetch_index] raises (here [index.json] holds a JSON array, and
    [data.get] raises [AttributeError]) makes the call raise too, where the
    empty list was promised. *)
Theorem fetch_all_skills_raises (url : string) :
  (WellKnownProvider.fetch_all_skills world_with_broken_entry url = Raise YAMLError
   ∧ fetch_skill_by_entry world_with_broken_entry url (entry_named "a")
     = Ok (Some (skill_of (entry_named "a")))
   ∧ fetch_skill_by_entry world_with_broken_entry url (entry_named "b")
     = Raise YAMLError
   ∧ fetch_skill_by_entry world_with_broken_entry url (entry_named "c")
     = Ok (Some (skill_of (entry_named "c"))))
  ∧ (fetch_index world_with_array_index "https://example.com" = Raise AttributeError
     ∧ WellKnownProvider.fetch_all_skills world_with_array_index "https://example.com"
       = Raise AttributeError)
  ∧ ∀ w : World,
      (∀ e, fetch_index w url = Raise e →
         WellKnownProvider.fetch_all_skills w url = Raise e)
      ∧ (∀ index entry e,
           fetch_index w url = Ok (Some index) →
           entry ∈ index_skills index →
           fetch_skill_by_entry w url entry = Raise e →
           ∃ e', WellKnownProvider.fetch_all_skills w url = Raise e').
Proof.
  split; [by repeat split|]. split.
  - assert (Hindex : fetch_index world_with_array_index "https://example.com"
                     = Raise AttributeError) by (vm_compute; reflexivity).
    split; [exact Hindex|].
    unfold WellKnownProvider.fetch_all_skills. by rewrite Hindex.
  - intros w. unfold WellKnownProvider.fetch_all_skills. split.
    + by intros e ->.
    + intros index entry e -> Hin Hraise. simpl.
      destruct (index_skills index) as [|first rest] eqn:Hskills;
        [by apply elem_of_nil in Hin|].
      destruct (gather_raises (fetch_skill_by_entry w url <$> first :: rest) e)
        as [e' He'].
      { rewrite <- Hraise. by apply list_elem_of_fmap_2. }
      exists e'. by rewrite He'.
Qed.

End join_failures.

(** ** The owner and repository of a package string *)

Section owner_repo.
Import PyStr Find.
#[local] Arguments String.append !_ _ : simpl nomatch.
#[local] Arguments ascii_eqb : simpl never.

Lemma split_nonempty (c : ascii) (s : string) : split c s ≠ [].
Proof.
  destruct s as [|x s]; simpl; [done|].
  destruct (ascii_eqb x c); [done|]. by destruct (split c s).
Qed.

Lemma split_without (c : ascii) (s : string) :
  has_char s c = false → split c s = [s].
Proof.
  induction s as [|x s IH]; simpl; [done|].
  intros [Hx Hs]%orb_false_elim. by rewrite Hx, (IH Hs).
Qed.

Lemma split_app (c : ascii) (a b : string) :
  has_char a c = false → split c (a ++ String c b) = a :: split c b.
Proof.
  induction a as [|x a IH]; simpl.
  - intros _. by rewrite ascii_eqb_refl.
  - intros [Hx Ha]%orb_false_elim. by rewrite Hx, (IH Ha).
Qed.

Lemma split_one (c : ascii) (s part : string) :
  split c s = [part] → s = part ∧ has_char s c = false.
Proof.
  revert part. induction s as [|x s IH]; intros part; simpl.
  - by intros [= <-].
  - destruct (ascii_eqb x c).
    + intros [= _ Hrest]. by destruct (split_nonempty c s).
    + destruct (split c s) as [|p ps] eqn:Hsplit; [by destruct (split_nonempty c s)|].
      intros [= <- ->]. destruct (IH p eq_refl) as [-> Hs]. by rewrite Hs.
Qed.

Lemma split_two (c : ascii) (s first second : string) :
  split c s = [first; second] →
  s = first ++ String c second
  ∧ has_char first c = false ∧ has_char second c = false.
Proof.
  revert first. induction s as [|x s IH]; intros first; simpl; [discriminate|].
  destruct (ascii_eqb x c) eqn:Hx.
  - intros [= <- Hrest]. apply ascii_eqb_true in Hx as ->.
    by destruct (split_one _ _ _ Hrest) as [-> ?].
  - destruct (split c s) as [|p ps] eqn:Hsplit; [discriminate|].
    intros [= <- ->]. destruct (IH p eq_refl) as (-> & Hp & Hsecond).
    simpl. by rewrite Hx, Hp.
Qed.

Lemma rindex_of_none (s : string) (c : ascii) :
  has_char s c = false → rindex_of s c = None.
Proof.
  induction s as [|x s IH]; simpl; [done|].
  intros [Hx Hs]%orb_false_elim. by rewrite (IH Hs), Hx.
Qed.

Lemma rindex_of_last (s t : string) (c : ascii) :
  has_char t c = false → rindex_of (s ++ String c t) c = Some (len s).
Proof.
  intros Ht. induction s as [|x s IH]; simpl.
  - by rewrite (rindex_of_none _ _ Ht), ascii_eqb_refl.
  - by rewrite IH.
Qed.

(** X25.  [_get_owner_repo_from_string] reads [owner/repo] and
    [owner/repo@skill]: it returns the owner and the repository when neither
    contains a slash (and, without a skill, neither contains [@]); the skill
    is what follows the last [@].  Whatever it returns, the two parts
    contain no slash and the package string starts with
    [<owner>/<repo>]. *)
Theorem get_owner_repo_spec :
  (∀ owner repo,
     has_char owner "/" = false → has_char repo "/" = false →
     has_char owner "@" = false → has_char repo "@" = false →
     _get_owner_repo_from_string (owner ++ "/" ++ repo) = Some (owner, repo))
  ∧ (∀ owner repo skill,
       has_char owner "/" = false → has_char repo "/" = false →
       has_char skill "@" = false →
       _get_owner_repo_from_string (owner ++ "/" ++ repo ++ "@" ++ skill)
       = Some (owner, repo))
  ∧ (∀ pkg owner repo,
       _get_owner_repo_from_string pkg = Some (owner, repo) →
       has_char owner "/" = false ∧ has_char repo "/" = false
       ∧ startswith pkg (owner ++ "/" ++ repo) = true).
Proof.
  split; [|split].
  - intros owner repo Howner Hrepo Hat_owner Hat_repo.
    unfold _get_owner_repo_from_string, rfind.
    rewrite rindex_of_none by (by rewrite has_char_app; simpl; rewrite Hat_owner, Hat_repo).
    change (0 <? -1) with false. cbv iota.
    change ("/" ++ repo) with (String "/" repo).
    by rewrite (split_app _ _ _ Howner), (split_without _ _ Hrepo).
  - intros owner repo skill Howner Hrepo Hskill.
    unfold _get_owner_repo_from_string, rfind.
    assert (Hshape : owner ++ "/" ++ repo ++ "@" ++ skill
                     = (owner ++ "/" ++ repo) ++ String "@" skill)
      by (by rewrite app_assoc_s).
    rewrite Hshape, (rindex_of_last _ _ _ Hskill).
    assert (Hlen : (0 < len (owner ++ "/" ++ repo))%nat)
      by (rewrite len_app; unfold len; simpl; lia).
    rewrite (proj2 (Z.ltb_lt _ _)) by lia.
    rewrite slice_to_nat, take_app_len.
    change ("/" ++ repo) with (String "/" repo).
    by rewrite (split_app _ _ _ Howner), (split_without _ _ Hrepo).
  - intros pkg owner repo. unfold _get_owner_repo_from_string.
    set (repo_path := if 0 <? rfind pkg "@" then _ else _).
    assert (Hprefix : ∃ rest, pkg = repo_path ++ rest).
    { unfold repo_path. destruct (0 <? rfind pkg "@").
      - exists (drop (clamp pkg (rfind pkg "@")) pkg). unfold slice_to.
        by rewrite take_drop.
      - exists "". by rewrite app_nil_r_s. }
    clearbody repo_path.
    destruct (split "/" repo_path) as [|first [|second [|third parts]]] eqn:Hsplit;
      try discriminate.
    intros [= <- <-]. destruct (split_two _ _ _ _ Hsplit) as (Hpath & Hfirst & Hsecond).
    split; [done|]. split; [done|].
    destruct Hprefix as [rest ->]. rewrite Hpath.
    change ("/" ++ second) with (String "/" second). apply startswith_app.
Qed.

End owner_repo.

(** ** What the providers keep *)

Section provider_invariants.
Context `{validation : !NetlocValidation}.

(** What leaves a [try] is of none of the classes of its [except] clause,
    when the handler returns. *)
Lemma try_except_raises {A} (body : result A) (classes : list exn) (a : A) (e : exn) :
  try_except body classes (Ok a) = Raise e →
  Forall (λ cls, isinstance e cls = false) classes.
Proof.
  unfold try_except. destruct body as [?|e']; [discriminate|].
  destruct (existsb _ _) eqn:Hcaught; [discriminate|]. intros [= <-].
  apply Forall_forall. intros cls Hin.
  destruct (isinstance e' cls) eqn:Hcls; [|reflexivity].
  assert (existsb (isinstance e') classes = true); [|congruence].
  apply existsb_exists. exists cls. split; [by apply list_elem_of_In|done].
Qed.

(** X26.  An exception that leaves the [fetch_skill] of the Mintlify or the
    HuggingFace provider is neither an [httpx.RequestError] nor a
    [ValueError] (nor of a subclass of these, such as a JSON or Unicode
    decoding error). *)
Theorem fetch_skill_keeps_request_errors (w : World) (url : string) (e : exn) :
  Mintlify.fetch_skill w url = Raise e ∨ HuggingFace.fetch_skill w url = Raise e →
  isinstance e RequestError = false ∧ isinstance e ValueError = false.
Proof.
  intros [Hraise | Hraise]; apply try_except_raises in Hraise;
    apply Forall_cons in Hraise as [Hrequest Hvalue];
    apply Forall_cons in Hvalue as [Hvalue _]; by split.
Qed.

(** X27.  Each of the three providers gives a source identifier exactly
    when it matches. *)
Theorem match_gives_identifier (url : string) :
  Forall (λ provider,
            matches (match_ provider url) = true
            ↔ is_Some (source_identifier (match_ provider url)))
    [huggingface_provider; mintlify_provider; wellknown_provider].
Proof.
  assert (Hno : matches no_match = true ↔ is_Some (source_identifier no_match)).
  { split; [discriminate|]. by intros [? ?]. }
  assert (Hyes : ∀ identifier,
            matches {| matches := true; source_identifier := Some identifier |} = true
            ↔ is_Some (source_identifier
                         {| matches := true; source_identifier := Some identifier |}))
    by (by split; [eauto|]).
  repeat (apply Forall_cons; split); [| | |by constructor]; simpl.
  - unfold HuggingFace.match_.
    destruct (negb _ && negb _); [exact Hno|].
    destruct (UrlParse.urlparse url) as [parsed|?]; simpl; [|exact Hno].
    repeat (match goal with |- context [if ?b then _ else _] => destruct b end;
            simpl; try exact Hno).
    apply Hyes.
  - unfold Mintlify.match_.
    destruct (negb _ && negb _); [exact Hno|].
    destruct (negb _); [exact Hno|].
    destruct (UrlParse.urlparse url) as [parsed|?]; simpl; [|exact Hno].
    destruct (bool_decide _); simpl; [exact Hno|apply Hyes].
  - unfold WellKnownProvider.match_.
    destruct (negb _ && negb _); [exact Hno|].
    destruct (UrlParse.urlparse url) as [parsed|?]; simpl; [|exact Hno].
    repeat (match goal with |- context [if ?b then _ else _] => destruct b end;
            simpl; try exact Hno).
    apply Hyes.
Qed.

End provider_invariants.

(** ** Further concrete cases *)

Section further_examples.
#[local] Existing Instance no_bracket_validation.

Lemma register_keeps_ids_apart_witness :
  NoDup (id <$> ProviderRegistry.register
                  (ProviderRegistry.register [] huggingface_provider)
                  huggingface_provider).
Proof.
  apply (proj1 (register_keeps_ids_apart
                  (ProviderRegistry.register [] huggingface_provider)
                  huggingface_provider)).
  apply NoDup_singleton.
Defined.

Lemma fetch_remote_skill_declines_witness :
  fetch_remote_skill registry world_with_index "git@github.com:owner/repo.git"
  = Ok None.
Proof.
  apply (proj1 (fetch_remote_skill_declines world_with_index
                  "git@github.com:owner/repo.git")).
  reflexivity.
Defined.

Lemma wellknown_match_spec_witness :
  matches (WellKnownProvider.match_ "https://example.com/docs") = true
  ∧ ∃ parsed,
      UrlParse.urlparse "https://example.com/docs" = Ok parsed
      ∧ source_identifier (WellKnownProvider.match_ "https://example.com/docs")
        = Some (match UrlParse.hostname parsed with
                | Some host => host
                | None => "https://example.com/docs"
                end).
Proof.
  assert (Hmatch : matches (WellKnownProvider.match_ "https://example.com/docs") = true).
  { apply (proj1 (wellknown_match_spec "https://example.com/docs")).
    split; [reflexivity|]. split; [reflexivity|]. split; [reflexivity|].
    eexists. split; [vm_compute; reflexivity|].
    intros Hin. apply (bool_decide_eq_true_2 _) in Hin. vm_compute in Hin.
    discriminate. }
  split; [exact Hmatch|].
  exact (proj1 (proj2 (wellknown_match_spec "https://example.com/docs")) Hmatch).
Defined.

Lemma mintlify_fetch_skill_success_witness :
  ∃ skill,
    Mintlify.fetch_skill (world_serving document_with_licence (Ok metadata_with_licence))
      mintlify_url
    = Ok (Some (Remote skill))
    ∧ source_url skill = mintlify_url.
Proof.
  destruct (proj1 (mintlify_fetch_skill_success
                     (world_serving document_with_licence (Ok metadata_with_licence))
                     mintlify_url
                     {| status_code := 200; text := document_with_licence |}
                     metadata_with_licence eq_refl eq_refl eq_refl eq_refl eq_refl)
              (or_intror (ex_intro _ "Deploy Site" eq_refl)))
    as (skill & Hfetch & _ & _ & _ & Hsource & _).
  exists skill. split; [exact Hfetch|exact Hsource].
Defined.



Lemma wellknown_fetch_skill_among_all_witness :
  ∃ fetched,
    WellKnown (skill_of (entry_named "a")) = WellKnown fetched
    ∧ fetched ∈ [skill_of (entry_named "a"); skill_of (entry_named "c")].
Proof.
  apply (wellknown_fetch_skill_among_all world_with_index "https://example.com");
    reflexivity.
Defined.

Lemma has_skills_index_spec_witness :
  WellKnownIndexFetch.has_skills_index world_with_index "https://example.com" = Ok true.
Proof.
  apply (proj1 (has_skills_index_spec world_with_index "https://example.com")).
  eexists. split; [reflexivity|discriminate].
Defined.

Lemma fetch_index_spec_witness :
  WellKnownIndexFetch.fetch_index world_with_index_file
    (λ _, Ok (VDict example_index)) "https://example.com"
  = Ok (Some {| index_skills :=
                  [ {| entry_name := VStr "pdf";
                       entry_description := VStr "Reads PDF files";
                       entry_files := VList [VStr "SKILL.md"] |};
                    {| entry_name := VStr "docx";
                       entry_description := VStr "";
                       entry_files := VList [] |} ] |}).
Proof.
  assert (Hbase : WellKnownProvider._get_well_known_base "https://example.com"
                  = Ok "https://example.com/.well-known/skills")
    by (vm_compute; reflexivity).
  destruct (proj2 (fetch_index_spec world_with_index_file
                     (λ _, Ok (VDict example_index)) "https://example.com")
              _ Hbase) as [_ Hresponse].
  destruct (Hresponse {| status_code := 200; text := "index" |} eq_refl)
    as [_ Hok].
  destruct (Hok eq_refl) as (_ & Hindex & _).
  exact (Hindex example_index
           [ <["name" := VStr "pdf"]>
             (<["description" := VStr "Reads PDF files"]>
             (<["files" := VList [VStr "SKILL.md"]]> ∅));
             <["name" := VStr "docx"]> ∅ ] eq_refl eq_refl).
Defined.

Lemma get_owner_repo_spec_witness :
  Find._get_owner_repo_from_string "vercel-labs/agent-skills@pdf"
  = Some ("vercel-labs", "agent-skills").
Proof.
  apply (proj1 (proj2 get_owner_repo_spec) "vercel-labs" "agent-skills" "pdf");
    reflexivity.
Defined.

Lemma fetch_skill_keeps_request_errors_witness :
  isinstance AttributeError RequestError = false
  ∧ isinstance AttributeError ValueError = false.
Proof.
  apply (fetch_skill_keeps_request_errors
           (world_serving document_with_integer_name (Ok metadata_with_integer_name))
           "https://docs.example.com/deploy/skill.md").
  left. vm_compute. reflexivity.
Defined.

End further_examples.
